(** * Flight Data Management API: sortie recorder

    A shallow embedding of [server.js] (the Express handlers) and of the
    PostgreSQL schema, functions and triggers of [DATABASE_SETUP.md],
    followed by the properties of the sortie-creation protocol.

    Layout:
    - [Text], [Js], [Input] : SQL text functions, the scalar JavaScript
      values of a payload, and how the store reads a parameter;
    - [Schema] : tables, constraints, [generate_sortie_number] and the
      flight-hours trigger;
    - [Pg] : one connection's statements and transactions, and programs
      over a connection;
    - [Server], [Routes] : the POST /api/sorties handler and the route
      table;
    - [Query], [Search], [Listing] : the values of a query string, the
      statement GET /api/sorties/search builds, and the page of
      GET /api/sorties;
    - [Concurrent] : several requests on one store;
    - [Iso], [Sample], [Spec] : a store to run the model on, sample rows
      and payloads, the numbering rule in the specification's words;
    - the properties. *)

From Stdlib Require Import ZArith List String Ascii Bool Lia Permutation Sorted.
From Stdlib Require Import DecimalString DecimalZ DecimalPos DecimalN.
Import ListNotations.

Local Open Scope string_scope.
Local Open Scope Z_scope.

Set Implicit Arguments.

(* ------------------------------------------------------------------ *)
(** ** Errors a statement or the handler can raise *)

Inductive exn : Type :=
| TypeError                    (* JavaScript: property of undefined / null *)
| NotNullViolation
| CheckViolation
| UniqueViolation
| ForeignKeyViolation
| InvalidTextRepresentation    (* text not readable at the column's type *)
| NumericValueOutOfRange
| StringDataRightTruncation
| InFailedSqlTransaction.

Inductive result (A : Type) : Type :=
| Ok (a : A)
| Err (e : exn).
Arguments Ok {A} a.
Arguments Err {A} e.

Definition rbind {A B} (r : result A) (f : A -> result B) : result B :=
  match r with
  | Ok a => f a
  | Err e => Err e
  end.

Notation "'let?' x ':=' r 'in' k" := (rbind r (fun x => k))
  (at level 10, x pattern, r at level 100, k at level 200).

Definition guard (b : bool) (e : exn) : result unit :=
  if b then Ok tt else Err e.

(* ------------------------------------------------------------------ *)
(** ** SQL text functions *)

Module Text.

(** Decimal text of an integer, as [n::TEXT] prints it. *)
Definition of_Z (n : Z) : string := NilZero.string_of_int (Z.to_int n).

Fixpoint repeat_char (c : ascii) (n : nat) : string :=
  match n with
  | O => EmptyString
  | S k => String c (repeat_char c k)
  end.

Fixpoint take (n : nat) (s : string) : string :=
  match n, s with
  | S k, String c r => String c (take k r)
  | _, _ => EmptyString
  end.

Fixpoint drop (n : nat) (s : string) : string :=
  match n, s with
  | S k, String _ r => drop k r
  | _, _ => s
  end.

(** A text is held as its UTF-8 bytes: a character starts at every byte
    that is not a continuation byte ([10xxxxxx]). *)
Definition is_continuation (c : ascii) : bool :=
  Nat.leb 128 (nat_of_ascii c) && Nat.leb (nat_of_ascii c) 191.

(** The number of characters, and the first [n] characters. *)
Fixpoint char_length (s : string) : nat :=
  match s with
  | EmptyString => O
  | String c r => if is_continuation c then char_length r else S (char_length r)
  end.

Fixpoint take_chars (n : nat) (s : string) : string :=
  match s with
  | EmptyString => EmptyString
  | String c r =>
      if is_continuation c then String c (take_chars n r)
      else match n with
           | O => EmptyString
           | S k => String c (take_chars k r)
           end
  end.

(** [LPAD(s, len, fill)] with a one-character fill: a text longer than
    [len] is cut to its first [len] characters. *)
Definition lpad (s : string) (len : nat) (fill : ascii) : string :=
  if Nat.leb len (String.length s)
  then take len s
  else (repeat_char fill (len - String.length s) ++ s)%string.

(** [SUBSTRING(s FROM k)], positions counted from 1. *)
Definition substring_from (s : string) (k : nat) : string := drop (k - 1) s.

(** [s LIKE p]: [%] is any run of characters, [_] any one character.
    (No pattern built by the schema holds an escape character.) *)
Fixpoint like (p : string) : string -> bool :=
  match p with
  | EmptyString =>
      fun s => match s with EmptyString => true | _ => false end
  | String c p' =>
      if Ascii.eqb c "%" then
        fix any (s : string) : bool :=
          like p' s
          || match s with
             | EmptyString => false
             | String _ s' => any s'
             end
      else if Ascii.eqb c "_" then
        fun s => match s with
                 | String _ s' => like p' s'
                 | EmptyString => false
                 end
      else
        fun s => match s with
                 | String d s' => Ascii.eqb c d && like p' s'
                 | EmptyString => false
                 end
  end.

Definition is_space (c : ascii) : bool :=
  Ascii.eqb c " " || (Nat.leb 9 (nat_of_ascii c) && Nat.leb (nat_of_ascii c) 13).

Definition is_digit (c : ascii) : bool :=
  Nat.leb 48 (nat_of_ascii c) && Nat.leb (nat_of_ascii c) 57.

Fixpoint ltrim (s : string) : string :=
  match s with
  | String c r => if is_space c then ltrim r else s
  | EmptyString => EmptyString
  end.

(** Value of a run of digits followed only by blanks; [None] on an empty
    run or on any other character. *)
Fixpoint digits (acc : Z) (seen : bool) (s : string) : option Z :=
  match s with
  | EmptyString => if seen then Some acc else None
  | String c r =>
      if is_digit c
      then digits (10 * acc + (Z.of_nat (nat_of_ascii c) - 48)) true r
      else if seen && is_space c
           then match ltrim r with EmptyString => Some acc | _ => None end
           else None
  end.

(** The integer input function: blanks, an optional sign, decimal digits,
    blanks. *)
Definition to_Z (s : string) : option Z :=
  match ltrim s with
  | String c r =>
      if Ascii.eqb c "-" then option_map Z.opp (digits 0 false r)
      else if Ascii.eqb c "+" then digits 0 false r
      else digits 0 false (String c r)
  | EmptyString => None
  end.

Definition int4_min : Z := - 2147483648.
Definition int4_max : Z := 2147483647.

Definition in_int4 (n : Z) : bool := (int4_min <=? n) && (n <=? int4_max).

(** [CAST(s AS INTEGER)]. *)
Definition cast_integer (s : string) : result Z :=
  match to_Z s with
  | None => Err InvalidTextRepresentation
  | Some n => if in_int4 n then Ok n else Err NumericValueOutOfRange
  end.

(** [TO_CHAR(d, 'YYYY')] on the year of a date: at least four digits. *)
Definition to_char_yyyy (year : Z) : string :=
  let t := of_Z year in
  (repeat_char "0" (4 - String.length t) ++ t)%string.

Fixpoint mem (x : string) (l : list string) : bool :=
  match l with
  | [] => false
  | y :: r => String.eqb x y || mem x r
  end.

End Text.

(* ------------------------------------------------------------------ *)
(** ** JavaScript values of a payload

    The leaves of a request body, after [bodyParser.json()]: the handler
    only tests them for truthiness, applies [||] and hands them to the
    driver.  Numbers are modelled on the integers; a fraction, such as a
    weight of 150.5, travels as its text. *)

Module Js.

Inductive value : Type :=
| Undefined
| Null
| Bool (b : bool)
| Num (n : Z)
| Str (s : string).

Definition truthy (v : value) : bool :=
  match v with
  | Undefined | Null => false
  | Bool b => b
  | Num n => negb (n =? 0)
  | Str s => negb (s =? "")%string
  end.

(** [a || b] *)
Definition or (a b : value) : value := if truthy a then a else b.

(** What the driver sends for a query parameter: [null] and
    [undefined] become SQL NULL, anything else its text. *)
Definition prepareValue (v : value) : option string :=
  match v with
  | Undefined | Null => None
  | Bool true => Some "true"
  | Bool false => Some "false"
  | Num n => Some (Text.of_Z n)
  | Str s => Some s
  end.

End Js.

(* ------------------------------------------------------------------ *)
(** ** The store's input functions

    PostgreSQL reads every parameter from its text.  Integer and boolean
    input are written out below; the syntax of timestamps and of decimal
    numbers is the store's own, so the development is parametric in those
    two readers.  [timestamp_in] yields microseconds since 2000-01-01;
    [numeric_in] yields the value at the scale of a [DECIMAL(10, 2)]
    column, in hundredths, and [None] for a text that is unreadable or
    does not fit the column. *)

Class StoreInput : Type := {
  timestamp_in : string -> option Z;
  numeric_in : string -> option Z;
  numeric_in_zero : numeric_in "0" = Some 0
}.

Module Input.

Definition lower (c : ascii) : ascii :=
  let n := nat_of_ascii c in
  if Nat.leb 65 n && Nat.leb n 90 then ascii_of_nat (n + 32) else c.

Fixpoint lowercase (s : string) : string :=
  match s with
  | EmptyString => EmptyString
  | String c r => String (lower c) (lowercase r)
  end.

Fixpoint rtrim (blank : ascii -> bool) (s : string) : string :=
  match s with
  | EmptyString => EmptyString
  | String c r =>
      match rtrim blank r with
      | EmptyString => if blank c then EmptyString else String c EmptyString
      | r' => String c r'
      end
  end.

(** Boolean input: any prefix of true / false / yes / no, on / off (two
    letters at least), 1 / 0; case and surrounding blanks ignored. *)
Definition bool_in (s : string) : option bool :=
  let t := lowercase (rtrim Text.is_space (Text.ltrim s)) in
  if Text.mem t ["t"; "tr"; "tru"; "true"; "y"; "ye"; "yes"; "on"; "1"]
  then Some true
  else if Text.mem t ["f"; "fa"; "fal"; "fals"; "false"; "n"; "no"; "of"; "off"; "0"]
  then Some false
  else None.

(** A parameter at an [INTEGER] column. *)
Definition integer (v : Js.value) : result (option Z) :=
  match Js.prepareValue v with
  | None => Ok None
  | Some t => let? n := Text.cast_integer t in Ok (Some n)
  end.

(** A parameter at a [TEXT] column. *)
Definition text (v : Js.value) : result (option string) :=
  Ok (Js.prepareValue v).

(** A parameter at a [VARCHAR(n)] column, [n] counting characters: a
    longer text is an error unless only spaces run over, and these are
    cut off. *)
Definition varchar (n : nat) (v : Js.value) : result (option string) :=
  match Js.prepareValue v with
  | None => Ok None
  | Some t =>
      if Nat.leb (Text.char_length (rtrim (Ascii.eqb " ") t)) n
      then Ok (Some (Text.take_chars n t))
      else Err StringDataRightTruncation
  end.

(** A parameter at a [BOOLEAN] column. *)
Definition boolean (v : Js.value) : result (option bool) :=
  match Js.prepareValue v with
  | None => Ok None
  | Some t =>
      match bool_in t with
      | Some b => Ok (Some b)
      | None => Err InvalidTextRepresentation
      end
  end.

Section WithStore.
Context {store : StoreInput}.

(** A parameter at a [TIMESTAMP] column. *)
Definition timestamp (v : Js.value) : result (option Z) :=
  match Js.prepareValue v with
  | None => Ok None
  | Some t =>
      match timestamp_in t with
      | Some u => Ok (Some u)
      | None => Err InvalidTextRepresentation
      end
  end.

(** A parameter at a [DECIMAL(10, 2)] column. *)
Definition decimal (v : Js.value) : result (option Z) :=
  match Js.prepareValue v with
  | None => Ok None
  | Some t =>
      match numeric_in t with
      | Some h => Ok (Some h)
      | None => Err InvalidTextRepresentation
      end
  end.
End WithStore.

(** [NOT NULL] *)
Definition not_null {A} (v : option A) : result A :=
  match v with
  | Some a => Ok a
  | None => Err NotNullViolation
  end.

End Input.

(* ------------------------------------------------------------------ *)
(** ** The schema: rows *)

Module Aircraft.
(** [total_flight_hours DECIMAL(10, 2)] is kept in hundredths. *)
Record row : Type := {
  aircraft_id : Z;
  total_flight_hours : option Z
}.
End Aircraft.

Module Sorties.
Record row : Type := {
  sortie_id : Z;
  sortie_number : string;
  mission_type : string;
  aircraft_id : Z;
  departure_location_id : Z;
  arrival_location_id : Z;
  takeoff_time : Z;
  landing_time : Z;
  flight_duration_minutes : Z;
  sortie_status : option string;
  comments : option string;
  created_by : option Z
}.
End Sorties.

Module SortieCrew.
Record row : Type := {
  crew_assignment_id : Z;
  sortie_id : Z;
  personnel_id : Z;
  crew_position : string;
  crew_position_other : option string;
  remarks : option string;
  is_primary : option bool
}.
End SortieCrew.

Module SortiePassengers.
Record row : Type := {
  passenger_tracking_id : Z;
  sortie_id : Z;
  passenger_type : string;
  onload_count : Z;
  offload_count : Z;
  notes : option string
}.
End SortiePassengers.

Module SortieCargo.
(** Weights are [DECIMAL(10, 2)], kept in hundredths. *)
Record row : Type := {
  cargo_tracking_id : Z;
  sortie_id : Z;
  onload_weight : Z;
  offload_weight : Z;
  cargo_description : option string;
  hazmat_onboard : option bool;
  special_handling : option string
}.
End SortieCargo.

(** The tables.  [users], [locations] and [personnel] are only ever
    referenced by key, so they are kept as their lists of keys.  The audit
    columns ([created_at], [updated_at], [completed_at]) and the triggers
    that only stamp [updated_at] are left out. *)
Record tables : Type := {
  users : list Z;
  locations : list Z;
  personnel : list Z;
  aircraft : list Aircraft.row;
  sorties : list Sorties.row;
  sortie_crew : list SortieCrew.row;
  sortie_passengers : list SortiePassengers.row;
  sortie_cargo : list SortieCargo.row
}.

(** Last values of the [SERIAL] sequences. *)
Record sequences : Type := {
  sorties_sortie_id_seq : Z;
  sortie_crew_crew_assignment_id_seq : Z;
  sortie_passengers_passenger_tracking_id_seq : Z;
  sortie_cargo_cargo_tracking_id_seq : Z
}.

(** Rows written by one statement of the handler. *)
Inductive new_row : Type :=
| NewSortie (r : Sorties.row)
| NewCrew (r : SortieCrew.row)
| NewPassengers (r : SortiePassengers.row)
| NewCargo (r : SortieCargo.row).

(* ------------------------------------------------------------------ *)
(** ** The schema: constraints, functions and triggers *)

Module Schema.

Definition mission_types : list string :=
  ["CASEVAC"; "PR"; "Enabling"; "Training"; "Lift"].
Definition sortie_statuses : list string :=
  ["Planned"; "In-Flight"; "Completed"; "Cancelled"; "Aborted"].
Definition crew_positions : list string :=
  ["PIC"; "SIC"; "O/I"; "Other"].
Definition passenger_types : list string :=
  ["Military"; "Civilian"; "Contractor"; "Partner Forces"; "Other"].

(** [CHECK (c IN (...))]: satisfied by NULL. *)
Definition check_in (v : option string) (allowed : list string) : bool :=
  match v with
  | None => true
  | Some s => Text.mem s allowed
  end.

Definition has_key (k : Z) (keys : list Z) : bool := existsb (Z.eqb k) keys.

(** [a / b] rounded to the nearest integer, halves away from zero
    ([b] positive): the rounding of a [numeric] stored at a smaller
    scale. *)
Definition div_round (a b : Z) : Z :=
  if 0 <=? a then (2 * a + b) / (2 * b) else - ((2 * (- a) + b) / (2 * b)).

(** [DECIMAL(10, 2)] in hundredths: ten digits in all. *)
Definition fits_decimal_10_2 (h : Z) : bool := Z.abs h <? 10000000000.

(** [CONSTRAINT valid_flight_times CHECK (landing_time > takeoff_time)] *)
Definition valid_flight_times (r : Sorties.row) : bool :=
  Sorties.takeoff_time r <? Sorties.landing_time r.

(** [flight_duration_minutes INTEGER GENERATED ALWAYS AS
    (EXTRACT(EPOCH FROM (landing_time - takeoff_time))/60) STORED] *)
Definition generated_flight_duration (takeoff landing : Z) : Z :=
  div_round (landing - takeoff) 60000000.

Fixpoint cast_all (l : list string) : result (list Z) :=
  match l with
  | [] => Ok []
  | s :: r =>
      let? n := Text.cast_integer s in
      let? ns := cast_all r in
      Ok (n :: ns)
  end.

(** [MAX] over a column: NULL on no row. *)
Definition sql_max (l : list Z) : option Z :=
  match l with
  | [] => None
  | n :: r => Some (fold_left Z.max r n)
  end.

Definition coalesce {A} (v : option A) (d : A) : A :=
  match v with
  | Some a => a
  | None => d
  end.

(** The sequence numbers of the sorties numbered for a year:
    [CAST(SUBSTRING(sortie_number FROM 8) AS INTEGER)] over the rows
    [WHERE sortie_number LIKE 'S-' || year_str || '-%']. *)
Definition year_sequence (year_str : string) (t : tables) : result (list Z) :=
  cast_all
    (map (fun s => Text.substring_from (Sorties.sortie_number s) 8)
         (filter (fun s => Text.like ("S-" ++ year_str ++ "-%") (Sorties.sortie_number s))
                 (sorties t))).

(** [generate_sortie_number()], at a date of the given year, over the
    sorties the calling statement sees.  [year_str] is a
    [VARCHAR(4)] variable. *)
Definition generate_sortie_number (year : Z) (t : tables) : result string :=
  let? year_str := Input.varchar 4 (Js.Str (Text.to_char_yyyy year)) in
  let year_str := coalesce year_str "" in
  let? nums := year_sequence year_str t in
  let next_number := coalesce (sql_max nums) 0 + 1 in
  let? _ := guard (Text.in_int4 next_number) NumericValueOutOfRange in
  Ok ("S-" ++ year_str ++ "-" ++ Text.lpad (Text.of_Z next_number) 4 "0")%string.

(** *** Unique constraints and foreign keys of the four sortie tables *)

Definition sortie_conflict (r : Sorties.row) (t : tables) : bool :=
  existsb (fun s => (Sorties.sortie_id s =? Sorties.sortie_id r)
                    || (Sorties.sortie_number s =? Sorties.sortie_number r)%string)
          (sorties t).

Definition crew_conflict (r : SortieCrew.row) (t : tables) : bool :=
  existsb (fun c => (SortieCrew.crew_assignment_id c =? SortieCrew.crew_assignment_id r)
                    || ((SortieCrew.sortie_id c =? SortieCrew.sortie_id r)
                        && (SortieCrew.personnel_id c =? SortieCrew.personnel_id r)))
          (sortie_crew t).

Definition passengers_conflict (r : SortiePassengers.row) (t : tables) : bool :=
  existsb (fun p => (SortiePassengers.passenger_tracking_id p
                       =? SortiePassengers.passenger_tracking_id r)
                    || ((SortiePassengers.sortie_id p =? SortiePassengers.sortie_id r)
                        && (SortiePassengers.passenger_type p
                              =? SortiePassengers.passenger_type r)%string))
          (sortie_passengers t).

Definition cargo_conflict (r : SortieCargo.row) (t : tables) : bool :=
  existsb (fun c => SortieCargo.cargo_tracking_id c =? SortieCargo.cargo_tracking_id r)
          (sortie_cargo t).

Definition conflicts (n : new_row) (t : tables) : bool :=
  match n with
  | NewSortie r => sortie_conflict r t
  | NewCrew r => crew_conflict r t
  | NewPassengers r => passengers_conflict r t
  | NewCargo r => cargo_conflict r t
  end.

Definition has_aircraft (k : Z) (t : tables) : bool :=
  existsb (fun a => Aircraft.aircraft_id a =? k) (aircraft t).

Definition has_sortie (k : Z) (t : tables) : bool :=
  existsb (fun s => Sorties.sortie_id s =? k) (sorties t).

Definition sortie_references (r : Sorties.row) (t : tables) : bool :=
  has_aircraft (Sorties.aircraft_id r) t
  && has_key (Sorties.departure_location_id r) (locations t)
  && has_key (Sorties.arrival_location_id r) (locations t)
  && match Sorties.created_by r with
     | None => true
     | Some u => has_key u (users t)
     end.

Definition references (n : new_row) (t : tables) : bool :=
  match n with
  | NewSortie r => sortie_references r t
  | NewCrew r =>
      has_sortie (SortieCrew.sortie_id r) t
      && has_key (SortieCrew.personnel_id r) (personnel t)
  | NewPassengers r => has_sortie (SortiePassengers.sortie_id r) t
  | NewCargo r => has_sortie (SortieCargo.sortie_id r) t
  end.

Definition add_row (n : new_row) (t : tables) : tables :=
  match n with
  | NewSortie r =>
      {| users := users t; locations := locations t; personnel := personnel t;
         aircraft := aircraft t; sorties := sorties t ++ [r];
         sortie_crew := sortie_crew t; sortie_passengers := sortie_passengers t;
         sortie_cargo := sortie_cargo t |}
  | NewCrew r =>
      {| users := users t; locations := locations t; personnel := personnel t;
         aircraft := aircraft t; sorties := sorties t;
         sortie_crew := sortie_crew t ++ [r]; sortie_passengers := sortie_passengers t;
         sortie_cargo := sortie_cargo t |}
  | NewPassengers r =>
      {| users := users t; locations := locations t; personnel := personnel t;
         aircraft := aircraft t; sorties := sorties t;
         sortie_crew := sortie_crew t; sortie_passengers := sortie_passengers t ++ [r];
         sortie_cargo := sortie_cargo t |}
  | NewCargo r =>
      {| users := users t; locations := locations t; personnel := personnel t;
         aircraft := aircraft t; sorties := sorties t;
         sortie_crew := sortie_crew t; sortie_passengers := sortie_passengers t;
         sortie_cargo := sortie_cargo t ++ [r] |}
  end.

Definition apply_rows (t : tables) (rows : list new_row) : tables :=
  fold_left (fun acc n => add_row n acc) rows t.

(** *** The rows the handler's INSERT statements build

    Each builder reads the parameters at their column types (an
    unreadable text fails before a key is drawn), draws the key from the
    sequence, and applies NOT NULL and CHECK.  A sequence keeps what it
    handed out, whatever becomes of the statement. *)

Section WithStore.
Context {store : StoreInput}.

(** [INSERT INTO sorties (sortie_number, mission_type, aircraft_id,
    departure_location_id, arrival_location_id, takeoff_time,
    landing_time, comments, created_by, sortie_status) VALUES ...] *)
Definition sorties_row (seqs : sequences)
    (p_number p_mission p_aircraft p_departure p_arrival p_takeoff p_landing
     p_comments p_created_by : Js.value) (status : string)
  : sequences * result Sorties.row :=
  match
    (let? number := Input.varchar 50 p_number in
     let? mission := Input.varchar 50 p_mission in
     let? ac := Input.integer p_aircraft in
     let? dep := Input.integer p_departure in
     let? arr := Input.integer p_arrival in
     let? takeoff := Input.timestamp p_takeoff in
     let? landing := Input.timestamp p_landing in
     let? comments := Input.text p_comments in
     let? creator := Input.integer p_created_by in
     let? status := Input.varchar 50 (Js.Str status) in
     Ok (number, mission, ac, dep, arr, takeoff, landing, comments, creator, status))
  with
  | Err e => (seqs, Err e)
  | Ok (number, mission, ac, dep, arr, takeoff, landing, comments, creator, status) =>
      let id := sorties_sortie_id_seq seqs + 1 in
      ({| sorties_sortie_id_seq := id;
          sortie_crew_crew_assignment_id_seq := sortie_crew_crew_assignment_id_seq seqs;
          sortie_passengers_passenger_tracking_id_seq :=
            sortie_passengers_passenger_tracking_id_seq seqs;
          sortie_cargo_cargo_tracking_id_seq := sortie_cargo_cargo_tracking_id_seq seqs |},
       let? number := Input.not_null number in
       let? mission := Input.not_null mission in
       let? ac := Input.not_null ac in
       let? dep := Input.not_null dep in
       let? arr := Input.not_null arr in
       let? takeoff := Input.not_null takeoff in
       let? landing := Input.not_null landing in
       let duration := generated_flight_duration takeoff landing in
       let? _ := guard (Text.in_int4 duration) NumericValueOutOfRange in
       let? _ := guard (Text.mem mission mission_types) CheckViolation in
       let? _ := guard (check_in status sortie_statuses) CheckViolation in
       (* CONSTRAINT valid_flight_times CHECK (landing_time > takeoff_time) *)
       let? _ := guard (takeoff <? landing) CheckViolation in
       Ok {| Sorties.sortie_id := id;
             Sorties.sortie_number := number;
             Sorties.mission_type := mission;
             Sorties.aircraft_id := ac;
             Sorties.departure_location_id := dep;
             Sorties.arrival_location_id := arr;
             Sorties.takeoff_time := takeoff;
             Sorties.landing_time := landing;
             Sorties.flight_duration_minutes := duration;
             Sorties.sortie_status := status;
             Sorties.comments := comments;
             Sorties.created_by := creator |})
  end.

(** [INSERT INTO sortie_crew (sortie_id, personnel_id, crew_position,
    [crew_position_other,] remarks) VALUES ...]; [p_other] is [None]
    when the statement does not list the column. *)
Definition sortie_crew_row (seqs : sequences)
    (p_sortie p_personnel : Js.value) (position : string)
    (p_other : option Js.value) (p_remarks : Js.value)
  : sequences * result SortieCrew.row :=
  match
    (let? sid := Input.integer p_sortie in
     let? pid := Input.integer p_personnel in
     let? position := Input.varchar 50 (Js.Str position) in
     let? other := match p_other with
                   | Some v => Input.varchar 100 v
                   | None => Ok None
                   end in
     let? remarks := Input.text p_remarks in
     Ok (sid, pid, position, other, remarks))
  with
  | Err e => (seqs, Err e)
  | Ok (sid, pid, position, other, remarks) =>
      let id := sortie_crew_crew_assignment_id_seq seqs + 1 in
      ({| sorties_sortie_id_seq := sorties_sortie_id_seq seqs;
          sortie_crew_crew_assignment_id_seq := id;
          sortie_passengers_passenger_tracking_id_seq :=
            sortie_passengers_passenger_tracking_id_seq seqs;
          sortie_cargo_cargo_tracking_id_seq := sortie_cargo_cargo_tracking_id_seq seqs |},
       let? sid := Input.not_null sid in
       let? pid := Input.not_null pid in
       let? position := Input.not_null position in
       let? _ := guard (Text.mem position crew_positions) CheckViolation in
       (* CHECK (crew_position != 'Other' OR crew_position_other IS NOT NULL) *)
       let? _ := guard (negb (position =? "Other")%string
                        || match other with Some _ => true | None => false end)
                       CheckViolation in
       Ok {| SortieCrew.crew_assignment_id := id;
             SortieCrew.sortie_id := sid;
             SortieCrew.personnel_id := pid;
             SortieCrew.crew_position := position;
             SortieCrew.crew_position_other := other;
             SortieCrew.remarks := remarks;
             SortieCrew.is_primary := Some true |})
  end.

(** [INSERT INTO sortie_passengers (sortie_id, passenger_type,
    onload_count, offload_count, notes) VALUES ...] *)
Definition sortie_passengers_row (seqs : sequences)
    (p_sortie p_type p_onload p_offload p_notes : Js.value)
  : sequences * result SortiePassengers.row :=
  match
    (let? sid := Input.integer p_sortie in
     let? ty := Input.varchar 50 p_type in
     let? onload := Input.integer p_onload in
     let? offload := Input.integer p_offload in
     let? notes := Input.text p_notes in
     Ok (sid, ty, onload, offload, notes))
  with
  | Err e => (seqs, Err e)
  | Ok (sid, ty, onload, offload, notes) =>
      let id := sortie_passengers_passenger_tracking_id_seq seqs + 1 in
      ({| sorties_sortie_id_seq := sorties_sortie_id_seq seqs;
          sortie_crew_crew_assignment_id_seq := sortie_crew_crew_assignment_id_seq seqs;
          sortie_passengers_passenger_tracking_id_seq := id;
          sortie_cargo_cargo_tracking_id_seq := sortie_cargo_cargo_tracking_id_seq seqs |},
       let? sid := Input.not_null sid in
       let? ty := Input.not_null ty in
       let? onload := Input.not_null onload in
       let? offload := Input.not_null offload in
       let? _ := guard (Text.mem ty passenger_types) CheckViolation in
       let? _ := guard (0 <=? onload) CheckViolation in
       let? _ := guard (0 <=? offload) CheckViolation in
       Ok {| SortiePassengers.passenger_tracking_id := id;
             SortiePassengers.sortie_id := sid;
             SortiePassengers.passenger_type := ty;
             SortiePassengers.onload_count := onload;
             SortiePassengers.offload_count := offload;
             SortiePassengers.notes := notes |})
  end.

(** [INSERT INTO sortie_cargo (sortie_id, onload_weight,
    offload_weight, cargo_description, hazmat_onboard,
    special_handling) VALUES ...] *)
Definition sortie_cargo_row (seqs : sequences)
    (p_sortie p_onload p_offload p_description p_hazmat p_special : Js.value)
  : sequences * result SortieCargo.row :=
  match
    (let? sid := Input.integer p_sortie in
     let? onload := Input.decimal p_onload in
     let? offload := Input.decimal p_offload in
     let? description := Input.text p_description in
     let? hazmat := Input.boolean p_hazmat in
     let? special := Input.text p_special in
     Ok (sid, onload, offload, description, hazmat, special))
  with
  | Err e => (seqs, Err e)
  | Ok (sid, onload, offload, description, hazmat, special) =>
      let id := sortie_cargo_cargo_tracking_id_seq seqs + 1 in
      ({| sorties_sortie_id_seq := sorties_sortie_id_seq seqs;
          sortie_crew_crew_assignment_id_seq := sortie_crew_crew_assignment_id_seq seqs;
          sortie_passengers_passenger_tracking_id_seq :=
            sortie_passengers_passenger_tracking_id_seq seqs;
          sortie_cargo_cargo_tracking_id_seq := id |},
       let? sid := Input.not_null sid in
       let? onload := Input.not_null onload in
       let? offload := Input.not_null offload in
       let? _ := guard (0 <=? onload) CheckViolation in
       let? _ := guard (0 <=? offload) CheckViolation in
       Ok {| SortieCargo.cargo_tracking_id := id;
             SortieCargo.sortie_id := sid;
             SortieCargo.onload_weight := onload;
             SortieCargo.offload_weight := offload;
             SortieCargo.cargo_description := description;
             SortieCargo.hazmat_onboard := hazmat;
             SortieCargo.special_handling := special |})
  end.

End WithStore.

(** *** UPDATE on sorties and the flight-hours trigger *)

(** SQL's three-valued [=], [!=] and [AND]; an [IF] or [WHEN] is taken
    on [Some true] only. *)
Definition sql_eq (a : option string) (b : string) : option bool :=
  option_map (fun s => (s =? b)%string) a.

Definition sql_neq (a : option string) (b : string) : option bool :=
  option_map (fun s => negb (s =? b)%string) a.

Definition sql_and (a b : option bool) : option bool :=
  match a, b with
  | Some false, _ | _, Some false => Some false
  | Some true, Some true => Some true
  | _, _ => None
  end.

Definition taken (c : option bool) : bool :=
  match c with
  | Some true => true
  | _ => false
  end.

(** [UPDATE aircraft SET total_flight_hours = total_flight_hours +
    (minutes / 60.0) WHERE aircraft_id = id].  The sum is stored at the
    column's scale, so it is rounded to hundredths; NULL stays NULL. *)
Fixpoint add_flight_hours (id minutes : Z) (l : list Aircraft.row)
  : result (list Aircraft.row) :=
  match l with
  | [] => Ok []
  | a :: r =>
      let? a' :=
        if Aircraft.aircraft_id a =? id then
          match Aircraft.total_flight_hours a with
          | None => Ok a
          | Some h =>
              let h' := div_round (60 * h + 100 * minutes) 60 in
              let? _ := guard (fits_decimal_10_2 h') NumericValueOutOfRange in
              Ok {| Aircraft.aircraft_id := Aircraft.aircraft_id a;
                    Aircraft.total_flight_hours := Some h' |}
          end
        else Ok a in
      let? r' := add_flight_hours id minutes r in
      Ok (a' :: r')
  end.

Definition with_aircraft (t : tables) (l : list Aircraft.row) : tables :=
  {| users := users t; locations := locations t; personnel := personnel t;
     aircraft := l; sorties := sorties t;
     sortie_crew := sortie_crew t; sortie_passengers := sortie_passengers t;
     sortie_cargo := sortie_cargo t |}.

Definition with_sorties (t : tables) (l : list Sorties.row) : tables :=
  {| users := users t; locations := locations t; personnel := personnel t;
     aircraft := aircraft t; sorties := l;
     sortie_crew := sortie_crew t; sortie_passengers := sortie_passengers t;
     sortie_cargo := sortie_cargo t |}.

(** [update_aircraft_flight_hours()], the trigger function. *)
Definition update_aircraft_flight_hours (OLD NEW : Sorties.row) (t : tables)
  : result tables :=
  if taken (sql_and (sql_eq (Sorties.sortie_status NEW) "Completed")
                    (sql_neq (Sorties.sortie_status OLD) "Completed"))
  then
    let? l := add_flight_hours (Sorties.aircraft_id NEW)
                               (Sorties.flight_duration_minutes NEW) (aircraft t) in
    Ok (with_aircraft t l)
  else Ok t.

(** [CREATE TRIGGER trg_update_aircraft_hours AFTER UPDATE ON sorties
    FOR EACH ROW WHEN (NEW.sortie_status = 'Completed')]: it is declared
    for UPDATE only, an INSERT does not fire it. *)
Definition trg_update_aircraft_hours (OLD NEW : Sorties.row) (t : tables)
  : result tables :=
  if taken (sql_eq (Sorties.sortie_status NEW) "Completed")
  then update_aircraft_flight_hours OLD NEW t
  else Ok t.

(** The SET list of an UPDATE on sorties over the columns that are not
    keys; [None] leaves a column as it is. *)
Record sortie_set : Type := {
  set_mission_type : option string;
  set_aircraft_id : option Z;
  set_takeoff_time : option Z;
  set_landing_time : option Z;
  set_sortie_status : option (option string);
  set_comments : option (option string)
}.

Definition assign (u : sortie_set) (r : Sorties.row) : Sorties.row :=
  let takeoff := coalesce (set_takeoff_time u) (Sorties.takeoff_time r) in
  let landing := coalesce (set_landing_time u) (Sorties.landing_time r) in
  {| Sorties.sortie_id := Sorties.sortie_id r;
     Sorties.sortie_number := Sorties.sortie_number r;
     Sorties.mission_type := coalesce (set_mission_type u) (Sorties.mission_type r);
     Sorties.aircraft_id := coalesce (set_aircraft_id u) (Sorties.aircraft_id r);
     Sorties.departure_location_id := Sorties.departure_location_id r;
     Sorties.arrival_location_id := Sorties.arrival_location_id r;
     Sorties.takeoff_time := takeoff;
     Sorties.landing_time := landing;
     Sorties.flight_duration_minutes := generated_flight_duration takeoff landing;
     Sorties.sortie_status := coalesce (set_sortie_status u) (Sorties.sortie_status r);
     Sorties.comments := coalesce (set_comments u) (Sorties.comments r);
     Sorties.created_by := Sorties.created_by r |}.

Definition sortie_checks (r : Sorties.row) (t : tables) : result unit :=
  let? _ := guard (Text.in_int4 (Sorties.flight_duration_minutes r))
                  NumericValueOutOfRange in
  let? _ := guard (Text.mem (Sorties.mission_type r) mission_types) CheckViolation in
  let? _ := guard (check_in (Sorties.sortie_status r) sortie_statuses) CheckViolation in
  let? _ := guard (Sorties.takeoff_time r <? Sorties.landing_time r) CheckViolation in
  guard (sortie_references r t) ForeignKeyViolation.

(** Rewrites the rows with the given key; returns the new rows and the
    (OLD, NEW) pairs for the row triggers. *)
Fixpoint update_rows (id : Z) (u : sortie_set) (t : tables) (l : list Sorties.row)
  : result (list Sorties.row * list (Sorties.row * Sorties.row)) :=
  match l with
  | [] => Ok ([], [])
  | r :: rest =>
      let? (rest', fired) := update_rows id u t rest in
      if Sorties.sortie_id r =? id then
        let r' := assign u r in
        let? _ := sortie_checks r' t in
        Ok (r' :: rest', (r, r') :: fired)
      else Ok (r :: rest', fired)
  end.

Fixpoint fire (trigger : Sorties.row -> Sorties.row -> tables -> result tables)
    (fired : list (Sorties.row * Sorties.row)) (t : tables) : result tables :=
  match fired with
  | [] => Ok t
  | (o, n) :: rest =>
      let? t' := trigger o n t in
      fire trigger rest t'
  end.

(** [UPDATE sorties SET ... WHERE sortie_id = id], as one statement:
    the rows, then the AFTER ROW trigger; an error leaves nothing. *)
Definition update_sorties (id : Z) (u : sortie_set) (t : tables) : result tables :=
  let? (l, fired) := update_rows id u t (sorties t) in
  fire trg_update_aircraft_hours fired (with_sorties t l).

End Schema.

(* ------------------------------------------------------------------ *)
(** ** One connection to the store *)

Module Pg.

(** What every connection shares: the committed rows, the sequences
    (never rolled back) and the date. *)
Record database : Type := {
  committed : tables;
  seqs : sequences;
  current_year : Z
}.

(** A connection is idle, inside a transaction with the rows it has
    written so far, or inside a transaction that a failed statement has
    aborted. *)
Inductive connection : Type :=
| Idle
| InTransaction (pending : list new_row)
| Aborted.

(** The statements [server.js] sends on the creation path, with their
    parameters in the order of the [$n] placeholders. *)
Inductive stmt : Type :=
| BEGIN
| COMMIT
| ROLLBACK
| SelectGenerateSortieNumber
| InsertSortie (sortie_number mission_type aircraft_id departure_location_id
                arrival_location_id takeoff_time landing_time comments
                created_by : Js.value) (sortie_status : string)
| InsertSortieCrew (sortie_id personnel_id : Js.value) (crew_position : string)
                   (crew_position_other : option Js.value) (remarks : Js.value)
| InsertSortiePassengers (sortie_id passenger_type onload_count offload_count
                          notes : Js.value)
| InsertSortieCargo (sortie_id onload_weight offload_weight cargo_description
                     hazmat_onboard special_handling : Js.value).

(** [result.rows], one value per row. *)
Definition reply : Type := list Js.value.

(** The rows a statement of the connection sees: what is committed and
    what its own transaction has written. *)
Definition visible (db : database) (c : connection) : tables :=
  match c with
  | InTransaction pending => Schema.apply_rows (committed db) pending
  | _ => committed db
  end.

Definition with_seqs (db : database) (s : sequences) : database :=
  {| committed := committed db; seqs := s; current_year := current_year db |}.

Definition with_committed (db : database) (t : tables) : database :=
  {| committed := t; seqs := seqs db; current_year := current_year db |}.

Section WithStore.
Context {store : StoreInput}.

(** The row an INSERT statement builds, [None] for the other
    statements. *)
Definition build (q : stmt) (s : sequences) : option (sequences * result new_row) :=
  match q with
  | InsertSortie p1 p2 p3 p4 p5 p6 p7 p8 p9 status =>
      let (s', r) := Schema.sorties_row s p1 p2 p3 p4 p5 p6 p7 p8 p9 status in
      Some (s', let? row := r in Ok (NewSortie row))
  | InsertSortieCrew p1 p2 position other p3 =>
      let (s', r) := Schema.sortie_crew_row s p1 p2 position other p3 in
      Some (s', let? row := r in Ok (NewCrew row))
  | InsertSortiePassengers p1 p2 p3 p4 p5 =>
      let (s', r) := Schema.sortie_passengers_row s p1 p2 p3 p4 p5 in
      Some (s', let? row := r in Ok (NewPassengers row))
  | InsertSortieCargo p1 p2 p3 p4 p5 p6 =>
      let (s', r) := Schema.sortie_cargo_row s p1 p2 p3 p4 p5 p6 in
      Some (s', let? row := r in Ok (NewCargo row))
  | _ => None
  end.

(** [RETURNING sortie_id] on the sortie, nothing on the others. *)
Definition returning (n : new_row) : reply :=
  match n with
  | NewSortie r => [Js.Num (Sorties.sortie_id r)]
  | _ => []
  end.

(** Unique indexes, then foreign keys, against the visible rows. *)
Definition accept_row (n : new_row) (vis : tables) : result unit :=
  let? _ := guard (negb (Schema.conflicts n vis)) UniqueViolation in
  guard (Schema.references n vis) ForeignKeyViolation.

(** A failed statement aborts the transaction it runs in. *)
Definition failed (c : connection) : connection :=
  match c with
  | Idle => Idle
  | _ => Aborted
  end.

(** One statement on one connection. *)
Definition exec (q : stmt) (db : database) (c : connection)
  : result reply * database * connection :=
  match q with
  | BEGIN =>
      match c with
      | Idle => (Ok [], db, InTransaction [])
      | InTransaction _ => (Ok [], db, c)
      | Aborted => (Err InFailedSqlTransaction, db, c)
      end
  | COMMIT =>
      match c with
      | InTransaction pending =>
          (Ok [], with_committed db (Schema.apply_rows (committed db) pending), Idle)
      | _ => (Ok [], db, Idle)
      end
  | ROLLBACK => (Ok [], db, Idle)
  | SelectGenerateSortieNumber =>
      match c with
      | Aborted => (Err InFailedSqlTransaction, db, c)
      | _ =>
          match Schema.generate_sortie_number (current_year db) (visible db c) with
          | Ok n => (Ok [Js.Str n], db, c)
          | Err e => (Err e, db, failed c)
          end
      end
  | _ =>
      match c, build q (seqs db) with
      | Aborted, _ => (Err InFailedSqlTransaction, db, c)
      | _, None => (Ok [], db, c)
      | _, Some (s', Err e) => (Err e, with_seqs db s', failed c)
      | _, Some (s', Ok n) =>
          match accept_row n (visible db c) with
          | Err e => (Err e, with_seqs db s', failed c)
          | Ok _ =>
              match c with
              | InTransaction pending =>
                  (Ok (returning n), with_seqs db s', InTransaction (pending ++ [n]))
              | _ =>
                  (Ok (returning n),
                   with_committed (with_seqs db s') (Schema.add_row n (committed db)),
                   c)
              end
          end
      end
  end.

End WithStore.

(** *** Programs over a connection

    A handler is a tree of queries: each [await client.query(...)] is a
    node, its continuation receives the rows or the error. *)
Inductive prog (A : Type) : Type :=
| Ret (a : A)
| Throw (e : exn)
| Query (q : stmt) (k : result reply -> prog A).
Arguments Ret {A} a.
Arguments Throw {A} e.
Arguments Query {A} q k.

Fixpoint bind {A B} (p : prog A) (f : A -> prog B) : prog B :=
  match p with
  | Ret a => f a
  | Throw e => Throw e
  | Query q k => Query q (fun r => bind (k r) f)
  end.

(** [try { p } catch (err) { h err }] *)
Fixpoint try_catch {A} (p : prog A) (h : exn -> prog A) : prog A :=
  match p with
  | Ret a => Ret a
  | Throw e => h e
  | Query q k => Query q (fun r => try_catch (k r) h)
  end.

(** [await client.query(q)]: the rows, or the error thrown. *)
Definition query (q : stmt) : prog reply :=
  Query q (fun r => match r with Ok rows => Ret rows | Err e => Throw e end).

Section WithStore.
Context {store : StoreInput}.

(** Runs a program to its end on one connection, alone on the
    store. *)
Fixpoint run {A} (p : prog A) (db : database) (c : connection)
  : result A * database * connection :=
  match p with
  | Ret a => (Ok a, db, c)
  | Throw e => (Err e, db, c)
  | Query q k =>
      let '(r, db', c') := exec q db c in
      run (k r) db' c'
  end.
End WithStore.

End Pg.

Notation "x <- p ;; k" := (Pg.bind p (fun x => k))
  (at level 61, p at next level, right associativity).
Notation "p ;;; k" := (Pg.bind p (fun _ => k))
  (at level 61, right associativity).

(* ------------------------------------------------------------------ *)
(** ** server.js *)

Module Server.

(** *** The request body of POST /api/sorties

    [req.body] is an object (the JSON parser leaves [{}] when there is
    none); each of its four sections is an object or is missing
    ([None]: [undefined] or [null]), and so is each crew slot and
    passenger category.  The leaves are scalar values. *)

Record sortie_t : Type := {
  missionType : Js.value;
  tailNumber : Js.value;
  depLocation : Js.value;
  arrLocation : Js.value;
  takeoffTime : Js.value;
  landingTime : Js.value;
  comments : Js.value
}.

(** A crew slot ([pic], [sic], [oi], which have no [position]) or an
    entry of [additional]. *)
Record member_t : Type := {
  name : Js.value;
  position : Js.value;
  remarks : Js.value
}.

Record crew_t : Type := {
  pic : option member_t;
  sic : option member_t;
  oi : option member_t;
  additional : option (list member_t)
}.

Record passenger_t : Type := {
  onload : Js.value;
  offload : Js.value;
  notes : Js.value
}.

Record passengers_t : Type := {
  military : option passenger_t;
  civilian : option passenger_t;
  contractor : option passenger_t;
  partner : option passenger_t;
  other : option passenger_t
}.

Record cargo_t : Type := {
  onloadWeight : Js.value;
  offloadWeight : Js.value;
  description : Js.value;
  hazmat : Js.value;
  specialHandling : Js.value
}.

Record body_t : Type := {
  sortie : option sortie_t;
  crew : option crew_t;
  passengers : option passengers_t;
  cargo : option cargo_t
}.

(** [res.status(201).json({success: true, sortieId, sortieNumber, ...})]
    or [res.status(500).json({success: false, error, details})], where
    [details] is the message of the error: it tells the kind of the
    violation and the constraint, not the values of the row. *)
Inductive response : Type :=
| Created (sortieId sortieNumber : Js.value)
| Failed (details : exn).

Definition success (r : response) : bool :=
  match r with
  | Created _ _ => true
  | Failed _ => false
  end.

(** Reading a property of a section: a [TypeError] when the section is
    [undefined]. *)
Definition deref {A} (section : option A) : Pg.prog A :=
  match section with
  | Some o => Pg.Ret o
  | None => Pg.Throw TypeError
  end.

(** [result.rows[0].column] *)
Definition first_row (rows : Pg.reply) : Pg.prog Js.value :=
  match rows with
  | v :: _ => Pg.Ret v
  | [] => Pg.Throw TypeError
  end.

(** [if (crew.slot && crew.slot.name) { INSERT ... 'PIC' ... }] *)
Definition insert_slot (sortieId : Js.value) (slot : option member_t) (label : string)
  : Pg.prog unit :=
  match slot with
  | Some m =>
      if Js.truthy (name m)
      then Pg.query (Pg.InsertSortieCrew sortieId (name m) label None
                                         (Js.or (remarks m) Js.Null)) ;;; Pg.Ret tt
      else Pg.Ret tt
  | None => Pg.Ret tt
  end.

(** [for (const member of crew.additional) { if (member.name) ... }] *)
Fixpoint insert_additional (sortieId : Js.value) (l : list member_t) : Pg.prog unit :=
  match l with
  | [] => Pg.Ret tt
  | member :: rest =>
      (if Js.truthy (name member)
       then Pg.query (Pg.InsertSortieCrew sortieId (name member) "Other"
                                          (Some (position member))
                                          (Js.or (remarks member) Js.Null)) ;;; Pg.Ret tt
       else Pg.Ret tt) ;;;
      insert_additional sortieId rest
  end.

(** Step 3 of the handler: the three named slots, then
    [if (crew.additional && crew.additional.length > 0)] the list. *)
Definition insert_crew (sortieId : Js.value) (crew : option crew_t) : Pg.prog unit :=
  c <- deref crew ;;
  insert_slot sortieId (pic c) "PIC" ;;;
  insert_slot sortieId (sic c) "SIC" ;;;
  insert_slot sortieId (oi c) "O/I" ;;;
  match additional c with
  | Some (m :: l) => insert_additional sortieId (m :: l)
  | _ => Pg.Ret tt
  end.

Definition passengerTypes : list string :=
  ["military"; "civilian"; "contractor"; "partner"; "other"].

Definition passengerTypeMap (type : string) : Js.value :=
  if (type =? "military")%string then Js.Str "Military"
  else if (type =? "civilian")%string then Js.Str "Civilian"
  else if (type =? "contractor")%string then Js.Str "Contractor"
  else if (type =? "partner")%string then Js.Str "Partner Forces"
  else if (type =? "other")%string then Js.Str "Other"
  else Js.Undefined.

(** [passengers[type]] *)
Definition passengers_get (p : passengers_t) (type : string) : option passenger_t :=
  if (type =? "military")%string then military p
  else if (type =? "civilian")%string then civilian p
  else if (type =? "contractor")%string then contractor p
  else if (type =? "partner")%string then partner p
  else if (type =? "other")%string then other p
  else None.

(** [for (const type of passengerTypes) { if (passengers[type]) ... }] *)
Fixpoint insert_passengers (sortieId : Js.value) (p : option passengers_t)
    (types : list string) : Pg.prog unit :=
  match types with
  | [] => Pg.Ret tt
  | type :: rest =>
      o <- deref p ;;
      (match passengers_get o type with
       | Some c =>
           Pg.query (Pg.InsertSortiePassengers sortieId (passengerTypeMap type)
                       (Js.or (onload c) (Js.Num 0))
                       (Js.or (offload c) (Js.Num 0))
                       (Js.or (notes c) Js.Null)) ;;; Pg.Ret tt
       | None => Pg.Ret tt
       end) ;;;
      insert_passengers sortieId p rest
  end.

(** The [try] block of [app.post('/api/sorties', ...)] after its
    [BEGIN], steps 1 to 5 and the [COMMIT]. *)
Definition create_sortie_steps (body : body_t) : Pg.prog response :=
  (* 1. Generate sortie number *)
  sortieNumberResult <- Pg.query Pg.SelectGenerateSortieNumber ;;
  sortieNumber <- first_row sortieNumberResult ;;
  (* 2. Insert sortie *)
  s <- deref (sortie body) ;;
  sortieResult <-
    Pg.query (Pg.InsertSortie sortieNumber (missionType s) (tailNumber s)
                (depLocation s) (arrLocation s) (takeoffTime s) (landingTime s)
                (Js.or (comments s) Js.Null) (Js.Num 1) "Completed") ;;
  sortieId <- first_row sortieResult ;;
  (* 3. Insert crew members *)
  insert_crew sortieId (crew body) ;;;
  (* 4. Insert passengers *)
  insert_passengers sortieId (passengers body) passengerTypes ;;;
  (* 5. Insert cargo *)
  g <- deref (cargo body) ;;
  Pg.query (Pg.InsertSortieCargo sortieId
              (Js.or (onloadWeight g) (Js.Num 0))
              (Js.or (offloadWeight g) (Js.Num 0))
              (Js.or (description g) Js.Null)
              (Js.or (hazmat g) (Js.Bool false))
              (Js.or (specialHandling g) Js.Null)) ;;;
  Pg.query Pg.COMMIT ;;;
  Pg.Ret (Created sortieId sortieNumber).

Definition create_sortie_try (body : body_t) : Pg.prog response :=
  Pg.query Pg.BEGIN ;;;
  create_sortie_steps body.

(** [app.post('/api/sorties', ...)]: the [try] block and its [catch],
    which rolls back and answers 500.  ([finally] hands the connection
    back to the pool; the model stops at the answer.) *)
Definition create_sortie (body : body_t) : Pg.prog response :=
  Pg.try_catch (create_sortie_try body)
               (fun err => Pg.query Pg.ROLLBACK ;;; Pg.Ret (Failed err)).

End Server.

(* ------------------------------------------------------------------ *)
(** ** The route table of server.js *)

Module Routes.

Inductive method : Type := GET | HEAD | POST | PUT | DELETE.

Inductive handler : Type :=
| GetAircraft | GetLocations | GetPersonnel
| CreateSortie | ListSorties | GetSortieById | SearchSorties
| ReportDaily | ReportAircraftUtilization | ReportPassengerMovement
| Health | Root.

(** A path pattern, segment by segment: a literal or a [:name]. *)
Inductive segment : Type :=
| Lit (s : string)
| Param (name : string).

Record route : Type := {
  verb : method;
  pattern : list segment;
  target : handler
}.

(** The [app.get] and [app.post] calls, in the order of the file. *)
Definition routes : list route :=
  [ {| verb := GET; pattern := [Lit "api"; Lit "aircraft"]; target := GetAircraft |};
    {| verb := GET; pattern := [Lit "api"; Lit "locations"]; target := GetLocations |};
    {| verb := GET; pattern := [Lit "api"; Lit "personnel"]; target := GetPersonnel |};
    {| verb := POST; pattern := [Lit "api"; Lit "sorties"]; target := CreateSortie |};
    {| verb := GET; pattern := [Lit "api"; Lit "sorties"]; target := ListSorties |};
    {| verb := GET; pattern := [Lit "api"; Lit "sorties"; Param "id"];
       target := GetSortieById |};
    {| verb := GET; pattern := [Lit "api"; Lit "sorties"; Lit "search"];
       target := SearchSorties |};
    {| verb := GET; pattern := [Lit "api"; Lit "reports"; Lit "daily"];
       target := ReportDaily |};
    {| verb := GET; pattern := [Lit "api"; Lit "reports"; Lit "aircraft-utilization"];
       target := ReportAircraftUtilization |};
    {| verb := GET; pattern := [Lit "api"; Lit "reports"; Lit "passenger-movement"];
       target := ReportPassengerMovement |};
    {| verb := GET; pattern := [Lit "health"]; target := Health |};
    {| verb := GET; pattern := []; target := Root |} ].

Definition method_eqb (a b : method) : bool :=
  match a, b with
  | GET, GET | HEAD, HEAD | POST, POST | PUT, PUT | DELETE, DELETE => true
  | _, _ => false
  end.

(** A route answers its own method; a GET route also answers HEAD. *)
Definition answers (r : method) (request : method) : bool :=
  method_eqb r request || (method_eqb r GET && method_eqb request HEAD).

(** The pieces of a path between its slashes. *)
Fixpoint split (path : string) : list string :=
  match path with
  | EmptyString => [EmptyString]
  | String c rest =>
      let parts := split rest in
      if Ascii.eqb c "/" then EmptyString :: parts
      else match parts with
           | p :: ps => String c p :: ps
           | [] => [String c EmptyString]
           end
  end.

(** Path matching as Express compiles it: literals compare without
    regard to case, a parameter takes one non-empty piece, one trailing
    slash is allowed.  (A parameter is kept as it stands in the path,
    without percent-decoding.) *)
Fixpoint match_segments (pat : list segment) (parts : list string)
  : option (list (string * string)) :=
  match pat, parts with
  | [], [] => Some []
  | [], [EmptyString] => Some []
  | Lit l :: pat', p :: parts' =>
      if (Input.lowercase l =? Input.lowercase p)%string
      then match_segments pat' parts'
      else None
  | Param n :: pat', p :: parts' =>
      match p with
      | EmptyString => None
      | _ => option_map (cons (n, p)) (match_segments pat' parts')
      end
  | _, _ => None
  end.

Definition match_path (pat : list segment) (path : string)
  : option (list (string * string)) :=
  match split path with
  | EmptyString :: parts => match_segments pat parts
  | _ => None
  end.

(** The first route, in registration order, that answers the method
    and matches the path, with [req.params].  No handler of the file
    calls [next()], so no later route sees the request. *)
Fixpoint first_match (l : list route) (m : method) (path : string)
  : option (handler * list (string * string)) :=
  match l with
  | [] => None
  | r :: rest =>
      if answers (verb r) m then
        match match_path (pattern r) path with
        | Some params => Some (target r, params)
        | None => first_match rest m path
        end
      else first_match rest m path
  end.

Definition dispatch (m : method) (path : string)
  : option (handler * list (string * string)) :=
  first_match routes m path.

(** [app.get('/api/sorties/:id', ...)]: the sortie, its crew, passenger
    and cargo rows; 404 on no row; 500 when a query fails, as it does
    on an [id] that is no integer.  (The joined columns of the view are
    left out.) *)
Inductive by_id_response : Type :=
| Found (sortie : Sorties.row) (crew : list SortieCrew.row)
        (passengers : list SortiePassengers.row) (cargo : option SortieCargo.row)
| NotFound
| FetchFailed.

Definition get_sortie_by_id (id : string) (t : tables) : by_id_response :=
  match Input.integer (Js.Str id) with
  | Err _ => FetchFailed
  | Ok None => NotFound
  | Ok (Some k) =>
      match filter (fun s => Sorties.sortie_id s =? k) (sorties t) with
      | [] => NotFound
      | s :: _ =>
          Found s
                (filter (fun c => SortieCrew.sortie_id c =? k) (sortie_crew t))
                (filter (fun c => SortiePassengers.sortie_id c =? k) (sortie_passengers t))
                (hd_error (filter (fun c => SortieCargo.sortie_id c =? k) (sortie_cargo t)))
      end
  end.

End Routes.


(** ** The values of [req.query]

    What the query-string parser hands to a handler under a key: nothing,
    a text, a list (the key was given several times) or a nested
    object.  A text is held as its UTF-8 bytes. *)
Module Query.

#[warnings="-register-all"]
Inductive value : Type :=
| Absent
| Text (s : string)
| Many (l : list value)
| Fields (l : list (string * value)).

Definition truthy (v : value) : bool :=
  match v with
  | Absent => false
  | Text s => negb (s =? "")%string
  | Many _ | Fields _ => true
  end.

(** [String(v)], as a template literal and [parseInt] take it: a list is
    its elements joined by commas, an object is [[object Object]].  An
    object with a field named [toString] has no text: the field hides
    the method, and the conversion throws a TypeError. *)
Fixpoint to_string (v : value) : result string :=
  match v with
  | Absent => Ok "undefined"
  | Text s => Ok s
  | Many l =>
      let fix join (l : list value) : result string :=
        match l with
        | [] => Ok ""
        | x :: r =>
            let? head := match x with Absent => Ok "" | _ => to_string x end in
            match r with
            | [] => Ok head
            | _ :: _ => let? tail := join r in Ok (head ++ "," ++ tail)
            end
        end in
      join l
  | Fields l =>
      if existsb (fun f => (fst f =? "toString")%string) l
      then Err TypeError
      else Ok "[object Object]"
  end.

End Query.

(** ** GET /api/sorties/search: the statement its handler builds

    (The handler is registered after the one of /api/sorties/:id.) *)
Module Search.

Record query_t : Type := {
  aircraft : Query.value;
  location : Query.value;
  missionType : Query.value;
  startDate : Query.value;
  endDate : Query.value;
  sortieNumber : Query.value
}.

(** The three variables of the handler: [query], [params],
    [paramCount]. *)
Record state : Type := {
  query : string;
  params : list Query.value;
  paramCount : Z
}.

(** [if (v) { query += clause; params.push(p); paramCount++; }], the
    clause being written with [$${paramCount}]; an exception in [p]
    leaves the handler for its [catch]. *)
Definition filter_by (v : Query.value) (clause : string -> string)
    (p : result Query.value) (st : state) : result state :=
  if Query.truthy v
  then let? p := p in
       Ok {| query := query st ++ clause ("$" ++ Text.of_Z (paramCount st));
             params := params st ++ [p];
             paramCount := paramCount st + 1 |}
  else Ok st.

(** The text and the parameters handed to [pool.query]; an error when
    the handler throws before. *)
Definition build (q : query_t) : result state :=
  let st := {| query := "SELECT * FROM vw_sorties_complete WHERE 1=1";
               params := [];
               paramCount := 1 |} in
  let? st := filter_by (aircraft q) (fun n => " AND tail_number = " ++ n)
               (Ok (aircraft q)) st in
  let? st := filter_by (location q)
               (fun n => " AND (departure_code = " ++ n ++ " OR arrival_code = " ++ n ++ ")")
               (Ok (location q)) st in
  let? st := filter_by (missionType q) (fun n => " AND mission_type = " ++ n)
               (Ok (missionType q)) st in
  let? st := filter_by (startDate q) (fun n => " AND takeoff_time >= " ++ n)
               (Ok (startDate q)) st in
  let? st := filter_by (endDate q) (fun n => " AND takeoff_time <= " ++ n)
               (Ok (endDate q)) st in
  let? st := filter_by (sortieNumber q) (fun n => " AND sortie_number ILIKE " ++ n)
               (let? s := Query.to_string (sortieNumber q) in
                Ok (Query.Text ("%" ++ s ++ "%")))
               st in
  Ok {| query := query st ++ " ORDER BY takeoff_time DESC LIMIT 100";
        params := params st;
        paramCount := paramCount st |}.

(** The parameter numbers a statement's text refers to: each [$]
    followed by digits, in the order of the text. *)
Fixpoint scan (st : option (option Z)) (s : string) : list Z :=
  match s with
  | EmptyString =>
      match st with
      | Some (Some n) => [n]
      | _ => []
      end
  | String c r =>
      if Text.is_digit c then
        match st with
        | Some acc =>
            scan (Some (Some (10 * Schema.coalesce acc 0 + (Z.of_nat (nat_of_ascii c) - 48)))) r
        | None => scan None r
        end
      else
        (match st with
         | Some (Some n) => [n]
         | _ => []
         end ++ scan (if Ascii.eqb c "$" then Some None else None) r)%list
  end.

Definition placeholders (s : string) : list Z := scan None s.

End Search.

(** ** GET /api/sorties: the page *)
Module Listing.

(** A JavaScript number that [parseInt] returns: not a number, an
    integer that a double holds exactly, or one beyond [2^53], where the
    double is only near the integer read. *)
Inductive number : Type :=
| NaN
| Int (n : Z)
| Big.

Definition max_safe : Z := 9007199254740992.

Definition dec_digit (c : ascii) : option Z :=
  if Text.is_digit c then Some (Z.of_nat (nat_of_ascii c) - 48) else None.

Definition hex_digit (c : ascii) : option Z :=
  let n := nat_of_ascii c in
  if Text.is_digit c then Some (Z.of_nat n - 48)
  else if Nat.leb 97 n && Nat.leb n 102 then Some (Z.of_nat n - 87)
  else if Nat.leb 65 n && Nat.leb n 70 then Some (Z.of_nat n - 55)
  else None.

(** The white space of JavaScript beyond ASCII, in UTF-8: U+1680,
    U+2000 to U+200A, U+2028, U+2029, U+202F, U+205F, U+3000 and
    U+FEFF (U+00A0 has two bytes). *)
Definition blank3 (c d e : ascii) : bool :=
  let c := nat_of_ascii c in
  let d := nat_of_ascii d in
  let e := nat_of_ascii e in
  (Nat.eqb c 225 && Nat.eqb d 154 && Nat.eqb e 128)
  || (Nat.eqb c 226 && Nat.eqb d 128
      && ((Nat.leb 128 e && Nat.leb e 138) || Nat.eqb e 168 || Nat.eqb e 169
          || Nat.eqb e 175))
  || (Nat.eqb c 226 && Nat.eqb d 129 && Nat.eqb e 159)
  || (Nat.eqb c 227 && Nat.eqb d 128 && Nat.eqb e 128)
  || (Nat.eqb c 239 && Nat.eqb d 187 && Nat.eqb e 191).

(** The text after its leading white space and line ends. *)
Fixpoint skip_blanks (s : string) : string :=
  match s with
  | String c r =>
      if Text.is_space c then skip_blanks r
      else
        match r with
        | String d r1 =>
            if Nat.eqb (nat_of_ascii c) 194 && Nat.eqb (nat_of_ascii d) 160
            then skip_blanks r1
            else
              match r1 with
              | String e r2 => if blank3 c d e then skip_blanks r2 else s
              | EmptyString => s
              end
        | EmptyString => s
        end
  | EmptyString => s
  end.

(** The value of the longest run of digits at the head of the text;
    [acc] is [None] until a digit is read. *)
Fixpoint leading (digit : ascii -> option Z) (radix : Z) (acc : option Z) (s : string)
  : option Z :=
  match s with
  | String c r =>
      match digit c with
      | Some d => leading digit radix (Some (radix * Schema.coalesce acc 0 + d)) r
      | None => acc
      end
  | EmptyString => acc
  end.

(** [parseInt(s)], no radix given: white space, a sign, [0x] or [0X]
    for base 16, then digits up to the first character that is none. *)
Definition parseInt (s : string) : number :=
  let s := skip_blanks s in
  let negative := match s with String c _ => Ascii.eqb c "-" | EmptyString => false end in
  let s := match s with
           | String c r => if Ascii.eqb c "-" || Ascii.eqb c "+" then r else s
           | EmptyString => s
           end in
  let magnitude :=
    match s with
    | String c (String x r) =>
        if Ascii.eqb c "0" && (Ascii.eqb x "x" || Ascii.eqb x "X")
        then leading hex_digit 16 None r
        else leading dec_digit 10 None s
    | _ => leading dec_digit 10 None s
    end in
  match magnitude with
  | None => NaN
  | Some n => if n <=? max_safe then Int (if negative then - n else n) else Big
  end.

(** [a || b] on numbers *)
Definition or (a b : number) : number :=
  match a with
  | NaN | Int 0 => b
  | _ => a
  end.

(** [parseInt(req.query.limit) || 50] and
    [parseInt(req.query.offset) || 0], the parameters of LIMIT and
    OFFSET; an error when the conversion to text throws. *)
Definition limit (v : Query.value) : result number :=
  let? s := Query.to_string v in Ok (or (parseInt s) (Int 50)).

Definition offset (v : Query.value) : result number :=
  let? s := Query.to_string v in Ok (or (parseInt s) (Int 0)).

End Listing.

(* ------------------------------------------------------------------ *)
(** ** Several requests at once

    Each request holds its own connection; the store runs one statement
    at a time, of any of them.  A statement sees the committed rows and
    the rows of its own transaction.  An INSERT whose unique key is held
    by a row another open transaction has written waits for that
    transaction to end. *)

Module Concurrent.

Record client : Type := {
  conn : Pg.connection;
  todo : Pg.prog Server.response
}.

Record world : Type := {
  db : Pg.database;
  clients : list client
}.

Definition no_rows : tables :=
  {| users := []; locations := []; personnel := []; aircraft := [];
     sorties := []; sortie_crew := []; sortie_passengers := [];
     sortie_cargo := [] |}.

Definition pending_of (c : Pg.connection) : list new_row :=
  match c with
  | Pg.InTransaction pending => pending
  | _ => []
  end.

Definition pendings (l : list client) : list new_row :=
  flat_map (fun cl => pending_of (conn cl)) l.

(** The rows written by the open transactions of the clients other
    than the [i]-th. *)
Definition others (i : nat) (l : list client) : list new_row :=
  pendings (firstn i l) ++ pendings (skipn (S i) l).

Definition replace (i : nat) (cl : client) (l : list client) : list client :=
  firstn i l ++ cl :: skipn (S i) l.

Section WithStore.
Context {store : StoreInput}.

(** Does the statement have to wait? *)
Definition blocked (q : Pg.stmt) (d : Pg.database) (held : list new_row) : bool :=
  match Pg.build q (Pg.seqs d) with
  | Some (_, Ok n) => Schema.conflicts n (Schema.apply_rows no_rows held)
  | _ => false
  end.

(** The [i]-th client's next statement; [None] when that client has
    answered, or waits. *)
Definition step_at (i : nat) (w : world) : option world :=
  match nth_error (clients w) i with
  | Some cl =>
      match todo cl with
      | Pg.Query q k =>
          if blocked q (db w) (others i (clients w)) then None
          else
            let '(r, d', c') := Pg.exec q (db w) (conn cl) in
            Some {| db := d';
                    clients := replace i {| conn := c'; todo := k r |} (clients w) |}
      | _ => None
      end
  | None => None
  end.

(** A schedule names, step by step, the client that moves. *)
Fixpoint run_schedule (schedule : list nat) (w : world) : option world :=
  match schedule with
  | [] => Some w
  | i :: rest =>
      match step_at i w with
      | Some w' => run_schedule rest w'
      | None => None
      end
  end.
End WithStore.

(** The requests arrive together, each on an idle connection. *)
Definition start (d : Pg.database) (bodies : list Server.body_t) : world :=
  {| db := d;
     clients := map (fun b => {| conn := Pg.Idle; todo := Server.create_sortie b |})
                    bodies |}.

(** What a client has answered, if it has. *)
Definition answer (cl : client) : option (result Server.response) :=
  match todo cl with
  | Pg.Ret r => Some (Ok r)
  | Pg.Throw e => Some (Err e)
  | Pg.Query _ _ => None
  end.

Definition answers (w : world) : list (option (result Server.response)) :=
  map answer (clients w).

End Concurrent.

(* ------------------------------------------------------------------ *)
(** ** A store to run the model on

    Readers for the plain spellings: [YYYY-MM-DD], [T] or a blank,
    [HH:MM], optional [:SS], optional [Z], for timestamps; an optional
    sign, digits and an optional fraction for decimals. *)

Module Iso.

Definition digit (c : ascii) : option Z :=
  if Text.is_digit c then Some (Z.of_nat (nat_of_ascii c) - 48) else None.

(** Reads exactly [n] digits at the head of [s]. *)
Fixpoint number (n : nat) (acc : Z) (s : string) : option (Z * string) :=
  match n with
  | O => Some (acc, s)
  | S k =>
      match s with
      | String c r =>
          match digit c with
          | Some d => number k (10 * acc + d) r
          | None => None
          end
      | EmptyString => None
      end
  end.

Definition expect (c : ascii) (s : string) : option string :=
  match s with
  | String d r => if Ascii.eqb c d then Some r else None
  | EmptyString => None
  end.

Definition leap (y : Z) : bool :=
  ((y mod 4 =? 0) && negb (y mod 100 =? 0)) || (y mod 400 =? 0).

Definition days_in_month (y m : Z) : Z :=
  if m =? 2 then (if leap y then 29 else 28)
  else if (m =? 4) || (m =? 6) || (m =? 9) || (m =? 11) then 30
  else 31.

(** Days from 2000-01-01 to the given civil date. *)
Definition days_from_2000 (y m d : Z) : Z :=
  let y' := if m <=? 2 then y - 1 else y in
  let era := y' / 400 in
  let yoe := y' - era * 400 in
  let doy := (153 * (if 2 <? m then m - 3 else m + 9) + 2) / 5 + d - 1 in
  let doe := yoe * 365 + yoe / 4 - yoe / 100 + doy in
  era * 146097 + doe - 719468 - 10957.

Definition bindo {A B} (o : option A) (f : A -> option B) : option B :=
  match o with
  | Some a => f a
  | None => None
  end.

Definition timestamp (s : string) : option Z :=
  bindo (number 4 0 s) (fun '(y, s) =>
  bindo (expect "-" s) (fun s =>
  bindo (number 2 0 s) (fun '(m, s) =>
  bindo (expect "-" s) (fun s =>
  bindo (number 2 0 s) (fun '(d, s) =>
  bindo (match expect "T" s with Some r => Some r | None => expect " " s end) (fun s =>
  bindo (number 2 0 s) (fun '(h, s) =>
  bindo (expect ":" s) (fun s =>
  bindo (number 2 0 s) (fun '(mi, s) =>
  bindo (match expect ":" s with
         | Some r => number 2 0 r
         | None => Some (0, s)
         end) (fun '(sec, s) =>
  let rest := match expect "Z" s with Some r => r | None => s end in
  match rest with
  | String _ _ => None
  | EmptyString =>
      if (1 <=? m) && (m <=? 12) && (1 <=? d) && (d <=? days_in_month y m)
         && (h <? 24) && (mi <? 60) && (sec <? 60)
      then Some ((((days_from_2000 y m d * 24 + h) * 60 + mi) * 60 + sec) * 1000000)
      else None
  end)))))))))).

(** Digits up to the end or to a point: their value, how many there
    were, and what follows. *)
Fixpoint run_digits (acc : Z) (count : nat) (s : string) : Z * nat * string :=
  match s with
  | String c r =>
      match digit c with
      | Some d => run_digits (10 * acc + d) (S count) r
      | None => (acc, count, s)
      end
  | EmptyString => (acc, count, s)
  end.

Definition unsigned_hundredths (s : string) : option Z :=
  let '(whole, n, rest) := run_digits 0 0 s in
  match rest with
  | EmptyString => if Nat.eqb n 0 then None else Some (100 * whole)
  | String "." frac =>
      let '(f, k, rest') := run_digits 0 0 frac in
      match rest' with
      | EmptyString =>
          if Nat.eqb (n + k) 0 then None
          else Some (100 * whole + Schema.div_round (100 * f) (10 ^ Z.of_nat k))
      | _ => None
      end
  | _ => None
  end.

Definition numeric (s : string) : option Z :=
  let signed :=
    match s with
    | String "-" r => option_map Z.opp (unsigned_hundredths r)
    | String "+" r => unsigned_hundredths r
    | _ => unsigned_hundredths s
    end in
  match signed with
  | Some h => if Schema.fits_decimal_10_2 h then Some h else None
  | None => None
  end.

#[export] Instance store : StoreInput :=
  {| timestamp_in := timestamp; numeric_in := numeric; numeric_in_zero := eq_refl |}.

End Iso.

(* ------------------------------------------------------------------ *)
(** ** Sample data: the rows DATABASE_SETUP.md populates, and payloads *)

Module Sample.
Import Server.

Definition fleet : list Aircraft.row :=
  map (fun k => {| Aircraft.aircraft_id := k; Aircraft.total_flight_hours := Some 0 |})
      [1; 2; 3; 4; 5; 6; 7; 8; 9; 10; 11; 12].

Definition initial : tables :=
  {| users := [1; 2];
     locations := [1; 2; 3; 4; 5; 6; 7; 8];
     personnel := [1; 2; 3; 4; 5; 6; 7; 8];
     aircraft := fleet;
     sorties := [];
     sortie_crew := [];
     sortie_passengers := [];
     sortie_cargo := [] |}.

(** A sortie row carrying the given key and number. *)
Definition numbered (k : Z) (number : string) : Sorties.row :=
  {| Sorties.sortie_id := k;
     Sorties.sortie_number := number;
     Sorties.mission_type := "Lift";
     Sorties.aircraft_id := 1;
     Sorties.departure_location_id := 1;
     Sorties.arrival_location_id := 2;
     Sorties.takeoff_time := 0;
     Sorties.landing_time := 3600000000;
     Sorties.flight_duration_minutes := 60;
     Sorties.sortie_status := Some "Completed";
     Sorties.comments := None;
     Sorties.created_by := Some 1 |}.

Definition with_numbers (numbers : list (Z * string)) : tables :=
  Schema.with_sorties initial (map (fun kn => numbered (fst kn) (snd kn)) numbers).

(** Seven sorties flown in 2024. *)
Definition seven : tables :=
  with_numbers [(1, "S-2024-0001"); (2, "S-2024-0002"); (3, "S-2024-0003");
                (4, "S-2024-0004"); (5, "S-2024-0005"); (6, "S-2024-0006");
                (7, "S-2024-0007")].

(** A 90-minute training flight of aircraft 3. *)
Definition flight : sortie_t :=
  {| missionType := Js.Str "Training";
     tailNumber := Js.Num 3;
     depLocation := Js.Num 1;
     arrLocation := Js.Num 2;
     takeoffTime := Js.Str "2024-01-01T10:00Z";
     landingTime := Js.Str "2024-01-01T11:30Z";
     comments := Js.Undefined |}.

Definition slot (person : Z) : member_t :=
  {| name := Js.Num person; position := Js.Undefined; remarks := Js.Undefined |}.

Definition extra (person : Z) (label : string) : member_t :=
  {| name := Js.Num person; position := Js.Str label; remarks := Js.Str "" |}.

Definition two_pilots : crew_t :=
  {| pic := Some (slot 1); sic := Some (slot 2); oi := None;
     additional := Some [extra 6 "Crew Chief"] |}.

Definition no_passengers : passengers_t :=
  {| military := None; civilian := None; contractor := None;
     partner := None; other := None |}.

Definition some_passengers : passengers_t :=
  {| military := Some {| onload := Js.Num 4; offload := Js.Undefined; notes := Js.Null |};
     civilian := None; contractor := None;
     partner := Some {| onload := Js.Str "2"; offload := Js.Num 2; notes := Js.Str "VIP" |};
     other := None |}.

Definition empty_cargo : cargo_t :=
  {| onloadWeight := Js.Undefined; offloadWeight := Js.Undefined;
     description := Js.Undefined; hazmat := Js.Undefined;
     specialHandling := Js.Undefined |}.

Definition payload : body_t :=
  {| sortie := Some flight; crew := Some two_pilots;
     passengers := Some some_passengers; cargo := Some empty_cargo |}.

(** The same person as PIC and as an additional crew member. *)
Definition twice_in_crew : body_t :=
  {| sortie := Some flight;
     crew := Some {| pic := Some (slot 1); sic := None; oi := None;
                     additional := Some [extra 1 "Observer"] |};
     passengers := Some no_passengers; cargo := Some empty_cargo |}.

(** Landing an hour before takeoff. *)
Definition backwards : body_t :=
  {| sortie := Some {| missionType := Js.Str "Training";
                       tailNumber := Js.Num 3;
                       depLocation := Js.Num 1;
                       arrLocation := Js.Num 2;
                       takeoffTime := Js.Str "2024-01-01T10:00Z";
                       landingTime := Js.Str "2024-01-01T09:00Z";
                       comments := Js.Undefined |};
     crew := Some two_pilots;
     passengers := Some no_passengers; cargo := Some empty_cargo |}.

(** The payload without its [cargo] section. *)
Definition without_cargo : body_t :=
  {| sortie := Some flight; crew := Some two_pilots;
     passengers := Some some_passengers; cargo := None |}.

(** One planned sortie of aircraft 3, of the given length. *)
Definition scheduled (minutes : Z) : tables :=
  Schema.with_sorties initial
    [ {| Sorties.sortie_id := 1;
         Sorties.sortie_number := "S-2024-0001";
         Sorties.mission_type := "Lift";
         Sorties.aircraft_id := 3;
         Sorties.departure_location_id := 1;
         Sorties.arrival_location_id := 2;
         Sorties.takeoff_time := 0;
         Sorties.landing_time := minutes * 60000000;
         Sorties.flight_duration_minutes := minutes;
         Sorties.sortie_status := Some "Planned";
         Sorties.comments := None;
         Sorties.created_by := Some 1 |} ].

(** [SET sortie_status = 'Completed'] *)
Definition complete : Schema.sortie_set :=
  {| Schema.set_mission_type := None; Schema.set_aircraft_id := None;
     Schema.set_takeoff_time := None; Schema.set_landing_time := None;
     Schema.set_sortie_status := Some (Some "Completed");
     Schema.set_comments := None |}.

(** [SET comments = 'checked'] *)
Definition resave : Schema.sortie_set :=
  {| Schema.set_mission_type := None; Schema.set_aircraft_id := None;
     Schema.set_takeoff_time := None; Schema.set_landing_time := None;
     Schema.set_sortie_status := None;
     Schema.set_comments := Some (Some "checked") |}.

(** The accumulator of an aircraft, in hundredths of an hour. *)
Definition flight_hours (id : Z) (t : tables) : option Z :=
  match filter (fun a => Aircraft.aircraft_id a =? id) (aircraft t) with
  | a :: _ => Aircraft.total_flight_hours a
  | [] => None
  end.

Definition keys (a b c d : Z) : sequences :=
  {| sorties_sortie_id_seq := a;
     sortie_crew_crew_assignment_id_seq := b;
     sortie_passengers_passenger_tracking_id_seq := c;
     sortie_cargo_cargo_tracking_id_seq := d |}.

(** A store that already holds the seven sorties of 2024. *)
Definition busy : Pg.database :=
  {| Pg.committed := seven; Pg.seqs := keys 7 0 0 0; Pg.current_year := 2024 |}.

Definition busy_after (a b c d : Z) : Pg.database :=
  {| Pg.committed := seven; Pg.seqs := keys a b c d; Pg.current_year := 2024 |}.

(** A store at the end of the 2024 numbers: it holds, among others, the
    sorties numbered 1000 and 9999. *)
Definition full : Pg.database :=
  {| Pg.committed := with_numbers [(1000, "S-2024-1000"); (9999, "S-2024-9999")];
     Pg.seqs := keys 9999 0 0 0;
     Pg.current_year := 2024 |}.

(** The store after the payload was recorded in [busy]. *)
Definition recorded : Pg.database :=
  Eval vm_compute in
    snd (fst (Pg.run (store := Iso.store) (Server.create_sortie payload) busy Pg.Idle)).

(** The tables after the planned sortie was set to Completed. *)
Definition after_completion (minutes : Z) : tables :=
  match Schema.update_sorties 1 complete (scheduled minutes) with
  | Ok t => t
  | Err _ => scheduled minutes
  end.

(** Two requests: both begin, both read the maximum, the first runs
    to its commit, then the second goes on. *)
Definition racing : list nat :=
  [0; 1; 0; 1; 0; 0; 0; 0; 0; 0; 0; 0; 1; 1]%nat.

Definition raced : Concurrent.world :=
  match Concurrent.run_schedule (store := Iso.store) racing
          (Concurrent.start busy [payload; payload]) with
  | Some w => w
  | None => Concurrent.start busy []
  end.

End Sample.

(* ------------------------------------------------------------------ *)
(** ** The numbering rule in the specification's words *)

Module Spec.

(** [n] zero-padded to [width] digits: zeros are put in front of a
    shorter number, nothing is cut from a longer one. *)
Definition zero_pad (width : nat) (n : Z) : string :=
  (Text.repeat_char "0" (width - String.length (Text.of_Z n)) ++ Text.of_Z n)%string.

(** [S-<year>-<n zero-padded to 4 digits>] *)
Definition sortie_number (year n : Z) : string :=
  ("S-" ++ Text.to_char_yyyy year ++ "-" ++ zero_pad 4 n)%string.

End Spec.

(* ------------------------------------------------------------------ *)
(** ** Notions the properties are stated with *)

(** The value of a run of printed digits, most significant first. *)
Fixpoint uint_value (acc : Z) (d : Decimal.uint) : Z :=
  match d with
  | Decimal.Nil => acc
  | Decimal.D0 l => uint_value (10 * acc + 0) l
  | Decimal.D1 l => uint_value (10 * acc + 1) l
  | Decimal.D2 l => uint_value (10 * acc + 2) l
  | Decimal.D3 l => uint_value (10 * acc + 3) l
  | Decimal.D4 l => uint_value (10 * acc + 4) l
  | Decimal.D5 l => uint_value (10 * acc + 5) l
  | Decimal.D6 l => uint_value (10 * acc + 6) l
  | Decimal.D7 l => uint_value (10 * acc + 7) l
  | Decimal.D8 l => uint_value (10 * acc + 8) l
  | Decimal.D9 l => uint_value (10 * acc + 9) l
  end.

Definition is_crew (n : new_row) : Prop :=
  match n with NewCrew _ => True | _ => False end.

Definition is_passengers (n : new_row) : Prop :=
  match n with NewPassengers _ => True | _ => False end.

Definition is_dependent (n : new_row) : Prop :=
  match n with NewCrew _ | NewPassengers _ => True | _ => False end.

Definition any_row (n : new_row) : Prop := True.

Definition is_sortie (n : new_row) : Prop :=
  match n with NewSortie _ => True | _ => False end.

Definition is_cargo (n : new_row) : Prop :=
  match n with NewCargo _ => True | _ => False end.

Section Frames.
Context {store : StoreInput}.

(** The committed rows and the date are those of before. *)
Definition keeps (db db' : Pg.database) : Prop :=
  Pg.committed db' = Pg.committed db /\ Pg.current_year db' = Pg.current_year db.

(** A step run inside a transaction commits nothing and, when it
    succeeds, leaves the transaction open with more rows of kind [K]. *)
Definition writes (K : new_row -> Prop) {A} (p : Pg.prog A) : Prop :=
  forall db pend r db' c',
    Pg.run p db (Pg.InTransaction pend) = (r, db', c') ->
    keeps db db'
    /\ match r with
       | Ok _ => exists extra, c' = Pg.InTransaction (pend ++ extra) /\ Forall K extra
       | Err _ => True
       end.

(** A program that, run inside a transaction, either answers success
    with the transaction closed, or throws with nothing committed. *)
Definition finishes (p : Pg.prog Server.response) : Prop :=
  forall db pend r db' c',
    Pg.run p db (Pg.InTransaction pend) = (r, db', c') ->
    Pg.current_year db' = Pg.current_year db
    /\ match r with
       | Ok resp => Server.success resp = true /\ c' = Pg.Idle
       | Err _ => Pg.committed db' = Pg.committed db
       end.

End Frames.

Definition sortie_rows (rows : list new_row) : list Sorties.row :=
  flat_map (fun n => match n with NewSortie r => [r] | _ => [] end) rows.

Definition crew_rows (rows : list new_row) : list SortieCrew.row :=
  flat_map (fun n => match n with NewCrew r => [r] | _ => [] end) rows.

Definition passengers_rows (rows : list new_row) : list SortiePassengers.row :=
  flat_map (fun n => match n with NewPassengers r => [r] | _ => [] end) rows.

Definition cargo_rows (rows : list new_row) : list SortieCargo.row :=
  flat_map (fun n => match n with NewCargo r => [r] | _ => [] end) rows.

(** The slots of a crew section in the order the handler visits them,
    each with the position label and the [crew_position_other] parameter
    of its INSERT. *)
Definition slot_of (o : option Server.member_t) (label : string)
  : list (Server.member_t * string * option Js.value) :=
  match o with
  | Some m => [(m, label, None)]
  | None => []
  end.

Definition slots (c : Server.crew_t) : list (Server.member_t * string * option Js.value) :=
  (slot_of (Server.pic c) "PIC" ++ slot_of (Server.sic c) "SIC"
   ++ slot_of (Server.oi c) "O/I"
   ++ map (fun m => (m, "Other", Some (Server.position m)))
          (Schema.coalesce (Server.additional c) []))%list.

(** The INSERT of one slot, if its [name] is truthy. *)
Definition insert_entry (sortieId : Js.value)
    (e : Server.member_t * string * option Js.value) : Pg.prog unit :=
  let '(m, label, other) := e in
  if Js.truthy (Server.name m)
  then Pg.query (Pg.InsertSortieCrew sortieId (Server.name m) label other
                   (Js.or (Server.remarks m) Js.Null)) ;;; Pg.Ret tt
  else Pg.Ret tt.

Fixpoint insert_entries (sortieId : Js.value)
    (l : list (Server.member_t * string * option Js.value)) : Pg.prog unit :=
  match l with
  | [] => Pg.Ret tt
  | e :: rest => insert_entry sortieId e ;;; insert_entries sortieId rest
  end.

(** The slot names person [p]: its [name] is truthy and reads as [p]. *)
Definition names (e : Server.member_t * string * option Js.value) (p : Z) : Prop :=
  Js.truthy (Server.name (fst (fst e))) = true
  /\ Input.integer (Server.name (fst (fst e))) = Ok (Some p).

(** The open transaction already holds a crew row of the sortie for
    person [p]. *)
Definition held (sortieId : Js.value) (pend : list new_row) (p : Z) : Prop :=
  exists r0, In r0 (crew_rows pend)
             /\ Input.integer sortieId = Ok (Some (SortieCrew.sortie_id r0))
             /\ SortieCrew.personnel_id r0 = p.

Definition by_id_pattern : list Routes.segment :=
  [Routes.Lit "api"; Routes.Lit "sorties"; Routes.Param "id"].

Definition search_pattern : list Routes.segment :=
  [Routes.Lit "api"; Routes.Lit "sorties"; Routes.Lit "search"].

(** The accumulator of aircraft [id] moved by [minutes / 60] hours,
    rounded to hundredths; a NULL accumulator stays NULL. *)
Definition credit (id minutes : Z) (a : Aircraft.row) : Aircraft.row :=
  if Aircraft.aircraft_id a =? id
  then {| Aircraft.aircraft_id := Aircraft.aircraft_id a;
          Aircraft.total_flight_hours :=
            option_map (fun h => h + Schema.div_round (100 * minutes) 60)
                       (Aircraft.total_flight_hours a) |}
  else a.

(** The update moves the status of the row into Completed from another
    status. *)
Definition enters_completed (old new : Sorties.row) : Prop :=
  Sorties.sortie_status new = Some "Completed"
  /\ exists s, Sorties.sortie_status old = Some s /\ s <> "Completed".

Definition keyed (id : Z) (s : Sorties.row) : bool := Sorties.sortie_id s =? id.

Definition numbers (t : tables) : list string :=
  map Sorties.sortie_number (sorties t).

Definition pending_numbers (rows : list new_row) : list string :=
  map Sorties.sortie_number (sortie_rows rows).

(** The numbers of the committed sorties and of the sorties written by
    the open transactions. *)
Definition all_numbers (w : Concurrent.world) : list string :=
  (numbers (Pg.committed (Concurrent.db w))
   ++ pending_numbers (Concurrent.pendings (Concurrent.clients w)))%list.

(** Every request of the world has answered success. *)
Definition all_succeeded (w : Concurrent.world) : Prop :=
  Forall (fun a => exists id number, a = Some (Ok (Server.Created id number)))
         (Concurrent.answers w).

(* ================================================================== *)
(** ** Notions of the further properties *)

(** *** Numbering *)

(** No LIKE wildcard in the text. *)
Fixpoint plain (s : string) : bool :=
  match s with
  | EmptyString => true
  | String c r => negb (Ascii.eqb c "%") && negb (Ascii.eqb c "_") && plain r
  end.

(** The sortie carries a number of another year. *)
Definition of_other_year (year : Z) (s : Sorties.row) : Prop :=
  exists y' tail,
    0 <= y' <= 9999 /\ y' <> year
    /\ Sorties.sortie_number s = "S-" ++ Text.to_char_yyyy y' ++ "-" ++ tail.

(** *** Requests served one after the other *)

(** No sequence has gone back. *)
Definition seqs_le (a b : sequences) : Prop :=
  sorties_sortie_id_seq a <= sorties_sortie_id_seq b
  /\ sortie_crew_crew_assignment_id_seq a <= sortie_crew_crew_assignment_id_seq b
  /\ sortie_passengers_passenger_tracking_id_seq a
     <= sortie_passengers_passenger_tracking_id_seq b
  /\ sortie_cargo_cargo_tracking_id_seq a <= sortie_cargo_cargo_tracking_id_seq b.

(** Every foreign key of the four sortie tables points at a row. *)
Definition integrity (t : tables) : Prop :=
  Forall (fun r => Schema.references (NewSortie r) t = true) (sorties t)
  /\ Forall (fun r => Schema.references (NewCrew r) t = true) (sortie_crew t)
  /\ Forall (fun r => Schema.references (NewPassengers r) t = true) (sortie_passengers t)
  /\ Forall (fun r => Schema.references (NewCargo r) t = true) (sortie_cargo t).

(** Requests served one after the other, each on the store the one
    before left. *)
Section Serving.
Context {store : StoreInput}.

Fixpoint serve (bodies : list Server.body_t) (db : Pg.database)
  : list (result Server.response) * Pg.database :=
  match bodies with
  | [] => ([], db)
  | body :: rest =>
      let '(r, db1, _) := Pg.run (Server.create_sortie body) db Pg.Idle in
      let '(answers, db2) := serve rest db1 in
      (r :: answers, db2)
  end.

End Serving.

(** The identifiers of the requests that were answered with success. *)
Definition created_ids (answers : list (result Server.response)) : list Js.value :=
  flat_map (fun a => match a with
                     | Ok (Server.Created sortieId _) => [sortieId]
                     | _ => []
                     end) answers.

(** *** The rows of a call *)

(** The slot is inserted: its [name] is truthy. *)
Definition named (e : Server.member_t * string * option Js.value) : bool :=
  Js.truthy (Server.name (fst (fst e))).

(** The crew row stored for a slot: every column as the store reads the
    parameter of the INSERT. *)
Definition crew_row_of (sortieId : Js.value)
    (e : Server.member_t * string * option Js.value) (r : SortieCrew.row) : Prop :=
  Input.integer sortieId = Ok (Some (SortieCrew.sortie_id r))
  /\ Input.integer (Server.name (fst (fst e))) = Ok (Some (SortieCrew.personnel_id r))
  /\ SortieCrew.crew_position r = snd (fst e)
  /\ match snd e with
     | Some v => Input.varchar 100 v = Ok (SortieCrew.crew_position_other r)
     | None => SortieCrew.crew_position_other r = None
     end
  /\ (SortieCrew.crew_position r = "Other" -> SortieCrew.crew_position_other r <> None)
  /\ Input.text (Js.or (Server.remarks (fst (fst e))) Js.Null) = Ok (SortieCrew.remarks r)
  /\ SortieCrew.is_primary r = Some true.

(** The passenger categories of the payload, in the order of the loop. *)
Definition categories (p : Server.passengers_t) : list (string * Server.passenger_t) :=
  flat_map (fun type => match Server.passengers_get p type with
                        | Some c => [(type, c)]
                        | None => []
                        end)
           Server.passengerTypes.

(** The passenger row stored for a category. *)
Definition passengers_row_of (sortieId : Js.value)
    (e : string * Server.passenger_t) (r : SortiePassengers.row) : Prop :=
  Input.integer sortieId = Ok (Some (SortiePassengers.sortie_id r))
  /\ Server.passengerTypeMap (fst e) = Js.Str (SortiePassengers.passenger_type r)
  /\ Input.integer (Js.or (Server.onload (snd e)) (Js.Num 0))
     = Ok (Some (SortiePassengers.onload_count r))
  /\ Input.integer (Js.or (Server.offload (snd e)) (Js.Num 0))
     = Ok (Some (SortiePassengers.offload_count r))
  /\ Input.text (Js.or (Server.notes (snd e)) Js.Null) = Ok (SortiePassengers.notes r)
  /\ 0 <= SortiePassengers.onload_count r
  /\ 0 <= SortiePassengers.offload_count r.

(** *** The statements of a call *)

(** The statements of a creation call, with their parameters as the
    handler passes them: the INSERT of the sortie, of a crew slot, of a
    passenger category and of the cargo. *)
Definition sortie_insert (sortieNumber : Js.value) (s : Server.sortie_t) : Pg.stmt :=
  Pg.InsertSortie sortieNumber (Server.missionType s) (Server.tailNumber s)
    (Server.depLocation s) (Server.arrLocation s) (Server.takeoffTime s)
    (Server.landingTime s) (Js.or (Server.comments s) Js.Null) (Js.Num 1) "Completed".

Definition crew_insert (sortieId : Js.value)
    (e : Server.member_t * string * option Js.value) : Pg.stmt :=
  Pg.InsertSortieCrew sortieId (Server.name (fst (fst e))) (snd (fst e)) (snd e)
    (Js.or (Server.remarks (fst (fst e))) Js.Null).

Definition passengers_insert (sortieId : Js.value) (e : string * Server.passenger_t)
  : Pg.stmt :=
  Pg.InsertSortiePassengers sortieId (Server.passengerTypeMap (fst e))
    (Js.or (Server.onload (snd e)) (Js.Num 0))
    (Js.or (Server.offload (snd e)) (Js.Num 0))
    (Js.or (Server.notes (snd e)) Js.Null).

Definition cargo_insert (sortieId : Js.value) (g : Server.cargo_t) : Pg.stmt :=
  Pg.InsertSortieCargo sortieId
    (Js.or (Server.onloadWeight g) (Js.Num 0))
    (Js.or (Server.offloadWeight g) (Js.Num 0))
    (Js.or (Server.description g) Js.Null)
    (Js.or (Server.hazmat g) (Js.Bool false))
    (Js.or (Server.specialHandling g) Js.Null).

(** What follows the INSERT of the sortie, once it has returned the
    key: the named crew slots, the passenger categories present, the
    cargo. *)
Definition later_inserts (sortieId : Js.value) (c : Server.crew_t)
    (p : Server.passengers_t) (g : Server.cargo_t) : list Pg.stmt :=
  (map (crew_insert sortieId) (filter named (slots c))
   ++ map (passengers_insert sortieId) (categories p)
   ++ [cargo_insert sortieId g])%list.

Section Accepted.
Context {store : StoreInput}.

(** Statements sent one after the other, up to the first that the
    store refuses. *)
Fixpoint exec_all (qs : list Pg.stmt) (db : Pg.database) (c : Pg.connection)
  : result unit * Pg.database * Pg.connection :=
  match qs with
  | [] => (Ok tt, db, c)
  | q :: rest =>
      let '(r, db', c') := Pg.exec q db c in
      match r with
      | Ok _ => exec_all rest db' c'
      | Err e => (Err e, db', c')
      end
  end.

End Accepted.

(** *** The tables after a call *)

(** The cargo rows of a sortie. *)
Definition cargo_of (k : Z) (t : tables) : list SortieCargo.row :=
  filter (fun c => SortieCargo.sortie_id c =? k) (sortie_cargo t).

(** Every sortie has its one cargo row. *)
Definition one_cargo_each (t : tables) : Prop :=
  Forall (fun s => exists g, cargo_of (Sorties.sortie_id s) t = [g]) (sorties t).

(** [l] with rows added at its end. *)
Definition extends {A} (l l' : list A) : Prop := exists more, l' = (l ++ more)%list.

(** A sortie is one of before, or its key was drawn from the sequence. *)
Definition drawn (t0 : tables) (d : Pg.database) (t : tables) : Prop :=
  Forall (fun s => In s (sorties t0)
                   \/ Sorties.sortie_id s <= sorties_sortie_id_seq (Pg.seqs d))
         (sorties t).

(** *** Status changes *)

(** [SET sortie_status = st] *)
Definition only_status (st : string) : Schema.sortie_set :=
  {| Schema.set_mission_type := None; Schema.set_aircraft_id := None;
     Schema.set_takeoff_time := None; Schema.set_landing_time := None;
     Schema.set_sortie_status := Some (Some st);
     Schema.set_comments := None |}.

(** The condition of the trigger function: the row enters Completed. *)
Definition entering (old new : Sorties.row) : bool :=
  Schema.taken (Schema.sql_and (Schema.sql_eq (Sorties.sortie_status new) "Completed")
                               (Schema.sql_neq (Sorties.sortie_status old) "Completed")).

(** *** The search statement *)

(** What of a state does not depend on the values pushed. *)
Definition shape (st : Search.state) : string * Z * nat :=
  (Search.query st, Search.paramCount st, List.length (Search.params st)).

(** A filter that is given, or not. *)
Definition given (b : bool) : Query.value :=
  if b then Query.Text "x" else Query.Absent.

Definition given_filters (b1 b2 b3 b4 b5 b6 : bool) : Search.query_t :=
  {| Search.aircraft := given b1; Search.location := given b2;
     Search.missionType := given b3; Search.startDate := given b4;
     Search.endDate := given b5; Search.sortieNumber := given b6 |}.

(** The placeholders of a state are bound: its text names the
    parameters 1 to n, n being the number of values pushed. *)
Definition bound (sh : string * Z * nat) : bool :=
  let '(text, count, n) := sh in
  (if list_eq_dec Z.eq_dec (nodup Z.eq_dec (Search.placeholders text))
                  (map Z.of_nat (seq 1 n))
   then true else false)
  && (count =? Z.of_nat n + 1).

(** ** Further sample data *)

Module Cases.
Import Server.

(** A store with the reference rows and no sortie yet, and the same
    store after the sample payload was recorded in it. *)
Definition fresh : Pg.database :=
  {| Pg.committed := Sample.initial; Pg.seqs := Sample.keys 0 0 0 0;
     Pg.current_year := 2024 |}.

Definition first : Pg.database :=
  Eval vm_compute in
    snd (fst (Pg.run (store := Iso.store) (Server.create_sortie Sample.payload)
                     fresh Pg.Idle)).

Definition second : Pg.database :=
  Eval vm_compute in
    snd (fst (Pg.run (store := Iso.store) (Server.create_sortie Sample.payload)
                     first Pg.Idle)).

(** A store in which a sortie of 2024 was numbered by hand. *)
Definition mislabelled : Pg.database :=
  {| Pg.committed := Sample.with_numbers [(1, "S-2024-0001"); (2, "S-2024-TEST")];
     Pg.seqs := Sample.keys 2 0 0 0;
     Pg.current_year := 2024 |}.

(** The seven sorties in a store whose only user has the key 2. *)
Definition without_user_1 : Pg.database :=
  {| Pg.committed :=
       {| users := [2];
          locations := locations Sample.seven;
          personnel := personnel Sample.seven;
          aircraft := aircraft Sample.seven;
          sorties := map (fun s => {| Sorties.sortie_id := Sorties.sortie_id s;
                                      Sorties.sortie_number := Sorties.sortie_number s;
                                      Sorties.mission_type := Sorties.mission_type s;
                                      Sorties.aircraft_id := Sorties.aircraft_id s;
                                      Sorties.departure_location_id :=
                                        Sorties.departure_location_id s;
                                      Sorties.arrival_location_id :=
                                        Sorties.arrival_location_id s;
                                      Sorties.takeoff_time := Sorties.takeoff_time s;
                                      Sorties.landing_time := Sorties.landing_time s;
                                      Sorties.flight_duration_minutes :=
                                        Sorties.flight_duration_minutes s;
                                      Sorties.sortie_status := Sorties.sortie_status s;
                                      Sorties.comments := Sorties.comments s;
                                      Sorties.created_by := Some 2 |})
                         (sorties Sample.seven);
          sortie_crew := [];
          sortie_passengers := [];
          sortie_cargo := [] |};
     Pg.seqs := Sample.keys 7 0 0 0;
     Pg.current_year := 2024 |}.

(** A crew chief added to the crew without the text of a position. *)
Definition unlabelled : member_t :=
  {| name := Js.Num 6; position := Js.Undefined; remarks := Js.Undefined |}.

Definition crew_with_unlabelled : crew_t :=
  {| pic := Some (Sample.slot 1); sic := None; oi := None;
     additional := Some [unlabelled] |}.

Definition with_unlabelled : body_t :=
  {| sortie := Some Sample.flight; crew := Some crew_with_unlabelled;
     passengers := Some Sample.no_passengers; cargo := Some Sample.empty_cargo |}.

(** A count below zero among the passengers. *)
Definition minus_one : passenger_t :=
  {| onload := Js.Num (- 1); offload := Js.Undefined; notes := Js.Undefined |}.

Definition passengers_below_zero : passengers_t :=
  {| military := Some minus_one; civilian := None; contractor := None;
     partner := None; other := None |}.

Definition below_zero : body_t :=
  {| sortie := Some Sample.flight; crew := Some Sample.two_pilots;
     passengers := Some passengers_below_zero; cargo := Some Sample.empty_cargo |}.

(** Three requests in a row, the second of which fails. *)
Definition three : list body_t :=
  [Sample.payload; Sample.twice_in_crew; Sample.payload].

Definition served : list (result response) * Pg.database :=
  Eval vm_compute in serve (store := Iso.store) three Sample.busy.

(** The completed sortie of 90 minutes set back to Planned, and
    completed once more. *)
Definition reopened : tables :=
  match Schema.update_sorties 1 (only_status "Planned") (Sample.after_completion 90) with
  | Ok t => t
  | Err _ => Sample.after_completion 90
  end.

Definition completed_again : tables :=
  match Schema.update_sorties 1 (only_status "Completed") reopened with
  | Ok t => t
  | Err _ => reopened
  end.

(** Two searches with the same filters given: one for an aircraft and
    part of a number, one with a quote and a comment in the values. *)
Definition by_tail : Search.query_t :=
  {| Search.aircraft := Query.Text "N761HG";
     Search.location := Query.Absent;
     Search.missionType := Query.Text "";
     Search.startDate := Query.Absent;
     Search.endDate := Query.Absent;
     Search.sortieNumber := Query.Text "0008" |}.

Definition with_quotes : Search.query_t :=
  {| Search.aircraft := Query.Text "x' OR 1=1 --";
     Search.location := Query.Absent;
     Search.missionType := Query.Absent;
     Search.startDate := Query.Text "";
     Search.endDate := Query.Absent;
     Search.sortieNumber := Query.Many [Query.Text "'; DROP TABLE sorties; --"] |}.

(** The statements the two searches send. *)
Definition by_tail_statement : Search.state :=
  {| Search.query :=
       "SELECT * FROM vw_sorties_complete WHERE 1=1 AND tail_number = $1"
       ++ " AND sortie_number ILIKE $2 ORDER BY takeoff_time DESC LIMIT 100";
     Search.params := [Query.Text "N761HG"; Query.Text "%0008%"];
     Search.paramCount := 3 |}.

Definition with_quotes_statement : Search.state :=
  {| Search.query :=
       "SELECT * FROM vw_sorties_complete WHERE 1=1 AND tail_number = $1"
       ++ " AND sortie_number ILIKE $2 ORDER BY takeoff_time DESC LIMIT 100";
     Search.params := [Query.Text "x' OR 1=1 --"; Query.Text "%'; DROP TABLE sorties; --%"];
     Search.paramCount := 3 |}.

(** The sample payload, statement by statement: the INSERT of its
    sortie in the store of seven, and the INSERTs that follow. *)
Definition sortie_sent : result Pg.reply * Pg.database * Pg.connection :=
  Eval vm_compute in
    Pg.exec (store := Iso.store) (sortie_insert (Js.Str "S-2024-0008") Sample.flight)
            Sample.busy (Pg.InTransaction []).

Definition all_sent : result unit * Pg.database * Pg.connection :=
  Eval vm_compute in
    exec_all (store := Iso.store)
      (later_inserts (Js.Num 8) Sample.two_pilots Sample.some_passengers Sample.empty_cargo)
      (snd (fst sortie_sent)) (snd sortie_sent).

Definition rows_sent : list new_row :=
  match snd all_sent with
  | Pg.InTransaction rows => rows
  | _ => []
  end.

(** An additional crew member whose position has sixty letters of two
    bytes each (e acute, in UTF-8): sixty characters, 120 bytes. *)
Fixpoint letters (n : nat) : string :=
  match n with
  | O => EmptyString
  | S k => String "195" (String "169" (letters k))
  end.

Definition long_position : member_t :=
  {| name := Js.Num 6; position := Js.Str (letters 60); remarks := Js.Undefined |}.

Definition crew_with_long_position : crew_t :=
  {| pic := Some (Sample.slot 1); sic := None; oi := None;
     additional := Some [long_position] |}.

Definition with_long_position : body_t :=
  {| sortie := Some Sample.flight; crew := Some crew_with_long_position;
     passengers := Some Sample.no_passengers; cargo := Some Sample.empty_cargo |}.

Definition recorded_long_position : Pg.database :=
  Eval vm_compute in
    snd (fst (Pg.run (store := Iso.store) (Server.create_sortie with_long_position)
                     Sample.busy Pg.Idle)).

End Cases.


(** * Properties *)

(** ** Results and small facts *)

Lemma rbind_ok {A B} (r : result A) (f : A -> result B) (b : B) :
  rbind r f = Ok b -> exists a, r = Ok a /\ f a = Ok b.
Proof. destruct r as [a | e]; simpl; intros H; [eauto | discriminate]. Qed.

Lemma Ok_inj {A} (a b : A) : Ok a = Ok b -> a = b.
Proof. intros H. congruence. Qed.

Lemma guard_ok (b : bool) (e : exn) (u : unit) : guard b e = Ok u -> b = true.
Proof. destruct b; simpl; [reflexivity | discriminate]. Qed.

Lemma not_null_ok {A} (v : option A) (a : A) : Input.not_null v = Ok a -> v = Some a.
Proof. destruct v; simpl; intros H; inversion H; reflexivity. Qed.

(** A property checked on every number from 0 to 9999 holds of each. *)
Lemma below_10000 (P : Z -> bool) :
  forallb P (map Z.of_nat (seq 0 (Z.to_nat 10000))) = true ->
  forall n, 0 <= n <= 9999 -> P n = true.
Proof.
  intros H n Hn. rewrite forallb_forall in H. apply H.
  apply in_map_iff. exists (Z.to_nat n). split; [lia |].
  apply in_seq. lia.
Qed.

(** ** Numbering *)

(** Up to 9999, [LPAD] pads and cuts nothing. *)
Lemma lpad_zero_pad (n : Z) :
  0 <= n <= 9999 -> Text.lpad (Text.of_Z n) 4 "0" = Spec.zero_pad 4 n.
Proof.
  intros Hn.
  pose proof (below_10000
    (fun k => (Text.lpad (Text.of_Z k) 4 "0" =? Spec.zero_pad 4 k)%string)) as H.
  apply String.eqb_eq. apply H; [vm_compute; reflexivity | exact Hn].
Qed.

(** A year of the common era up to 9999 fits the [VARCHAR(4)] variable. *)
Lemma year_str_fits (year : Z) :
  0 <= year <= 9999 ->
  Input.varchar 4 (Js.Str (Text.to_char_yyyy year)) = Ok (Some (Text.to_char_yyyy year)).
Proof.
  intros Hy.
  pose proof (below_10000
    (fun y => match Input.varchar 4 (Js.Str (Text.to_char_yyyy y)) with
              | Ok (Some t) => (t =? Text.to_char_yyyy y)%string
              | _ => false
              end)) as H.
  specialize (H ltac:(vm_compute; reflexivity) year Hy). simpl in H.
  destruct (Input.varchar 4 (Js.Str (Text.to_char_yyyy year))) as [[t|]|]; try discriminate.
  apply String.eqb_eq in H. now subst.
Qed.

(** The generator against the rule: while the next number has at most
    four digits, it is the rule's number. *)
Lemma generate_sortie_number_spec (year : Z) (t : tables) (nums : list Z) :
  0 <= year <= 9999 ->
  Schema.year_sequence (Text.to_char_yyyy year) t = Ok nums ->
  0 <= Schema.coalesce (Schema.sql_max nums) 0 + 1 <= 9999 ->
  Schema.generate_sortie_number year t
  = Ok (Spec.sortie_number year (Schema.coalesce (Schema.sql_max nums) 0 + 1)).
Proof.
  intros Hy Hseq Hn. unfold Schema.generate_sortie_number.
  rewrite (year_str_fits Hy). simpl. rewrite Hseq. simpl.
  replace (Text.in_int4 _) with true.
  - simpl. rewrite (lpad_zero_pad Hn). reflexivity.
  - symmetry. unfold Text.in_int4, Text.int4_min, Text.int4_max. lia.
Qed.

(** With no sortie numbered for the year, the first number is 0001. *)
Lemma generate_sortie_number_first (year : Z) (t : tables) :
  0 <= year <= 9999 ->
  Schema.year_sequence (Text.to_char_yyyy year) t = Ok [] ->
  Schema.generate_sortie_number year t
  = Ok ("S-" ++ Text.to_char_yyyy year ++ "-0001")%string.
Proof.
  intros Hy Hseq.
  rewrite (generate_sortie_number_spec t Hy Hseq); simpl; [reflexivity | lia].
Qed.

(** The two submissions the specification works out. *)
Example generate_after_seven :
  Schema.generate_sortie_number 2024 Sample.seven = Ok "S-2024-0008".
Proof. vm_compute. reflexivity. Qed.

Example generate_first_of_2025 :
  Schema.generate_sortie_number 2025 Sample.seven = Ok "S-2025-0001".
Proof. vm_compute. reflexivity. Qed.

(** C2 (fails on the code).  After S-2024-9999 the rule's next number is
    S-2024-10000, but [LPAD(..., 4, '0')] keeps only the first four
    characters of 10000: the generator hands out S-2024-1000.  That
    number is not one more than the maximum; a sortie carries it already,
    so that the creation is refused by the unique index, and so is every
    later creation of the year. *)
Theorem generate_sortie_number_after_9999 :
  let t := Pg.committed Sample.full in
  Schema.year_sequence "2024" t = Ok [1000; 9999]
  /\ Spec.sortie_number 2024 (9999 + 1) = "S-2024-10000"
  /\ Schema.generate_sortie_number 2024 t = Ok "S-2024-1000"
  /\ map Sorties.sortie_number (sorties t) = ["S-2024-1000"; "S-2024-9999"]
  /\ fst (fst (Pg.run (store := Iso.store) (Server.create_sortie Sample.payload)
                     Sample.full Pg.Idle))
     = Ok (Server.Failed UniqueViolation).
Proof. vm_compute. repeat split; reflexivity. Qed.

(** ** Decimal text read back *)

Lemma digits_printed (d : Decimal.uint) :
  forall acc seen,
    d <> Decimal.Nil \/ seen = true ->
    Text.digits acc seen (NilEmpty.string_of_uint d) = Some (uint_value acc d).
Proof.
  induction d; intros acc seen H;
    try (cbn [NilEmpty.string_of_uint Text.digits uint_value];
         change (Text.is_digit _) with true; cbv iota;
         rewrite IHd by (right; reflexivity); reflexivity).
  destruct H as [H | ->]; [congruence | reflexivity].
Qed.

Lemma uint_value_acc (d : Decimal.uint) :
  forall p, uint_value (Zpos p) d = Zpos (Pos.of_uint_acc d p).
Proof.
  induction d; intros p; cbn [uint_value Pos.of_uint_acc];
    try reflexivity; rewrite <- IHd; f_equal; lia.
Qed.

Lemma uint_value_of_uint (d : Decimal.uint) :
  uint_value 0 d = Z.of_N (Pos.of_uint d).
Proof.
  induction d; cbn [uint_value Pos.of_uint]; try reflexivity;
    try (change (10 * 0 + 0) with 0; exact IHd);
    cbn [Z.mul Z.add]; rewrite uint_value_acc; reflexivity.
Qed.

Lemma printed_head_not_blank (p : positive) :
  exists c r, NilEmpty.string_of_uint (Pos.to_uint p) = String c r
              /\ Text.is_space c = false /\ c <> "-"%char /\ c <> "+"%char.
Proof.
  pose proof (DecimalPos.Unsigned.to_uint_nonnil p) as Hnil.
  destruct (Pos.to_uint p); try congruence;
    cbn [NilEmpty.string_of_uint]; eexists; eexists;
    (split; [reflexivity | split; [reflexivity | split; discriminate]]).
Qed.

Lemma digits_of_positive (p : positive) :
  Text.digits 0 false (NilEmpty.string_of_uint (Pos.to_uint p)) = Some (Zpos p).
Proof.
  rewrite digits_printed by (left; apply DecimalPos.Unsigned.to_uint_nonnil).
  rewrite uint_value_of_uint, DecimalPos.Unsigned.of_to. reflexivity.
Qed.

(** Reading the printed text of an integer gives the integer back. *)
Lemma to_Z_of_Z (n : Z) : Text.to_Z (Text.of_Z n) = Some n.
Proof.
  unfold Text.of_Z, Text.to_Z.
  destruct n as [| p | p]; cbn [Z.to_int]; [reflexivity | |];
    unfold NilZero.string_of_int, NilZero.string_of_uint;
    replace (match Pos.to_uint p with
             | Decimal.Nil => "0"
             | _ => NilEmpty.string_of_uint (Pos.to_uint p)
             end) with (NilEmpty.string_of_uint (Pos.to_uint p))
      by (pose proof (DecimalPos.Unsigned.to_uint_nonnil p);
          destruct (Pos.to_uint p); congruence).
  - pose proof (digits_of_positive p) as Hd.
    destruct (printed_head_not_blank p) as (c & r & E & Hs & Hm & Hp).
    rewrite E in *. cbn [Text.ltrim]. rewrite Hs.
    apply Ascii.eqb_neq in Hm, Hp. rewrite Hm, Hp. exact Hd.
  - cbn [Text.ltrim]. change (Text.is_space "-") with false. cbv iota.
    change (Ascii.eqb "-" "-") with true. cbv iota.
    rewrite digits_of_positive. reflexivity.
Qed.

Lemma integer_of_num (n : Z) :
  Input.integer (Js.Num n)
  = if Text.in_int4 n then Ok (Some n) else Err NumericValueOutOfRange.
Proof.
  unfold Input.integer, Text.cast_integer. cbn [Js.prepareValue].
  rewrite to_Z_of_Z. destruct (Text.in_int4 n); reflexivity.
Qed.

(* ------------------------------------------------------------------ *)
(** ** Running programs *)

Section Running.
Context {store : StoreInput}.

Lemma run_bind {A B} (p : Pg.prog A) (f : A -> Pg.prog B) :
  forall db c,
    Pg.run (Pg.bind p f) db c
    = let '(r, db', c') := Pg.run p db c in
      match r with
      | Ok a => Pg.run (f a) db' c'
      | Err e => (Err e, db', c')
      end.
Proof.
  induction p as [a | e | q k IH]; intros db c; simpl; try reflexivity.
  destruct (Pg.exec q db c) as [[r db'] c']. apply IH.
Qed.

Lemma run_try_catch {A} (p : Pg.prog A) (h : exn -> Pg.prog A) :
  forall db c,
    Pg.run (Pg.try_catch p h) db c
    = let '(r, db', c') := Pg.run p db c in
      match r with
      | Ok a => (Ok a, db', c')
      | Err e => Pg.run (h e) db' c'
      end.
Proof.
  induction p as [a | e | q k IH]; intros db c; simpl; try reflexivity.
  destruct (Pg.exec q db c) as [[r db'] c']. apply IH.
Qed.

Lemma run_query (q : Pg.stmt) db c : Pg.run (Pg.query q) db c = Pg.exec q db c.
Proof.
  simpl. destruct (Pg.exec q db c) as [[[rows | e] db'] c']; reflexivity.
Qed.

(** An INSERT inside a transaction: the row joins the pending rows, or
    the transaction is aborted; the committed rows stay. *)
Lemma exec_insert (q : Pg.stmt) db pend s' rb :
  Pg.build q (Pg.seqs db) = Some (s', rb) ->
  Pg.exec q db (Pg.InTransaction pend)
  = match rb with
    | Err e => (Err e, Pg.with_seqs db s', Pg.Aborted)
    | Ok n =>
        match Pg.accept_row n (Schema.apply_rows (Pg.committed db) pend) with
        | Err e => (Err e, Pg.with_seqs db s', Pg.Aborted)
        | Ok _ => (Ok (Pg.returning n), Pg.with_seqs db s',
                   Pg.InTransaction (pend ++ [n]))
        end
    end.
Proof.
  intros H. unfold Pg.exec.
  destruct q; try (simpl in H; discriminate); cbv beta iota;
    rewrite H; destruct rb as [n | e]; try reflexivity;
    unfold Pg.visible; destruct (Pg.accept_row _ _); reflexivity.
Qed.

End Running.

(* ------------------------------------------------------------------ *)
(** ** What the steps of the handler write *)

Section Steps.
Context {store : StoreInput}.

Lemma keeps_refl db : keeps db db.
Proof. split; reflexivity. Qed.

Lemma keeps_trans db1 db2 db3 : keeps db1 db2 -> keeps db2 db3 -> keeps db1 db3.
Proof. intros [A B] [C D]. split; congruence. Qed.

Lemma keeps_with_seqs db s : keeps db (Pg.with_seqs db s).
Proof. split; reflexivity. Qed.

Lemma writes_ret K {A} (a : A) : writes K (Pg.Ret a).
Proof.
  intros db pend r db' c' H. simpl in H. inversion H; subst.
  split; [apply keeps_refl |]. exists []. rewrite app_nil_r. auto.
Qed.

Lemma writes_throw K {A} (e : exn) : writes K (@Pg.Throw A e).
Proof.
  intros db pend r db' c' H. simpl in H. inversion H; subst.
  split; [apply keeps_refl | exact I].
Qed.

Lemma writes_bind K {A B} (p : Pg.prog A) (f : A -> Pg.prog B) :
  writes K p -> (forall a, writes K (f a)) -> writes K (Pg.bind p f).
Proof.
  intros Hp Hf db pend r db' c' H. rewrite run_bind in H.
  destruct (Pg.run p db (Pg.InTransaction pend)) as [[r1 db1] c1] eqn:E1.
  destruct (Hp _ _ _ _ _ E1) as [K1 P1].
  destruct r1 as [a | e].
  - destruct P1 as (extra1 & -> & F1).
    destruct (Hf a _ _ _ _ _ H) as [K2 P2]. split; [eapply keeps_trans; eauto |].
    destruct r as [b | e]; [| exact I].
    destruct P2 as (extra2 & -> & F2). exists (extra1 ++ extra2)%list.
    rewrite app_assoc. split; [reflexivity | apply Forall_app; auto].
  - inversion H; subst. split; [assumption | exact I].
Qed.

Lemma writes_weaken (K K' : new_row -> Prop) {A} (p : Pg.prog A) :
  (forall n, K n -> K' n) -> writes K p -> writes K' p.
Proof.
  intros HK Hp db pend r db' c' H. destruct (Hp _ _ _ _ _ H) as [K1 P1].
  split; [assumption |]. destruct r; [| exact I].
  destruct P1 as (extra & -> & F). exists extra. split; [reflexivity |].
  eapply Forall_impl; eauto.
Qed.

(** An INSERT writes the row it builds. *)
Lemma writes_insert K (q : Pg.stmt) :
  (forall s, exists s' rb, Pg.build q s = Some (s', rb)
                           /\ forall n, rb = Ok n -> K n) ->
  writes K (Pg.query q).
Proof.
  intros Hq db pend r db' c' H. rewrite run_query in H.
  destruct (Hq (Pg.seqs db)) as (s' & rb & Hb & HK).
  rewrite (exec_insert q db pend Hb) in H.
  destruct rb as [n | e].
  - destruct (Pg.accept_row n _); inversion H; subst;
      (split; [apply keeps_with_seqs |]); [| exact I].
    exists [n]. split; [reflexivity | constructor; auto].
  - inversion H; subst. split; [apply keeps_with_seqs | exact I].
Qed.

Lemma build_crew s p1 p2 position other p3 :
  exists s' rb,
    Pg.build (Pg.InsertSortieCrew p1 p2 position other p3) s = Some (s', rb)
    /\ forall n, rb = Ok n -> is_crew n.
Proof.
  simpl. destruct (Schema.sortie_crew_row s p1 p2 position other p3) as [s' r].
  eexists; eexists; split; [reflexivity |].
  intros n. destruct r; simpl; intros H; inversion H; exact I.
Qed.

Lemma build_passengers s p1 p2 p3 p4 p5 :
  exists s' rb,
    Pg.build (Pg.InsertSortiePassengers p1 p2 p3 p4 p5) s = Some (s', rb)
    /\ forall n, rb = Ok n -> is_passengers n.
Proof.
  simpl. destruct (Schema.sortie_passengers_row s p1 p2 p3 p4 p5) as [s' r].
  eexists; eexists; split; [reflexivity |].
  intros n. destruct r; simpl; intros H; inversion H; exact I.
Qed.

Lemma writes_deref K {A} (section : option A) : writes K (Server.deref section).
Proof. destruct section; [apply writes_ret | apply writes_throw]. Qed.

Lemma writes_first_row K (rows : Pg.reply) : writes K (Server.first_row rows).
Proof. destruct rows; [apply writes_throw | apply writes_ret]. Qed.

Lemma writes_insert_slot sortieId slot label :
  writes is_crew (Server.insert_slot sortieId slot label).
Proof.
  unfold Server.insert_slot. destruct slot as [m |]; [| apply writes_ret].
  destruct (Js.truthy (Server.name m)); [| apply writes_ret].
  apply writes_bind; [| intros; apply writes_ret].
  apply writes_insert. intros s. apply build_crew.
Qed.

Lemma writes_insert_additional sortieId l :
  writes is_crew (Server.insert_additional sortieId l).
Proof.
  induction l as [| m l IH]; cbn [Server.insert_additional]; [apply writes_ret |].
  apply writes_bind; [| intros; exact IH].
  destruct (Js.truthy (Server.name m)); [| apply writes_ret].
  apply writes_bind; [| intros; apply writes_ret].
  apply writes_insert. intros s. apply build_crew.
Qed.

Lemma writes_insert_crew sortieId crew :
  writes is_crew (Server.insert_crew sortieId crew).
Proof.
  unfold Server.insert_crew.
  apply writes_bind; [apply writes_deref | intros c].
  repeat (apply writes_bind; [apply writes_insert_slot | intros _]).
  destruct (Server.additional c) as [[| m l] |];
    [apply writes_ret | apply writes_insert_additional | apply writes_ret].
Qed.

Lemma writes_insert_passengers sortieId p types :
  writes is_passengers (Server.insert_passengers sortieId p types).
Proof.
  induction types as [| type rest IH]; cbn [Server.insert_passengers];
    [apply writes_ret |].
  apply writes_bind; [apply writes_deref | intros o].
  apply writes_bind; [| intros; exact IH].
  destruct (Server.passengers_get o type); [| apply writes_ret].
  apply writes_bind; [| intros; apply writes_ret].
  apply writes_insert. intros s. apply build_passengers.
Qed.

End Steps.

(* ------------------------------------------------------------------ *)
(** ** Atomicity of the creation *)

Section Atomicity.
Context {store : StoreInput}.

Lemma build_sortie s p1 p2 p3 p4 p5 p6 p7 p8 p9 status :
  exists s' rb,
    Pg.build (Pg.InsertSortie p1 p2 p3 p4 p5 p6 p7 p8 p9 status) s = Some (s', rb)
    /\ forall n, rb = Ok n -> is_sortie n.
Proof.
  simpl. destruct (Schema.sorties_row s p1 p2 p3 p4 p5 p6 p7 p8 p9 status) as [s' r].
  eexists; eexists; split; [reflexivity |].
  intros n. destruct r; simpl; intros H; inversion H; exact I.
Qed.

Lemma build_cargo s p1 p2 p3 p4 p5 p6 :
  exists s' rb,
    Pg.build (Pg.InsertSortieCargo p1 p2 p3 p4 p5 p6) s = Some (s', rb)
    /\ forall n, rb = Ok n -> is_cargo n.
Proof.
  simpl. destruct (Schema.sortie_cargo_row s p1 p2 p3 p4 p5 p6) as [s' r].
  eexists; eexists; split; [reflexivity |].
  intros n. destruct r; simpl; intros H; inversion H; exact I.
Qed.

Lemma writes_generate K : writes K (Pg.query Pg.SelectGenerateSortieNumber).
Proof.
  intros db pend r db' c' H. rewrite run_query in H. simpl in H.
  destruct (Schema.generate_sortie_number _ _); inversion H; subst;
    (split; [apply keeps_refl |]); [| exact I].
  exists []. rewrite app_nil_r. auto.
Qed.

Lemma finishes_bind K {A} (p : Pg.prog A) (f : A -> Pg.prog Server.response) :
  writes K p -> (forall a, finishes (f a)) -> finishes (Pg.bind p f).
Proof.
  intros Hp Hf db pend r db' c' H. rewrite run_bind in H.
  destruct (Pg.run p db (Pg.InTransaction pend)) as [[r1 db1] c1] eqn:E1.
  destruct (Hp _ _ _ _ _ E1) as [[K1 Y1] P1].
  destruct r1 as [a | e].
  - destruct P1 as (extra1 & -> & F1).
    destruct (Hf a _ _ _ _ _ H) as [Y2 P2]. split; [congruence |].
    destruct r; [assumption | congruence].
  - inversion H; subst. split; assumption.
Qed.

Lemma finishes_commit sortieId sortieNumber :
  finishes (Pg.query Pg.COMMIT ;;; Pg.Ret (Server.Created sortieId sortieNumber)).
Proof.
  intros db pend r db' c' H. simpl in H. inversion H; subst.
  split; [reflexivity | split; reflexivity].
Qed.

Lemma create_sortie_steps_finish body : finishes (Server.create_sortie_steps body).
Proof.
  unfold Server.create_sortie_steps.
  eapply finishes_bind; [apply (writes_generate any_row) | intros rows].
  eapply finishes_bind; [apply (writes_first_row any_row) | intros sortieNumber].
  eapply finishes_bind; [apply (writes_deref any_row) | intros s].
  eapply finishes_bind;
    [apply writes_insert; intros q; apply build_sortie | intros rows'].
  eapply finishes_bind; [apply (writes_first_row any_row) | intros sortieId].
  eapply finishes_bind; [apply writes_insert_crew | intros _].
  eapply finishes_bind; [apply writes_insert_passengers | intros _].
  eapply finishes_bind; [apply (writes_deref any_row) | intros g].
  eapply finishes_bind;
    [apply writes_insert; intros q; apply build_cargo | intros _].
  apply finishes_commit.
Qed.

(** The [try] block: success with the connection idle again, or an
    error with nothing committed. *)
Lemma create_sortie_try_outcome body db :
  exists r db' c',
    Pg.run (Server.create_sortie_try body) db Pg.Idle = (r, db', c')
    /\ Pg.current_year db' = Pg.current_year db
    /\ match r with
       | Ok resp => Server.success resp = true /\ c' = Pg.Idle
       | Err _ => Pg.committed db' = Pg.committed db
       end.
Proof.
  unfold Server.create_sortie_try. rewrite run_bind, run_query.
  cbn [Pg.exec].
  destruct (Pg.run (Server.create_sortie_steps body) db (Pg.InTransaction []))
    as [[r db'] c'] eqn:E.
  exists r, db', c'. split; [reflexivity |].
  exact (create_sortie_steps_finish body _ _ E).
Qed.

(** The handler always answers; a failure answer comes with the
    connection idle and the committed rows those of before. *)
Lemma create_sortie_outcome body db :
  exists resp db',
    Pg.run (Server.create_sortie body) db Pg.Idle = (Ok resp, db', Pg.Idle)
    /\ Pg.current_year db' = Pg.current_year db
    /\ (Server.success resp = false -> Pg.committed db' = Pg.committed db).
Proof.
  unfold Server.create_sortie. rewrite run_try_catch.
  destruct (create_sortie_try_outcome body db) as (r & db1 & c1 & E & Y & P).
  rewrite E. destruct r as [resp | e].
  - destruct P as [S ->]. exists resp, db1. split; [reflexivity |].
    split; [assumption |]. intros F. congruence.
  - exists (Server.Failed e), db1. split; [reflexivity |].
    split; [assumption |]. intros _. assumption.
Qed.

End Atomicity.

(* ------------------------------------------------------------------ *)
(** ** The trace of a successful creation *)

Section Trace.
Context {store : StoreInput}.

Lemma exec_insert_ok (q : Pg.stmt) db pend rows db' c' s' rb :
  Pg.exec q db (Pg.InTransaction pend) = (Ok rows, db', c') ->
  Pg.build q (Pg.seqs db) = Some (s', rb) ->
  exists n,
    rb = Ok n
    /\ Pg.accept_row n (Schema.apply_rows (Pg.committed db) pend) = Ok tt
    /\ rows = Pg.returning n
    /\ db' = Pg.with_seqs db s'
    /\ c' = Pg.InTransaction (pend ++ [n]).
Proof.
  intros H Hb. rewrite (exec_insert q db pend Hb) in H.
  destruct rb as [n | e]; [| discriminate].
  destruct (Pg.accept_row n _) as [[] | e] eqn:Ea; [| discriminate].
  inversion H; subst. exists n. repeat split; first [assumption | reflexivity].
Qed.

(** One [x <- step ;; rest] of a run that ended well: the step ended
    well too. *)
Lemma run_bind_ok {A B} (p : Pg.prog A) (f : A -> Pg.prog B) db c b db' c' :
  Pg.run (Pg.bind p f) db c = (Ok b, db', c') ->
  exists a db1 c1,
    Pg.run p db c = (Ok a, db1, c1) /\ Pg.run (f a) db1 c1 = (Ok b, db', c').
Proof.
  rewrite run_bind. destruct (Pg.run p db c) as [[[a | e] db1] c1]; intros H;
    [| discriminate].
  exists a, db1, c1. split; [reflexivity | assumption].
Qed.

Lemma run_deref_ok {A} (section : option A) db c a db' c' :
  Pg.run (Server.deref section) db c = (Ok a, db', c') ->
  section = Some a /\ db' = db /\ c' = c.
Proof.
  destruct section; simpl; intros H; inversion H; subst; auto.
Qed.

Lemma run_first_row_ok rows db c v db' c' :
  Pg.run (Server.first_row rows) db c = (Ok v, db', c') ->
  hd_error rows = Some v /\ db' = db /\ c' = c.
Proof.
  destruct rows; simpl; intros H; inversion H; subst; auto.
Qed.

Lemma writes_ok K {A} (p : Pg.prog A) db pend a db' c' :
  writes K p ->
  Pg.run p db (Pg.InTransaction pend) = (Ok a, db', c') ->
  keeps db db' /\ exists extra, c' = Pg.InTransaction (pend ++ extra) /\ Forall K extra.
Proof. intros W H. exact (W _ _ _ _ _ H). Qed.

(** Everything a creation that answered 201 went through. *)
Lemma created_trace body db sortieId sortieNumber db' c' :
  Pg.run (Server.create_sortie body) db Pg.Idle
  = (Ok (Server.Created sortieId sortieNumber), db', c') ->
  exists s g num s1 srow db2 crews db3 paxs s4 crow,
    Server.sortie body = Some s
    /\ Server.cargo body = Some g
    /\ Schema.generate_sortie_number (Pg.current_year db) (Pg.committed db) = Ok num
    /\ sortieNumber = Js.Str num
    /\ Schema.sorties_row (Pg.seqs db) (Js.Str num) (Server.missionType s)
         (Server.tailNumber s) (Server.depLocation s) (Server.arrLocation s)
         (Server.takeoffTime s) (Server.landingTime s)
         (Js.or (Server.comments s) Js.Null) (Js.Num 1) "Completed"
       = (s1, Ok srow)
    /\ Pg.accept_row (NewSortie srow) (Pg.committed db) = Ok tt
    /\ sortieId = Js.Num (Sorties.sortie_id srow)
    /\ Pg.run (Server.insert_crew sortieId (Server.crew body))
              (Pg.with_seqs db s1) (Pg.InTransaction [NewSortie srow])
       = (Ok tt, db2, Pg.InTransaction (NewSortie srow :: crews))
    /\ Forall is_crew crews
    /\ Pg.run (Server.insert_passengers sortieId (Server.passengers body)
                                        Server.passengerTypes)
              db2 (Pg.InTransaction (NewSortie srow :: crews))
       = (Ok tt, db3, Pg.InTransaction (NewSortie srow :: crews ++ paxs))
    /\ Forall is_passengers paxs
    /\ Schema.sortie_cargo_row (Pg.seqs db3) sortieId
         (Js.or (Server.onloadWeight g) (Js.Num 0))
         (Js.or (Server.offloadWeight g) (Js.Num 0))
         (Js.or (Server.description g) Js.Null)
         (Js.or (Server.hazmat g) (Js.Bool false))
         (Js.or (Server.specialHandling g) Js.Null)
       = (s4, Ok crow)
    /\ Pg.accept_row (NewCargo crow)
         (Schema.apply_rows (Pg.committed db) (NewSortie srow :: crews ++ paxs))
       = Ok tt
    /\ Pg.committed db'
       = Schema.apply_rows (Pg.committed db)
           (NewSortie srow :: crews ++ paxs ++ [NewCargo crow])
    /\ c' = Pg.Idle.
Proof.
  intros H. unfold Server.create_sortie in H. rewrite run_try_catch in H.
  destruct (Pg.run (Server.create_sortie_try body) db Pg.Idle)
    as [[[resp | e] dbT] cT] eqn:T; [| simpl in H; discriminate].
  inversion H; subst resp dbT cT; clear H.
  unfold Server.create_sortie_try in T. rewrite run_bind, run_query in T.
  cbn [Pg.exec] in T. unfold Server.create_sortie_steps in T.
  (* 1. the number *)
  apply run_bind_ok in T. destruct T as (rows & dbA & cA & G & T).
  rewrite run_query in G. cbn [Pg.exec Pg.visible Schema.apply_rows fold_left] in G.
  destruct (Schema.generate_sortie_number _ _) as [num | e] eqn:Gen;
    inversion G; subst rows dbA cA; clear G.
  apply run_bind_ok in T. destruct T as (v & dbA & cA & G & T).
  apply run_first_row_ok in G. destruct G as (G & -> & ->).
  simpl in G. inversion G; subst v; clear G.
  (* 2. the sortie *)
  apply run_bind_ok in T. destruct T as (s & dbA & cA & G & T).
  apply run_deref_ok in G. destruct G as (Hs & -> & ->).
  apply run_bind_ok in T. destruct T as (rows & db1 & c1 & G & T).
  rewrite run_query in G.
  destruct (Schema.sorties_row (Pg.seqs db) (Js.Str num) (Server.missionType s)
              (Server.tailNumber s) (Server.depLocation s) (Server.arrLocation s)
              (Server.takeoffTime s) (Server.landingTime s)
              (Js.or (Server.comments s) Js.Null) (Js.Num 1) "Completed")
    as [s1 rs] eqn:Row.
  eapply exec_insert_ok in G; [| cbn [Pg.build]; rewrite Row; reflexivity].
  destruct G as (n & Hn & Acc & -> & -> & ->).
  destruct rs as [srow | e]; simpl in Hn; inversion Hn; subst n; clear Hn.
  cbn [Schema.apply_rows fold_left] in Acc.
  apply run_bind_ok in T. destruct T as (v & dbA & cA & G & T).
  apply run_first_row_ok in G. destruct G as (G & -> & ->).
  simpl in G. inversion G; subst v; clear G.
  (* 3. the crew *)
  apply run_bind_ok in T. destruct T as ([] & db2 & c2 & C & T).
  pose proof C as C'. eapply writes_ok in C'; [| apply writes_insert_crew].
  destruct C' as (K2 & crews & -> & FC).
  (* 4. the passengers *)
  apply run_bind_ok in T. destruct T as ([] & db3 & c3 & P & T).
  pose proof P as P'. eapply writes_ok in P'; [| apply writes_insert_passengers].
  destruct P' as (K3 & paxs & -> & FP).
  (* 5. the cargo *)
  apply run_bind_ok in T. destruct T as (g & dbA & cA & G & T).
  apply run_deref_ok in G. destruct G as (Hg & -> & ->).
  apply run_bind_ok in T. destruct T as (rows & db4 & c4 & G & T).
  rewrite run_query in G.
  destruct (Schema.sortie_cargo_row (Pg.seqs db3) (Js.Num (Sorties.sortie_id srow))
              (Js.or (Server.onloadWeight g) (Js.Num 0))
              (Js.or (Server.offloadWeight g) (Js.Num 0))
              (Js.or (Server.description g) Js.Null)
              (Js.or (Server.hazmat g) (Js.Bool false))
              (Js.or (Server.specialHandling g) Js.Null))
    as [s4 rc] eqn:RowC.
  eapply exec_insert_ok in G; [| cbn [Pg.build]; rewrite RowC; reflexivity].
  destruct G as (n & Hn & AccC & -> & -> & ->).
  destruct rc as [crow | e]; simpl in Hn; inversion Hn; subst n; clear Hn.
  (* COMMIT *)
  simpl in T. inversion T; subst db' c'; clear T.
  destruct K2 as [K2 _], K3 as [K3 _]. simpl in K2.
  assert (E3 : Pg.committed db3 = Pg.committed db) by congruence.
  rewrite E3 in AccC.
  exists s, g, num, s1, srow, db2, crews, db3, paxs, s4, crow.
  simpl. rewrite E3. rewrite <- !app_assoc in *. simpl in *.
  repeat (split; [first [assumption | reflexivity] |]). reflexivity.
Qed.

End Trace.

(* ------------------------------------------------------------------ *)
(** ** Rows added to the tables *)

Lemma apply_rows_tables (rows : list new_row) :
  forall t,
    users (Schema.apply_rows t rows) = users t
    /\ locations (Schema.apply_rows t rows) = locations t
    /\ personnel (Schema.apply_rows t rows) = personnel t
    /\ aircraft (Schema.apply_rows t rows) = aircraft t
    /\ sorties (Schema.apply_rows t rows) = (sorties t ++ sortie_rows rows)%list
    /\ sortie_crew (Schema.apply_rows t rows) = (sortie_crew t ++ crew_rows rows)%list
    /\ sortie_passengers (Schema.apply_rows t rows)
       = (sortie_passengers t ++ passengers_rows rows)%list
    /\ sortie_cargo (Schema.apply_rows t rows) = (sortie_cargo t ++ cargo_rows rows)%list.
Proof.
  unfold Schema.apply_rows.
  induction rows as [| n rows IH]; intros t; cbn [fold_left].
  - unfold sortie_rows, crew_rows, passengers_rows, cargo_rows. simpl.
    rewrite !app_nil_r. repeat split.
  - destruct (IH (Schema.add_row n t)) as (U & L & P & A & S & C & X & G).
    rewrite U, L, P, A, S, C, X, G.
    destruct n; simpl; rewrite <- ?app_assoc; repeat split.
Qed.

Lemma sortie_rows_app (a b : list new_row) :
  sortie_rows (a ++ b) = (sortie_rows a ++ sortie_rows b)%list.
Proof. apply flat_map_app. Qed.

Lemma cargo_rows_app (a b : list new_row) :
  cargo_rows (a ++ b) = (cargo_rows a ++ cargo_rows b)%list.
Proof. apply flat_map_app. Qed.

Lemma crew_rows_app (a b : list new_row) :
  crew_rows (a ++ b) = (crew_rows a ++ crew_rows b)%list.
Proof. apply flat_map_app. Qed.

Lemma no_sortie_rows (rows : list new_row) :
  Forall is_dependent rows -> sortie_rows rows = [] /\ cargo_rows rows = [].
Proof.
  induction 1 as [| n rows Hn _ [IHs IHc]]; [split; reflexivity |].
  destruct n; try contradiction; simpl; auto.
Qed.

Lemma crew_is_dependent n : is_crew n -> is_dependent n.
Proof. destruct n; simpl; auto. Qed.

Lemma passengers_is_dependent n : is_passengers n -> is_dependent n.
Proof. destruct n; simpl; auto. Qed.

(** The rows of a creation, table by table: one sortie, one cargo row,
    crew and passenger rows, and nothing on the aircraft. *)
Lemma created_rows t srow crews paxs crow :
  Forall is_crew crews -> Forall is_passengers paxs ->
  let t' := Schema.apply_rows t (NewSortie srow :: crews ++ paxs ++ [NewCargo crow]) in
  sorties t' = (sorties t ++ [srow])%list
  /\ sortie_cargo t' = (sortie_cargo t ++ [crow])%list
  /\ aircraft t' = aircraft t.
Proof.
  intros FC FP t'.
  destruct (apply_rows_tables (NewSortie srow :: crews ++ paxs ++ [NewCargo crow]) t)
    as (_ & _ & _ & A & S & _ & _ & G).
  fold t' in A, S, G.
  assert (DC : Forall is_dependent crews)
    by (eapply Forall_impl; [exact crew_is_dependent | exact FC]).
  assert (DP : Forall is_dependent paxs)
    by (eapply Forall_impl; [exact passengers_is_dependent | exact FP]).
  destruct (no_sortie_rows DC) as [Cs Cc].
  destruct (no_sortie_rows DP) as [Ps Pc].
  change (NewSortie srow :: crews ++ paxs ++ [NewCargo crow])
    with ([NewSortie srow] ++ (crews ++ paxs ++ [NewCargo crow]))%list in S, G.
  rewrite !sortie_rows_app in S. rewrite !cargo_rows_app in G.
  rewrite Cs, Ps in S. rewrite Cc, Pc in G. simpl in S, G.
  auto.
Qed.

(* ------------------------------------------------------------------ *)
(** ** What a row that was built tells about its parameters *)

Ltac unbind H :=
  repeat match type of H with
         | rbind _ _ = Ok _ =>
             let a := fresh "x" in
             let E := fresh "E" in
             apply rbind_ok in H; destruct H as (a & E & H)
         end.

Ltac unseal :=
  repeat match goal with
         | E : Input.not_null _ = Ok _ |- _ => apply not_null_ok in E
         | E : guard _ _ = Ok _ |- _ => apply guard_ok in E
         | E : (_ <? _) = true |- _ => apply Z.ltb_lt in E
         | E : (_ <=? _) = true |- _ => apply Z.leb_le in E
         end.

Section Rows.
Context {store : StoreInput}.

Lemma sorties_row_ok seqs p1 p2 p3 p4 p5 p6 p7 p8 p9 status s1 r :
  Schema.sorties_row seqs p1 p2 p3 p4 p5 p6 p7 p8 p9 status = (s1, Ok r) ->
  Input.varchar 50 p1 = Ok (Some (Sorties.sortie_number r))
  /\ Input.integer p3 = Ok (Some (Sorties.aircraft_id r))
  /\ Input.timestamp p6 = Ok (Some (Sorties.takeoff_time r))
  /\ Input.timestamp p7 = Ok (Some (Sorties.landing_time r))
  /\ Sorties.takeoff_time r < Sorties.landing_time r
  /\ Input.varchar 50 (Js.Str status) = Ok (Sorties.sortie_status r)
  /\ Sorties.sortie_id r = sorties_sortie_id_seq seqs + 1
  /\ Sorties.flight_duration_minutes r
     = Schema.generated_flight_duration (Sorties.takeoff_time r) (Sorties.landing_time r)
  /\ Text.mem (Sorties.mission_type r) Schema.mission_types = true.
Proof.
  unfold Schema.sorties_row. intros H.
  match type of H with
  | match ?X with _ => _ end = _ => destruct X as [tuple | e] eqn:Conv
  end; [| discriminate].
  destruct tuple as [[[[[[[[[number mission] ac] dep] arr] tk] ld] cm] cr] st].
  unbind Conv. inversion Conv; subst; clear Conv.
  inversion H as [[Hs Hr]]; clear H. unbind Hr. unseal.
  inversion Hr; subst; clear Hr. cbn.
  repeat split; assumption.
Qed.

Lemma sortie_cargo_row_ok seqs p1 p2 p3 p4 p5 p6 s1 r :
  Schema.sortie_cargo_row seqs p1 p2 p3 p4 p5 p6 = (s1, Ok r) ->
  Input.integer p1 = Ok (Some (SortieCargo.sortie_id r))
  /\ Input.decimal p2 = Ok (Some (SortieCargo.onload_weight r))
  /\ Input.decimal p3 = Ok (Some (SortieCargo.offload_weight r))
  /\ Input.boolean p5 = Ok (SortieCargo.hazmat_onboard r)
  /\ 0 <= SortieCargo.onload_weight r
  /\ 0 <= SortieCargo.offload_weight r.
Proof.
  unfold Schema.sortie_cargo_row. intros H.
  match type of H with
  | match ?X with _ => _ end = _ => destruct X as [tuple | e] eqn:Conv
  end; [| discriminate].
  destruct tuple as [[[[[sid onl] offl] descr] hz] sp].
  unbind Conv. inversion Conv; subst; clear Conv.
  inversion H as [[Hs Hr]]; clear H. unbind Hr. unseal.
  inversion Hr; subst; clear Hr. cbn.
  repeat split; assumption.
Qed.

Lemma sortie_crew_row_ok seqs p1 p2 position other p3 s1 r :
  Schema.sortie_crew_row seqs p1 p2 position other p3 = (s1, Ok r) ->
  Input.integer p1 = Ok (Some (SortieCrew.sortie_id r))
  /\ Input.integer p2 = Ok (Some (SortieCrew.personnel_id r)).
Proof.
  unfold Schema.sortie_crew_row. intros H.
  match type of H with
  | match ?X with _ => _ end = _ => destruct X as [tuple | e] eqn:Conv
  end; [| discriminate].
  destruct tuple as [[[[sid pid] pos] oth] rem].
  unbind Conv. inversion Conv; subst; clear Conv.
  inversion H as [[Hs Hr]]; clear H. unbind Hr. unseal.
  inversion Hr; subst; clear Hr. cbn.
  repeat split; assumption.
Qed.

End Rows.

(* ------------------------------------------------------------------ *)
(** ** Lengths of texts *)

Lemma length_app (a b : string) :
  String.length (a ++ b) = (String.length a + String.length b)%nat.
Proof. induction a; simpl; [reflexivity | now rewrite IHa]. Qed.

Lemma length_repeat_char (c : ascii) (n : nat) :
  String.length (Text.repeat_char c n) = n.
Proof. induction n; simpl; [reflexivity | now rewrite IHn]. Qed.

Lemma length_take (n : nat) :
  forall s, String.length (Text.take n s) = Nat.min n (String.length s).
Proof.
  induction n; intros s; simpl; [reflexivity |].
  destruct s; simpl; [reflexivity | now rewrite IHn].
Qed.

Lemma take_all (n : nat) :
  forall s, (String.length s <= n)%nat -> Text.take n s = s.
Proof.
  induction n; intros s H; destruct s; simpl in *; try reflexivity; try lia.
  f_equal. apply IHn. lia.
Qed.

Lemma length_lpad (s : string) (n : nat) (c : ascii) :
  String.length (Text.lpad s n c) = n.
Proof.
  unfold Text.lpad. destruct (Nat.leb n (String.length s)) eqn:E.
  - apply Nat.leb_le in E. rewrite length_take. lia.
  - apply Nat.leb_gt in E. rewrite length_app, length_repeat_char. lia.
Qed.

Lemma length_rtrim (blank : ascii -> bool) (s : string) :
  (String.length (Input.rtrim blank s) <= String.length s)%nat.
Proof.
  induction s as [| c r IH]; simpl; [lia |].
  destruct (Input.rtrim blank r); [destruct (blank c) |]; simpl in *; lia.
Qed.

(** A text within the width of a [VARCHAR] column is stored as it is. *)
Lemma char_length_le (s : string) : (Text.char_length s <= String.length s)%nat.
Proof.
  induction s as [| c s IH]; cbn [Text.char_length String.length]; [lia |].
  destruct (Text.is_continuation c); lia.
Qed.

Lemma char_length_app (a b : string) :
  Text.char_length (a ++ b) = (Text.char_length a + Text.char_length b)%nat.
Proof.
  induction a as [| c a IH]; cbn [append Text.char_length]; [reflexivity |].
  rewrite IH. destruct (Text.is_continuation c); reflexivity.
Qed.

Lemma char_length_rtrim (blank : ascii -> bool) (s : string) :
  (Text.char_length (Input.rtrim blank s) <= Text.char_length s)%nat.
Proof.
  induction s as [| c s IH]; cbn [Input.rtrim Text.char_length]; [lia |].
  destruct (Input.rtrim blank s) as [| d r'].
  - destruct (blank c); cbn [Text.char_length]; destruct (Text.is_continuation c); lia.
  - cbn [Text.char_length] in IH |- *.
    destruct (Text.is_continuation c); lia.
Qed.

Lemma take_chars_all (s : string) :
  forall n, (Text.char_length s <= n)%nat -> Text.take_chars n s = s.
Proof.
  induction s as [| c s IH]; intros n H; cbn [Text.take_chars Text.char_length] in *;
    [reflexivity |].
  destruct (Text.is_continuation c).
  - now rewrite IH.
  - destruct n as [| k]; [lia |]. rewrite IH by lia. reflexivity.
Qed.

Lemma char_length_take_chars (s : string) :
  forall n, (Text.char_length (Text.take_chars n s) <= n)%nat.
Proof.
  induction s as [| c s IH]; intros n; cbn [Text.take_chars Text.char_length]; [lia |].
  destruct (Text.is_continuation c) eqn:E.
  - cbn [Text.char_length]. rewrite E. apply IH.
  - destruct n as [| k]; cbn [Text.char_length]; [lia |]. rewrite E.
    specialize (IH k). lia.
Qed.

(** A text of at most [n] characters is stored as it is. *)
Lemma varchar_chars (n : nat) (t : string) :
  (Text.char_length t <= n)%nat -> Input.varchar n (Js.Str t) = Ok (Some t).
Proof.
  intros H. unfold Input.varchar. cbn [Js.prepareValue].
  pose proof (char_length_rtrim (Ascii.eqb " ") t) as R.
  replace (Nat.leb _ n) with true by (symmetry; apply Nat.leb_le; lia).
  now rewrite take_chars_all.
Qed.

Lemma varchar_short (n : nat) (t : string) :
  (String.length t <= n)%nat -> Input.varchar n (Js.Str t) = Ok (Some t).
Proof.
  intros H. apply varchar_chars. pose proof (char_length_le t). lia.
Qed.

Lemma varchar_length (n : nat) (v : Js.value) (t : string) :
  Input.varchar n v = Ok (Some t) -> (Text.char_length t <= n)%nat.
Proof.
  unfold Input.varchar. destruct (Js.prepareValue v) as [u |]; [| discriminate].
  destruct (Nat.leb _ n); [| discriminate].
  intros H. inversion H; subst. apply char_length_take_chars.
Qed.

(** A generated number has at most eleven characters. *)
Lemma generate_sortie_number_short (year : Z) (t : tables) (num : string) :
  Schema.generate_sortie_number year t = Ok num -> (Text.char_length num <= 11)%nat.
Proof.
  unfold Schema.generate_sortie_number. intros H. unbind H.
  inversion H; subst; clear H.
  change ("S-" ++ Schema.coalesce x "" ++ "-"
          ++ Text.lpad (Text.of_Z (Schema.coalesce (Schema.sql_max x0) 0 + 1)) 4 "0")
    with (String "S" (String "-" (Schema.coalesce x "" ++ String "-"
          (Text.lpad (Text.of_Z (Schema.coalesce (Schema.sql_max x0) 0 + 1)) 4 "0")))).
  cbn [Text.char_length]. change (Text.is_continuation "S") with false.
  change (Text.is_continuation "-") with false. cbv iota.
  rewrite char_length_app. cbn [Text.char_length].
  change (Text.is_continuation "-") with false. cbv iota.
  pose proof (char_length_le
                (Text.lpad (Text.of_Z (Schema.coalesce (Schema.sql_max x0) 0 + 1)) 4 "0"))
    as L.
  rewrite length_lpad in L.
  destruct x as [y |]; cbn [Schema.coalesce Text.char_length]; [| lia].
  apply varchar_length in E. lia.
Qed.

(* ------------------------------------------------------------------ *)
(** ** The creation call: claims *)

Section Creation.
Context {store : StoreInput}.

(** C1.  A creation call that answers failure, at whatever step it
    failed once the transaction was open, leaves the connection idle
    and the committed tables exactly as they were: no sortie row, no
    crew, passenger or cargo row; and the number the generator would
    hand out next is the one of before, so no number was consumed. *)
Theorem failed_creation_persists_nothing body db resp db' c' :
  Pg.run (Server.create_sortie body) db Pg.Idle = (Ok resp, db', c') ->
  Server.success resp = false ->
  c' = Pg.Idle
  /\ Pg.committed db' = Pg.committed db
  /\ Schema.generate_sortie_number (Pg.current_year db') (Pg.committed db')
     = Schema.generate_sortie_number (Pg.current_year db) (Pg.committed db).
Proof.
  intros H F.
  destruct (create_sortie_outcome body db) as (resp0 & db0 & E & Y & P).
  rewrite E in H. inversion H; subst.
  specialize (P F). rewrite P, Y. auto.
Qed.

(** C7 (as amended).  A successful call inserts exactly one cargo row,
    for the new sortie; in it the onload weight, the offload weight and
    the hazmat flag are zero, zero and false wherever the field of the
    cargo section is missing (or falsy).  The cargo section itself is
    there: without it the call does not succeed. *)
Theorem created_cargo_row body db sortieId sortieNumber db' c' :
  Pg.run (Server.create_sortie body) db Pg.Idle
  = (Ok (Server.Created sortieId sortieNumber), db', c') ->
  exists g crow,
    Server.cargo body = Some g
    /\ sortie_cargo (Pg.committed db') = (sortie_cargo (Pg.committed db) ++ [crow])%list
    /\ sortieId = Js.Num (SortieCargo.sortie_id crow)
    /\ (Js.truthy (Server.onloadWeight g) = false -> SortieCargo.onload_weight crow = 0)
    /\ (Js.truthy (Server.offloadWeight g) = false -> SortieCargo.offload_weight crow = 0)
    /\ (Js.truthy (Server.hazmat g) = false ->
        SortieCargo.hazmat_onboard crow = Some false).
Proof.
  intros E.
  destruct (created_trace _ _ E)
    as (s & g & num & s1 & srow & db2 & crews & db3 & paxs & s4 & crow
        & Hs & Hg & Gen & -> & Row & Acc & -> & C & FC & Px & FP & RowC & AccC & Com & _).
  exists g, crow.
  destruct (created_rows (Pg.committed db) srow crow FC FP) as (_ & G & _).
  destruct (sortie_cargo_row_ok _ _ _ _ _ _ _ RowC) as (Hid & Hon & Hoff & Hhz & _).
  rewrite integer_of_num in Hid.
  destruct (Text.in_int4 (Sorties.sortie_id srow)); inversion Hid as [Hid'].
  rewrite Com. repeat split; auto.
  - intros F. unfold Js.or in Hon. rewrite F in Hon.
    unfold Input.decimal in Hon. cbn in Hon. rewrite numeric_in_zero in Hon.
    now inversion Hon.
  - intros F. unfold Js.or in Hoff. rewrite F in Hoff.
    unfold Input.decimal in Hoff. cbn in Hoff. rewrite numeric_in_zero in Hoff.
    now inversion Hoff.
  - intros F. unfold Js.or in Hhz. rewrite F in Hhz.
    cbn in Hhz. now inversion Hhz.
Qed.

(** C10.  A payload without its crew, passengers or cargo section is
    not taken as one with an empty section: the call answers failure
    and the committed tables are those of before. *)
Theorem missing_section_fails body db :
  Server.crew body = None \/ Server.passengers body = None \/ Server.cargo body = None ->
  exists e db',
    Pg.run (Server.create_sortie body) db Pg.Idle = (Ok (Server.Failed e), db', Pg.Idle)
    /\ Pg.committed db' = Pg.committed db.
Proof.
  intros M.
  destruct (create_sortie_outcome body db) as (resp & db' & E & Y & P).
  destruct resp as [sortieId sortieNumber | e].
  - exfalso.
    destruct (created_trace _ _ E)
      as (s & g & num & s1 & srow & db2 & crews & db3 & paxs & s4 & crow
          & Hs & Hg & Gen & -> & Row & Acc & -> & C & FC & Px & FP & _).
    destruct M as [M | [M | M]].
    + rewrite M in C. simpl in C. discriminate.
    + rewrite M in Px. simpl in Px. discriminate.
    + congruence.
  - exists e, db'. split; [assumption | apply P; reflexivity].
Qed.

(** C5.  The call keeps the invariant and rejects what would break
    it: if landing was after takeoff in every committed sortie before
    the call, it is so after it; and a payload whose landing time is
    not after its takeoff time is answered with failure, the committed
    tables being those of before. *)
Theorem landing_after_takeoff body db resp db' c' :
  Pg.run (Server.create_sortie body) db Pg.Idle = (Ok resp, db', c') ->
  forallb Schema.valid_flight_times (sorties (Pg.committed db)) = true ->
  forallb Schema.valid_flight_times (sorties (Pg.committed db')) = true
  /\ forall s takeoff landing,
       Server.sortie body = Some s ->
       Input.timestamp (Server.takeoffTime s) = Ok (Some takeoff) ->
       Input.timestamp (Server.landingTime s) = Ok (Some landing) ->
       landing <= takeoff ->
       Server.success resp = false /\ Pg.committed db' = Pg.committed db.
Proof.
  intros H Inv.
  destruct (create_sortie_outcome body db) as (resp0 & db0 & E & Y & P).
  rewrite E in H. inversion H; subst resp0 db0 c'; clear H.
  destruct resp as [sortieId sortieNumber | e].
  - destruct (created_trace _ _ E)
      as (s & g & num & s1 & srow & db2 & crews & db3 & paxs & s4 & crow
          & Hs & Hg & Gen & -> & Row & Acc & -> & C & FC & Px & FP & RowC & AccC & Com & _).
    destruct (created_rows (Pg.committed db) srow crow FC FP) as (S & _ & _).
    destruct (sorties_row_ok _ _ _ _ _ _ _ _ _ _ _ Row)
      as (_ & _ & Htk & Hld & Hlt & _).
    split.
    + rewrite Com, S, forallb_app, Inv. simpl.
      unfold Schema.valid_flight_times.
      apply Z.ltb_lt in Hlt. now rewrite Hlt.
    + intros s' takeoff landing Hs' T L Le. exfalso.
      rewrite Hs in Hs'. inversion Hs'; subst s'.
      rewrite Htk in T. rewrite Hld in L. inversion T. inversion L. lia.
  - rewrite (P eq_refl). split; [assumption |]. intros. split; reflexivity.
Qed.

End Creation.

(* ------------------------------------------------------------------ *)
(** ** Crew: one row per person *)

Section Crew.
Context {store : StoreInput}.

Lemma run_insert_entries_app sortieId l1 l2 db c :
  Pg.run (insert_entries sortieId (l1 ++ l2)) db c
  = Pg.run (insert_entries sortieId l1 ;;; insert_entries sortieId l2) db c.
Proof.
  revert db c. induction l1 as [| e l1 IH]; intros db c; [reflexivity |].
  cbn [insert_entries app]. rewrite !run_bind.
  destruct (Pg.run (insert_entry sortieId e) db c) as [[[[] | err] db1] c1];
    [| reflexivity].
  rewrite IH, run_bind. reflexivity.
Qed.

Lemma run_insert_slot sortieId o label db c :
  Pg.run (Server.insert_slot sortieId o label) db c
  = Pg.run (insert_entries sortieId (slot_of o label)) db c.
Proof.
  destruct o as [m |]; [| reflexivity].
  cbn [slot_of insert_entries insert_entry Server.insert_slot].
  destruct (Js.truthy (Server.name m)); [| reflexivity].
  rewrite !run_bind.
  destruct (Pg.run _ db c) as [[[rows | err] db1] c1]; reflexivity.
Qed.

Lemma run_insert_additional sortieId l db c :
  Pg.run (Server.insert_additional sortieId l) db c
  = Pg.run (insert_entries sortieId
              (map (fun m => (m, "Other", Some (Server.position m))) l)) db c.
Proof.
  revert db c. induction l as [| m l IH]; intros db c; [reflexivity |].
  cbn [Server.insert_additional map insert_entries insert_entry].
  rewrite !run_bind.
  destruct (Pg.run _ db c) as [[[[] | err] db1] c1]; [apply IH | reflexivity].
Qed.

(** Step 3 of the handler is the run of its slots, one after the
    other. *)
Lemma run_insert_crew sortieId c db cn :
  Pg.run (Server.insert_crew sortieId (Some c)) db cn
  = Pg.run (insert_entries sortieId (slots c)) db cn.
Proof.
  unfold Server.insert_crew, slots. cbn [Server.deref Pg.bind].
  rewrite run_insert_entries_app, !run_bind, run_insert_slot.
  destruct (Pg.run (insert_entries sortieId (slot_of (Server.pic c) "PIC")) db cn)
    as [[[[] | err] db1] c1]; [| reflexivity].
  rewrite run_insert_entries_app, !run_bind, run_insert_slot.
  destruct (Pg.run (insert_entries sortieId (slot_of (Server.sic c) "SIC")) db1 c1)
    as [[[[] | err] db2] c2]; [| reflexivity].
  rewrite run_insert_entries_app, !run_bind, run_insert_slot.
  destruct (Pg.run (insert_entries sortieId (slot_of (Server.oi c) "O/I")) db2 c2)
    as [[[[] | err] db3] c3]; [| reflexivity].
  destruct (Server.additional c) as [[| m l] |]; try reflexivity.
  apply run_insert_additional.
Qed.

End Crew.

Section CrewUnique.
Context {store : StoreInput}.

Lemma accept_row_ok n vis u :
  Pg.accept_row n vis = Ok u ->
  Schema.conflicts n vis = false /\ Schema.references n vis = true.
Proof.
  unfold Pg.accept_row. intros H. unbind H. unseal.
  split; [now apply negb_true_iff | assumption].
Qed.

Lemma held_conflicts sortieId pend p row t :
  held sortieId pend p ->
  Input.integer sortieId = Ok (Some (SortieCrew.sortie_id row)) ->
  SortieCrew.personnel_id row = p ->
  Schema.crew_conflict row (Schema.apply_rows t pend) = true.
Proof.
  intros (r0 & Hin & Hs & Hp) Hs' Hp'.
  unfold Schema.crew_conflict. apply existsb_exists. exists r0. split.
  - destruct (apply_rows_tables pend t) as (_ & _ & _ & _ & _ & C & _).
    rewrite C. apply in_or_app. now right.
  - rewrite Hs in Hs'. inversion Hs' as [Hz]. rewrite Hz, Hp, Hp', !Z.eqb_refl.
    apply orb_true_r.
Qed.

Lemma held_more sortieId pend n p :
  held sortieId pend p -> held sortieId (pend ++ [n]) p.
Proof.
  intros (r0 & Hin & Hs & Hp). exists r0. split; [| auto].
  rewrite crew_rows_app. apply in_or_app. now left.
Qed.

(** Two slots naming one person, or a slot naming a person the
    transaction already holds for the sortie, make the crew step fail. *)
Lemma insert_entries_twice sortieId p l :
  forall db pend r db' c',
    Pg.run (insert_entries sortieId l) db (Pg.InTransaction pend) = (r, db', c') ->
    ((exists e, In e l /\ names e p) /\ held sortieId pend p)
    \/ (exists before e1 between e2 after,
          l = (before ++ e1 :: between ++ e2 :: after)%list
          /\ names e1 p /\ names e2 p) ->
    exists err, r = Err err.
Proof.
  induction l as [| e rest IH]; intros db pend r db' c' H D.
  - exfalso. destruct D as [[(e & [] & _) _] | (b & e1 & bt & e2 & a & E & _)].
    destruct b; discriminate.
  - cbn [insert_entries] in H. rewrite run_bind in H.
    destruct e as [[m label] other]. cbn [insert_entry] in H.
    destruct (Js.truthy (Server.name m)) eqn:T.
    + (* the slot is inserted *)
      rewrite run_bind, run_query in H.
      destruct (Schema.sortie_crew_row (Pg.seqs db) sortieId (Server.name m) label other
                  (Js.or (Server.remarks m) Js.Null)) as [s' rr] eqn:Row.
      rewrite (exec_insert _ db pend
                 (s' := s') (rb := let? row := rr in Ok (NewCrew row))) in H
        by (cbn [Pg.build]; rewrite Row; reflexivity).
      destruct rr as [row | err]; cbn [rbind] in H;
        [| inversion H; eauto].
      destruct (Pg.accept_row (NewCrew row) _) as [[] | err] eqn:Acc;
        [| inversion H; eauto].
      cbn [Pg.run] in H.
      destruct (sortie_crew_row_ok _ _ _ _ _ _ Row) as (Hsid & Hpid).
      apply accept_row_ok in Acc. destruct Acc as [Acc _]. cbn in Acc.
      apply (IH _ _ _ _ _ H).
      destruct D as [[(e0 & [<- | Hin] & Hn) Hh] | (b & e1 & bt & e2 & a & E & N1 & N2)].
      * exfalso. destruct Hn as [_ Hn]. cbn in Hn.
        rewrite Hpid in Hn. inversion Hn as [Hp].
        rewrite (@held_conflicts sortieId pend p row (Pg.committed db) Hh Hsid Hp) in Acc.
        discriminate.
      * left. split; [eauto | now apply held_more].
      * destruct b as [| e0 b]; cbn in E; inversion E; subst.
        -- left. split.
           ++ exists e2. split; [apply in_or_app; right; now left | assumption].
           ++ destruct N1 as [_ N1]. cbn in N1. rewrite Hpid in N1.
              inversion N1 as [Hp].
              exists row. split; [| auto].
              rewrite crew_rows_app. apply in_or_app. right. now left.
        -- right. exists b, e1, bt, e2, a. auto.
    + (* the slot is skipped *)
      cbn [Pg.run] in H. apply (IH _ _ _ _ _ H).
      destruct D as [[(e0 & [<- | Hin] & Hn) Hh] | (b & e1 & bt & e2 & a & E & N1 & N2)].
      * exfalso. destruct Hn as [Hn _]. cbn in Hn. congruence.
      * left. split; eauto.
      * destruct b as [| e0 b]; cbn in E; inversion E; subst.
        -- exfalso. destruct N1 as [N1 _]. cbn in N1. congruence.
        -- right. exists b, e1, bt, e2, a. auto.
Qed.

(** C6.  A payload that names one person in two slots of its crew
    section (PIC, SIC, O/I or an additional entry, in any combination)
    is rejected: the call answers failure and the committed tables are
    those of before. *)
Theorem same_person_twice_rejected body db c p before e1 between e2 after :
  Server.crew body = Some c ->
  slots c = (before ++ e1 :: between ++ e2 :: after)%list ->
  names e1 p ->
  names e2 p ->
  exists e db',
    Pg.run (Server.create_sortie body) db Pg.Idle = (Ok (Server.Failed e), db', Pg.Idle)
    /\ Pg.committed db' = Pg.committed db.
Proof.
  intros Hc Hsl N1 N2.
  destruct (create_sortie_outcome body db) as (resp & db' & E & Y & P).
  destruct resp as [sortieId sortieNumber | e].
  - exfalso.
    destruct (created_trace _ _ E)
      as (s & g & num & s1 & srow & db2 & crews & db3 & paxs & s4 & crow
          & Hs & Hg & Gen & -> & Row & Acc & -> & C & _).
    rewrite Hc, run_insert_crew in C.
    assert (D : exists err, Ok tt = Err err).
    { eapply (insert_entries_twice (p := p)); [exact C |].
      right. exists before, e1, between, e2, after. auto. }
    destruct D as (err & Herr). discriminate.
  - exists e, db'. split; [assumption | apply P; reflexivity].
Qed.

End CrewUnique.

(* ------------------------------------------------------------------ *)
(** ** The creation call answers success *)

Section Answer.
Context {store : StoreInput}.

Lemma exec_all_app (a b : list Pg.stmt) :
  forall db c,
    exec_all (a ++ b) db c
    = let '(r, db', c') := exec_all a db c in
      match r with
      | Ok _ => exec_all b db' c'
      | Err e => (Err e, db', c')
      end.
Proof.
  induction a as [| q a IH]; intros db c; [reflexivity |].
  cbn [app exec_all].
  destruct (Pg.exec q db c) as [[[rows | e] db1] c1]; [apply IH | reflexivity].
Qed.

(** The crew step sends the INSERTs of the named slots. *)
Lemma run_insert_entries sortieId l :
  forall db c,
    Pg.run (insert_entries sortieId l) db c
    = exec_all (map (crew_insert sortieId) (filter named l)) db c.
Proof.
  induction l as [| e l IH]; intros db c; [reflexivity |].
  cbn [insert_entries filter]. rewrite run_bind.
  destruct e as [[m label] other]. unfold named at 1. cbn [insert_entry fst snd].
  destruct (Js.truthy (Server.name m)).
  - rewrite run_bind, run_query. cbn [map exec_all crew_insert fst snd].
    destruct (Pg.exec _ db c) as [[[rows | e] db1] c1]; [| reflexivity].
    cbn [Pg.run]. apply IH.
  - cbn [Pg.run]. apply IH.
Qed.

(** The passenger step sends the INSERTs of the categories present. *)
Lemma run_insert_passengers sortieId p types :
  forall db c,
    Pg.run (Server.insert_passengers sortieId (Some p) types) db c
    = exec_all (map (passengers_insert sortieId)
                    (flat_map (fun type => match Server.passengers_get p type with
                                           | Some c => [(type, c)]
                                           | None => []
                                           end) types)) db c.
Proof.
  induction types as [| type rest IH]; intros db c; [reflexivity |].
  cbn [Server.insert_passengers Server.deref Pg.bind flat_map].
  rewrite run_bind.
  destruct (Server.passengers_get p type) as [x |].
  - rewrite run_bind, run_query. cbn [app map exec_all passengers_insert fst snd].
    destruct (Pg.exec _ db c) as [[[rows | e] db1] c1]; [| reflexivity].
    cbn [Pg.run]. apply IH.
  - cbn [Pg.run app]. apply IH.
Qed.

(** A call all of whose statements are accepted commits and answers
    success. *)
Lemma accepted_is_created body db s c p g num sortieId db1 c1 db2 c2 db' :
  Server.sortie body = Some s ->
  Server.crew body = Some c ->
  Server.passengers body = Some p ->
  Server.cargo body = Some g ->
  Schema.generate_sortie_number (Pg.current_year db) (Pg.committed db) = Ok num ->
  Pg.exec (sortie_insert (Js.Str num) s) db (Pg.InTransaction []) = (Ok [sortieId], db1, c1) ->
  exec_all (later_inserts sortieId c p g) db1 c1 = (Ok tt, db2, c2) ->
  Pg.exec Pg.COMMIT db2 c2 = (Ok [], db', Pg.Idle) ->
  Pg.run (Server.create_sortie body) db Pg.Idle
  = (Ok (Server.Created sortieId (Js.Str num)), db', Pg.Idle).
Proof.
  intros Hs Hc Hp Hg Gen Ins Later Com.
  unfold Server.create_sortie. rewrite run_try_catch.
  unfold Server.create_sortie_try. rewrite run_bind, run_query.
  cbn [Pg.exec]. unfold Server.create_sortie_steps.
  rewrite run_bind, run_query. cbn [Pg.exec Pg.visible Schema.apply_rows fold_left].
  rewrite Gen. cbn [Server.first_row Pg.bind].
  rewrite Hs. cbn [Server.deref Pg.bind].
  rewrite run_bind, run_query. fold (sortie_insert (Js.Str num) s). rewrite Ins.
  cbn [Server.first_row Pg.bind].
  rewrite run_bind. rewrite Hc, run_insert_crew, run_insert_entries.
  unfold later_inserts in Later. rewrite exec_all_app in Later.
  destruct (exec_all (map (crew_insert sortieId) (filter named (slots c))) db1 c1)
    as [[[[] | e] db3] c3]; [| discriminate].
  rewrite run_bind. rewrite Hp, run_insert_passengers. fold (categories p).
  rewrite exec_all_app in Later.
  destruct (exec_all (map (passengers_insert sortieId) (categories p)) db3 c3)
    as [[[[] | e] db4] c4]; [| discriminate].
  rewrite Hg. cbn [Server.deref Pg.bind].
  rewrite run_bind, run_query. fold (cargo_insert sortieId g).
  cbn [exec_all] in Later.
  destruct (Pg.exec (cargo_insert sortieId g) db4 c4) as [[[rows | e] db5] c5];
    [| discriminate].
  inversion Later; subst.
  rewrite run_bind, run_query, Com. reflexivity.
Qed.

(** C8.  The call always answers.  When it answers success, the
    number it returns is the one just generated from the committed
    sorties, the identifier it returns is the key of the one sortie row
    the call committed, and that row carries the number and the status
    Completed.  When it answers failure, nothing was committed: a
    number is returned only for a committed sortie.  And the call does
    answer success: when the body has its four sections, the generator
    returns a number, and the store accepts the INSERT of the sortie
    with this number, then the INSERT of each named crew slot, of each
    passenger category present and of the cargo, the call commits the
    rows these statements wrote and answers success with the key the
    sortie INSERT returned and with the number. *)
Theorem creation_answer body db :
  (exists resp db',
     Pg.run (Server.create_sortie body) db Pg.Idle = (Ok resp, db', Pg.Idle)
     /\ match resp with
        | Server.Created sortieId sortieNumber =>
            exists num srow,
              Schema.generate_sortie_number (Pg.current_year db) (Pg.committed db) = Ok num
              /\ sortieNumber = Js.Str num
              /\ sortieId = Js.Num (Sorties.sortie_id srow)
              /\ sorties (Pg.committed db') = (sorties (Pg.committed db) ++ [srow])%list
              /\ Sorties.sortie_number srow = num
              /\ Sorties.sortie_status srow = Some "Completed"
        | Server.Failed _ => Pg.committed db' = Pg.committed db
        end)
  /\ (forall s c p g num sortieId db1 c1 db2 rows,
        Server.sortie body = Some s ->
        Server.crew body = Some c ->
        Server.passengers body = Some p ->
        Server.cargo body = Some g ->
        Schema.generate_sortie_number (Pg.current_year db) (Pg.committed db) = Ok num ->
        Pg.exec (sortie_insert (Js.Str num) s) db (Pg.InTransaction [])
        = (Ok [sortieId], db1, c1) ->
        exec_all (later_inserts sortieId c p g) db1 c1
        = (Ok tt, db2, Pg.InTransaction rows) ->
        Pg.run (Server.create_sortie body) db Pg.Idle
        = (Ok (Server.Created sortieId (Js.Str num)),
           Pg.with_committed db2 (Schema.apply_rows (Pg.committed db2) rows),
           Pg.Idle)).
Proof.
  split.
  - destruct (create_sortie_outcome body db) as (resp & db' & E & Y & P).
    exists resp, db'. split; [assumption |].
    destruct resp as [sortieId sortieNumber | e]; [| apply P; reflexivity].
    destruct (created_trace _ _ E)
      as (s & g & num & s1 & srow & db2 & crews & db3 & paxs & s4 & crow
          & Hs & Hg & Gen & -> & Row & Acc & -> & C & FC & Px & FP & RowC & AccC & Com & _).
    exists num, srow.
    destruct (created_rows (Pg.committed db) srow crow FC FP) as (S & _ & _).
    destruct (sorties_row_ok _ _ _ _ _ _ _ _ _ _ _ Row)
      as (Hn & _ & _ & _ & _ & Hst & _).
    rewrite varchar_chars in Hn
      by (pose proof (generate_sortie_number_short _ _ Gen); lia).
    rewrite varchar_short in Hst by (simpl; lia).
    inversion Hn. inversion Hst.
    rewrite Com. repeat split; first [assumption | congruence].
  - intros s c p g num sortieId db1 c1 db2 rows Hs Hc Hp Hg Gen Ins Later.
    exact (@accepted_is_created body db s c p g num sortieId db1 c1 db2
             (Pg.InTransaction rows) _ Hs Hc Hp Hg Gen Ins Later eq_refl).
Qed.

End Answer.

(* ------------------------------------------------------------------ *)
(** ** Routing *)

(** Whatever path the search pattern matches, the by-id pattern matches
    too, its [:id] taking the third piece. *)
Lemma search_shadowed (path : string) (params : list (string * string)) :
  Routes.match_path search_pattern path = Some params ->
  exists id, Routes.match_path by_id_pattern path = Some [("id", id)].
Proof.
  unfold Routes.match_path, search_pattern, by_id_pattern.
  destruct (Routes.split path) as [| p0 parts]; [discriminate |].
  destruct p0; [| discriminate].
  destruct parts as [| a [| b [| c rest]]]; cbn [Routes.match_segments];
    try discriminate;
    try (repeat destruct (_ =? _)%string; discriminate).
  destruct (Input.lowercase "api" =? Input.lowercase a)%string; [| discriminate].
  destruct (Input.lowercase "sorties" =? Input.lowercase b)%string; [| discriminate].
  destruct (Input.lowercase "search" =? Input.lowercase c)%string eqn:E; [| discriminate].
  destruct c as [| ch c]; [discriminate |].
  intros H. exists (String ch c).
  destruct rest as [| d rest]; [reflexivity |].
  destruct d; [| discriminate]. destruct rest; [reflexivity | discriminate].
Qed.

(** A path the search pattern matches has three pieces: no pattern of
    two literals matches it. *)
Lemma search_longer (x y path : string) (params : list (string * string)) :
  Routes.match_path search_pattern path = Some params ->
  Routes.match_path [Routes.Lit x; Routes.Lit y] path = None.
Proof.
  unfold Routes.match_path, search_pattern.
  destruct (Routes.split path) as [| p0 parts]; [discriminate |].
  destruct p0; [| discriminate].
  destruct parts as [| a [| b [| c rest]]]; cbn [Routes.match_segments];
    try discriminate;
    try (repeat destruct (_ =? _)%string; discriminate).
  destruct (Input.lowercase "api" =? Input.lowercase a)%string; [| discriminate].
  destruct (Input.lowercase "sorties" =? Input.lowercase b)%string; [| discriminate].
  destruct (Input.lowercase "search" =? Input.lowercase c)%string eqn:E; [| discriminate].
  destruct c as [| ch c]; [discriminate |].
  intros _. repeat destruct (_ =? _)%string; reflexivity.
Qed.

(** C9.  No request reaches the search handler: the route
    [/api/sorties/:id] is registered before [/api/sorties/search] and
    matches every path the latter matches.  A GET (or HEAD) of a path
    the search route would match goes to the by-id handler; for
    [/api/sorties/search] itself with [id = "search"], on which that
    handler's query fails, whatever the tables hold, so that it never
    answers with a sortie. *)
Theorem search_route_unreachable :
  (forall m path params,
      Routes.dispatch m path <> Some (Routes.SearchSorties, params))
  /\ (forall m path params,
         Routes.answers Routes.GET m = true ->
         Routes.match_path search_pattern path = Some params ->
         exists id, Routes.dispatch m path = Some (Routes.GetSortieById, [("id", id)]))
  /\ Routes.dispatch Routes.GET "/api/sorties/search"
     = Some (Routes.GetSortieById, [("id", "search")])
  /\ (forall t, Routes.get_sortie_by_id "search" t = Routes.FetchFailed).
Proof.
  split; [| split; [| split]].
  - intros m path params. unfold Routes.dispatch, Routes.routes.
    cbn [Routes.first_match Routes.verb Routes.pattern Routes.target].
    fold by_id_pattern. fold search_pattern.
    destruct (Routes.answers Routes.GET m), (Routes.answers Routes.POST m);
      repeat match goal with
             | |- context [Routes.match_path search_pattern path] =>
                 destruct (Routes.match_path search_pattern path) as [ps |] eqn:S;
                 [destruct (search_shadowed _ S) as (id & B); congruence |]
             | |- context [match Routes.match_path ?p path with _ => _ end] =>
                 destruct (Routes.match_path p path) eqn:?; [discriminate |]
             end;
      discriminate.
  - intros m path params G S. destruct (search_shadowed _ S) as (id & B).
    exists id. unfold Routes.dispatch, Routes.routes.
    cbn [Routes.first_match Routes.verb Routes.pattern Routes.target].
    fold by_id_pattern.
    rewrite !(search_longer _ _ _ S), G, B.
    destruct (Routes.answers Routes.POST m); reflexivity.
  - vm_compute. reflexivity.
  - intros t. reflexivity.
Qed.

(* ------------------------------------------------------------------ *)
(** ** Flight hours *)

(** Rounding the sum is adding the rounded quotient: [minutes / 60] never
    falls on half a hundredth. *)
Lemma div_round_shift (h m : Z) :
  0 <= m ->
  Schema.div_round (60 * h + 100 * m) 60 = h + Schema.div_round (100 * m) 60.
Proof.
  intros Hm. unfold Schema.div_round.
  replace (0 <=? 100 * m) with true by (symmetry; apply Z.leb_le; lia).
  destruct (0 <=? 60 * h + 100 * m) eqn:E.
  - replace (2 * (60 * h + 100 * m) + 60) with (h * (2 * 60) + (2 * (100 * m) + 60)) by lia.
    rewrite Z.div_add_l by lia. reflexivity.
  - apply Z.leb_gt in E.
    pose proof (Z.div_mod (2 * (100 * m) + 60) (2 * 60) ltac:(lia)) as D1.
    pose proof (Z.mod_pos_bound (2 * (100 * m) + 60) (2 * 60) ltac:(lia)) as B1.
    pose proof (Z.div_mod (2 * - (60 * h + 100 * m) + 60) (2 * 60) ltac:(lia)) as D2.
    pose proof (Z.mod_pos_bound (2 * - (60 * h + 100 * m) + 60) (2 * 60) ltac:(lia)) as B2.
    lia.
Qed.

Lemma generated_flight_duration_nonneg (takeoff landing : Z) :
  takeoff < landing -> 0 <= Schema.generated_flight_duration takeoff landing.
Proof.
  intros H. unfold Schema.generated_flight_duration, Schema.div_round.
  replace (0 <=? landing - takeoff) with true by (symmetry; apply Z.leb_le; lia).
  apply Z.div_pos; lia.
Qed.

Lemma add_flight_hours_ok (id minutes : Z) (l l' : list Aircraft.row) :
  0 <= minutes ->
  Schema.add_flight_hours id minutes l = Ok l' ->
  l' = map (credit id minutes) l.
Proof.
  intros Hm. revert l'. induction l as [| a l IH]; intros l' H;
    cbn [Schema.add_flight_hours] in H.
  - now inversion H.
  - unbind H. apply Ok_inj in H. subst l'. cbn [map]. f_equal; [| now apply IH].
    unfold credit. destruct (Aircraft.aircraft_id a =? id); [| now inversion E].
    destruct a as [k [h |]];
      cbn [Aircraft.total_flight_hours Aircraft.aircraft_id option_map] in *.
    + cbv zeta in E. unbind E. apply Ok_inj in E. subst x.
      now rewrite div_round_shift.
    + now inversion E.
Qed.

Lemma update_rows_ok id u t l l' fired :
  Schema.update_rows id u t l = Ok (l', fired) ->
  l' = map (fun r => if keyed id r then Schema.assign u r else r) l
  /\ fired = map (fun r => (r, Schema.assign u r)) (filter (keyed id) l)
  /\ Forall (fun r => Schema.sortie_checks (Schema.assign u r) t = Ok tt)
            (filter (keyed id) l).
Proof.
  revert l' fired. induction l as [| r l IH]; intros l' fired H;
    cbn [Schema.update_rows] in H.
  - inversion H. repeat split; constructor.
  - unbind H. destruct x as [rest' fired']. destruct (IH _ _ E) as (A & B & C).
    cbn [map filter]. destruct (keyed id r) eqn:K; unfold keyed in K; rewrite K in H.
    + unbind H. inversion H; subst. destruct x.
      repeat split. constructor; assumption.
    + inversion H; subst. repeat split. assumption.
Qed.

Lemma keyed_assign id u r : keyed id (Schema.assign u r) = keyed id r.
Proof. reflexivity. Qed.

Lemma filter_updated id u (l : list Sorties.row) :
  filter (keyed id) (map (fun r => if keyed id r then Schema.assign u r else r) l)
  = map (Schema.assign u) (filter (keyed id) l).
Proof.
  induction l as [| r l IH]; [reflexivity |]. cbn [map filter].
  destruct (keyed id r) eqn:K.
  - rewrite keyed_assign, K. cbn [map]. now rewrite IH.
  - rewrite K. exact IH.
Qed.

(** The UPDATE of the one row with the given key: the row is rewritten
    and the trigger has run on it, in the same result. *)
Lemma update_sorties_one t id u t' old :
  filter (keyed id) (sorties t) = [old] ->
  Schema.update_sorties id u t = Ok t' ->
  exists l,
    l = map (fun r => if keyed id r then Schema.assign u r else r) (sorties t)
    /\ Schema.sortie_checks (Schema.assign u old) t = Ok tt
    /\ Schema.trg_update_aircraft_hours old (Schema.assign u old) (Schema.with_sorties t l)
       = Ok t'.
Proof.
  intros F H. unfold Schema.update_sorties in H. unbind H.
  destruct x as [l fired]. destruct (update_rows_ok _ _ _ _ E) as (A & B & C).
  rewrite F in B, C. cbn [map] in B. subst fired. cbn [Schema.fire] in H.
  unbind H. apply Ok_inj in H. subst x.
  exists l. split; [assumption |]. split; [now inversion C | assumption].
Qed.

(** C3 (as amended).  An UPDATE that moves the status of a sortie into
    Completed from another status adds to the accumulator of the
    sortie's aircraft its [flight_duration_minutes / 60], rounded to the
    two decimals of the column (150 hundredths, exactly 1.5 hours, for 90
    minutes; a NULL accumulator stays NULL); the new status and the new
    total come in the one result of the statement.  The addition is made
    once, by that statement: an UPDATE of a sortie that is already
    Completed, and one that does not end in Completed, leave every
    accumulator as it is. *)
Theorem completion_credits_flight_hours t id u t' old :
  filter (keyed id) (sorties t) = [old] ->
  Schema.update_sorties id u t = Ok t' ->
  let new := Schema.assign u old in
  filter (keyed id) (sorties t') = [new]
  /\ (enters_completed old new ->
      aircraft t'
      = map (credit (Sorties.aircraft_id new) (Sorties.flight_duration_minutes new))
            (aircraft t))
  /\ (Sorties.sortie_status old = Some "Completed" -> aircraft t' = aircraft t)
  /\ (Sorties.sortie_status new <> Some "Completed" -> aircraft t' = aircraft t)
  /\ Schema.div_round (100 * 90) 60 = 150.
Proof.
  intros F H new.
  destruct (@update_sorties_one t id u t' old F H) as (l & Hl & Chk & Trg).
  fold new in Chk, Trg.
  assert (Hm : 0 <= Sorties.flight_duration_minutes new).
  { apply generated_flight_duration_nonneg.
    unfold Schema.sortie_checks in Chk. unbind Chk. unseal. assumption. }
  assert (S : forall t0, sorties t0 = l -> filter (keyed id) (sorties t0) = [new]).
  { intros t0 ->. rewrite Hl, filter_updated, F. reflexivity. }
  unfold Schema.trg_update_aircraft_hours, Schema.update_aircraft_flight_hours in Trg.
  assert (Same : Ok (Schema.with_sorties t l) = Ok t' ->
                 ~ enters_completed old new ->
                 filter (keyed id) (sorties t') = [new]
                 /\ (enters_completed old new ->
                     aircraft t'
                     = map (credit (Sorties.aircraft_id new)
                                   (Sorties.flight_duration_minutes new)) (aircraft t))
                 /\ (Sorties.sortie_status old = Some "Completed" ->
                     aircraft t' = aircraft t)
                 /\ (Sorties.sortie_status new <> Some "Completed" ->
                     aircraft t' = aircraft t)
                 /\ Schema.div_round (100 * 90) 60 = 150).
  { intros Eq N. apply Ok_inj in Eq. subst t'.
    split; [now apply S |]. split; [intros A; contradiction |].
    repeat split; reflexivity. }
  destruct (Sorties.sortie_status new) as [sn |] eqn:Sn;
    cbn [Schema.sql_eq Schema.taken option_map] in Trg;
    [| apply Same; [exact Trg | intros [A _]; congruence]].
  destruct (String.eqb_spec sn "Completed") as [-> | Nn];
    [| apply Same; [exact Trg | intros [A _]; congruence]].
  destruct (Sorties.sortie_status old) as [so |] eqn:So;
    cbn [Schema.sql_neq Schema.sql_and Schema.taken option_map] in Trg;
    [| apply Same; [exact Trg | intros [_ (s & B & _)]; congruence]].
  destruct (String.eqb_spec so "Completed") as [-> | No];
    cbn [Schema.sql_and Schema.taken negb] in Trg;
    [apply Same; [exact Trg | intros [_ (s & B & C)]; congruence] |].
  unbind Trg. apply Ok_inj in Trg. subst t'.
  apply add_flight_hours_ok in E; [| assumption].
  split; [now apply S |].
  split; [intros _; exact E |].
  split; [intros A; congruence |].
  split; [intros A; congruence | reflexivity].
Qed.

(** The creation call writes nothing to the aircraft: the trigger is
    declared for UPDATE, and the sortie is inserted as Completed. *)
Lemma creation_leaves_flight_hours {store : StoreInput} body db resp db' c' :
  Pg.run (Server.create_sortie body) db Pg.Idle = (Ok resp, db', c') ->
  aircraft (Pg.committed db') = aircraft (Pg.committed db).
Proof.
  intros H.
  destruct (create_sortie_outcome body db) as (resp0 & db0 & E & Y & P).
  rewrite E in H. inversion H; subst resp0 db0 c'; clear H.
  destruct resp as [sortieId sortieNumber | e]; [| now rewrite (P eq_refl)].
  destruct (created_trace _ _ E)
    as (s & g & num & s1 & srow & db2 & crews & db3 & paxs & s4 & crow
        & Hs & Hg & Gen & -> & Row & Acc & -> & C & FC & Px & FP & RowC & AccC & Com & _).
  destruct (created_rows (Pg.committed db) srow crow FC FP) as (_ & _ & A).
  now rewrite Com.
Qed.

(* ------------------------------------------------------------------ *)
(** ** Concurrent submissions *)

Lemma pending_numbers_app (a b : list new_row) :
  pending_numbers (a ++ b) = (pending_numbers a ++ pending_numbers b)%list.
Proof. unfold pending_numbers. now rewrite sortie_rows_app, map_app. Qed.

Lemma pendings_app (a b : list Concurrent.client) :
  Concurrent.pendings (a ++ b) = (Concurrent.pendings a ++ Concurrent.pendings b)%list.
Proof. apply flat_map_app. Qed.

Lemma nth_error_pieces {A} (l : list A) :
  forall i x, nth_error l i = Some x -> l = (firstn i l ++ x :: skipn (S i) l)%list.
Proof.
  induction l as [| a l IH]; intros [| i] x H; simpl in *; try discriminate.
  - now inversion H.
  - f_equal. now apply IH.
Qed.

Lemma pendings_split (l : list Concurrent.client) i cl :
  nth_error l i = Some cl ->
  Concurrent.pendings l
  = (Concurrent.pendings (firstn i l) ++ Concurrent.pending_of (Concurrent.conn cl)
     ++ Concurrent.pendings (skipn (S i) l))%list.
Proof.
  intros H. rewrite (nth_error_pieces _ _ H) at 1.
  rewrite pendings_app. reflexivity.
Qed.

Lemma pendings_replace (l : list Concurrent.client) i cl :
  Concurrent.pendings (Concurrent.replace i cl l)
  = (Concurrent.pendings (firstn i l) ++ Concurrent.pending_of (Concurrent.conn cl)
     ++ Concurrent.pendings (skipn (S i) l))%list.
Proof.
  unfold Concurrent.replace. rewrite pendings_app. reflexivity.
Qed.

(** The numbers of a world, with those of one client's transaction
    brought forward. *)
Lemma numbers_rearranged (N : list string) (A P B : list new_row) :
  Permutation (N ++ pending_numbers (A ++ P ++ B))
              (N ++ pending_numbers P ++ pending_numbers (A ++ B)).
Proof.
  apply Permutation_app_head. rewrite !pending_numbers_app.
  apply Permutation_app_swap_app.
Qed.

Lemma NoDup_drop_middle {A} (a b c : list A) :
  NoDup (a ++ b ++ c) -> NoDup (a ++ c).
Proof.
  induction b as [| x b IH]; [trivial |]. intros H. apply IH.
  simpl in H. now apply NoDup_remove_1 in H.
Qed.

Lemma NoDup_add_middle {A} (a b c : list A) (x : A) :
  ~ In x (a ++ b ++ c) -> NoDup (a ++ b ++ c) -> NoDup (a ++ (b ++ [x]) ++ c).
Proof.
  intros Hx H.
  apply (Permutation_NoDup (l := x :: a ++ b ++ c)); [| now constructor].
  rewrite <- app_assoc. simpl.
  rewrite (app_assoc a b (x :: c)), (app_assoc a b c). apply Permutation_middle.
Qed.

Lemma numbers_apply_rows (t : tables) (rows : list new_row) :
  numbers (Schema.apply_rows t rows) = (numbers t ++ pending_numbers rows)%list.
Proof.
  unfold numbers, pending_numbers.
  destruct (apply_rows_tables rows t) as (_ & _ & _ & _ & S & _).
  now rewrite S, map_app.
Qed.

Lemma numbers_add_row (t : tables) (n : new_row) :
  numbers (Schema.add_row n t) = (numbers t ++ pending_numbers [n])%list.
Proof. exact (numbers_apply_rows t [n]). Qed.

Lemma no_conflict_fresh (r : Sorties.row) (t : tables) :
  Schema.conflicts (NewSortie r) t = false ->
  ~ In (Sorties.sortie_number r) (numbers t).
Proof.
  cbn [Schema.conflicts]. unfold Schema.sortie_conflict, numbers. intros H Hin.
  apply in_map_iff in Hin. destruct Hin as (s & Hs & Hin).
  assert (T : existsb
                (fun s0 => (Sorties.sortie_id s0 =? Sorties.sortie_id r)
                           || (Sorties.sortie_number s0 =? Sorties.sortie_number r)%string)
                (sorties t) = true).
  { apply existsb_exists. exists s. split; [assumption |].
    rewrite Hs, String.eqb_refl. apply orb_true_r. }
  congruence.
Qed.

Section Interleaving.
Context {store : StoreInput}.

Lemma exec_insert_any (q : Pg.stmt) db c s' rb :
  Pg.build q (Pg.seqs db) = Some (s', rb) ->
  Pg.exec q db c
  = match c with
    | Pg.Aborted => (Err InFailedSqlTransaction, db, c)
    | _ =>
        match rb with
        | Err e => (Err e, Pg.with_seqs db s', Pg.failed c)
        | Ok n =>
            match Pg.accept_row n (Pg.visible db c) with
            | Err e => (Err e, Pg.with_seqs db s', Pg.failed c)
            | Ok _ =>
                match c with
                | Pg.InTransaction pending =>
                    (Ok (Pg.returning n), Pg.with_seqs db s',
                     Pg.InTransaction (pending ++ [n]))
                | _ =>
                    (Ok (Pg.returning n),
                     Pg.with_committed (Pg.with_seqs db s')
                                       (Schema.add_row n (Pg.committed db)),
                     c)
                end
            end
        end
    end.
Proof.
  intros H. unfold Pg.exec.
  destruct q; try (simpl in H; discriminate); cbv beta iota;
    rewrite H; destruct c, rb; reflexivity.
Qed.

Lemma build_none (q : Pg.stmt) s :
  Pg.build q s = None ->
  q = Pg.BEGIN \/ q = Pg.COMMIT \/ q = Pg.ROLLBACK \/ q = Pg.SelectGenerateSortieNumber.
Proof.
  destruct q; cbn [Pg.build]; auto; intros H; exfalso;
    match type of H with
    | (let (_, _) := ?X in _) = None => destruct X; discriminate
    end.
Qed.

(** One statement of one connection keeps the numbers distinct: those
    committed, those of its own transaction and those held by the other
    open transactions. *)
Lemma exec_keeps_distinct (q : Pg.stmt) d c r d' c' (held : list new_row) :
  Pg.exec q d c = (r, d', c') ->
  Concurrent.blocked q d held = false ->
  NoDup (numbers (Pg.committed d) ++ pending_numbers (Concurrent.pending_of c)
         ++ pending_numbers held) ->
  NoDup (numbers (Pg.committed d') ++ pending_numbers (Concurrent.pending_of c')
         ++ pending_numbers held).
Proof.
  intros E Bl ND.
  destruct (Pg.build q (Pg.seqs d)) as [[s' rb] |] eqn:Hb.
  - (* an INSERT *)
    rewrite (exec_insert_any q d c Hb) in E.
    unfold Concurrent.blocked in Bl. rewrite Hb in Bl.
    destruct c as [| p |]; [| | inversion E; subst; exact ND].
    + (* on its own, committed at once *)
      destruct rb as [n | e]; [| inversion E; subst; exact ND].
      destruct (Pg.accept_row n _) as [[] | e] eqn:Acc;
        [| inversion E; subst; exact ND].
      inversion E; subst; clear E. cbn [Pg.committed Pg.with_committed].
      rewrite numbers_add_row. cbn [Concurrent.pending_of] in *.
      destruct n as [row | | |]; try (cbn; rewrite app_nil_r; exact ND).
      apply accept_row_ok in Acc. destruct Acc as [Acc _].
      cbn [Pg.visible] in Acc. apply no_conflict_fresh in Acc, Bl.
      rewrite numbers_apply_rows in Bl. cbn in Bl.
      change (pending_numbers [NewSortie row]) with [Sorties.sortie_number row].
      cbn [pending_numbers sortie_rows flat_map map app] in *.
      rewrite <- app_assoc. cbn [app].
      apply (NoDup_add_middle (numbers (Pg.committed d)) [] (pending_numbers held));
        [| exact ND].
      cbn [app]. intros Hin. apply in_app_or in Hin. tauto.
    + (* inside a transaction *)
      destruct rb as [n | e];
        [| inversion E; subst; cbn; exact (NoDup_drop_middle _ _ _ ND)].
      destruct (Pg.accept_row n _) as [[] | e] eqn:Acc;
        [| inversion E; subst; cbn; exact (NoDup_drop_middle _ _ _ ND)].
      inversion E; subst; clear E. cbn [Pg.committed Pg.with_seqs Concurrent.pending_of] in *.
      rewrite pending_numbers_app.
      destruct n as [row | | |]; try (cbn; rewrite app_nil_r; exact ND).
      apply accept_row_ok in Acc. destruct Acc as [Acc _].
      cbn [Pg.visible] in Acc. apply no_conflict_fresh in Acc, Bl.
      rewrite numbers_apply_rows in Acc, Bl. cbn [numbers Concurrent.no_rows sorties map app] in Bl.
      change (pending_numbers [NewSortie row]) with [Sorties.sortie_number row].
      apply NoDup_add_middle; [| exact ND].
      intros Hin. rewrite app_assoc in Hin. apply in_app_or in Hin. tauto.
  - (* BEGIN, COMMIT, ROLLBACK, SELECT *)
    destruct (build_none _ _ Hb) as [-> | [-> | [-> | ->]]]; cbn [Pg.exec] in E.
    + destruct c; inversion E; subst; exact ND.
    + destruct c as [| p |]; inversion E; subst; try exact ND.
      cbn [Pg.committed Pg.with_committed Concurrent.pending_of] in *.
      rewrite numbers_apply_rows. cbn. rewrite <- app_assoc. exact ND.
    + inversion E; subst. cbn. exact (NoDup_drop_middle _ _ _ ND).
    + destruct c as [| p |]; [| | inversion E; subst; exact ND];
        destruct (Schema.generate_sortie_number _ _); inversion E; subst;
        try exact ND.
      cbn. exact (NoDup_drop_middle _ _ _ ND).
Qed.

End Interleaving.

Section Schedules.
Context {store : StoreInput}.

Lemma step_keeps_distinct (i : nat) (w w' : Concurrent.world) :
  Concurrent.step_at i w = Some w' ->
  NoDup (all_numbers w) -> NoDup (all_numbers w').
Proof.
  unfold Concurrent.step_at. intros H ND.
  destruct (nth_error (Concurrent.clients w) i) as [cl |] eqn:Hi; [| discriminate].
  destruct (Concurrent.todo cl) as [| | q k]; try discriminate.
  destruct (Concurrent.blocked q (Concurrent.db w)
              (Concurrent.others i (Concurrent.clients w))) eqn:Bl; [discriminate |].
  destruct (Pg.exec q (Concurrent.db w) (Concurrent.conn cl)) as [[r d'] c'] eqn:E.
  inversion H; subst w'; clear H.
  unfold all_numbers in *. cbn [Concurrent.db Concurrent.clients].
  rewrite pendings_replace. cbn [Concurrent.conn].
  rewrite (pendings_split _ _ Hi) in ND.
  eapply Permutation_NoDup; [apply Permutation_sym, numbers_rearranged |].
  eapply Permutation_NoDup in ND; [| apply numbers_rearranged].
  exact (exec_keeps_distinct _ _ _ _ E Bl ND).
Qed.

Lemma schedule_keeps_distinct (schedule : list nat) :
  forall w w',
    Concurrent.run_schedule schedule w = Some w' ->
    NoDup (all_numbers w) -> NoDup (all_numbers w').
Proof.
  induction schedule as [| i rest IH]; intros w w' H ND;
    cbn [Concurrent.run_schedule] in H.
  - inversion H; subst. exact ND.
  - destruct (Concurrent.step_at i w) as [w1 |] eqn:S; [| discriminate].
    apply (IH _ _ H). exact (step_keeps_distinct _ _ S ND).
Qed.

Lemma start_pendings (d : Pg.database) (bodies : list Server.body_t) :
  Concurrent.pendings (Concurrent.clients (Concurrent.start d bodies)) = [].
Proof.
  unfold Concurrent.start, Concurrent.pendings. cbn [Concurrent.clients].
  induction bodies as [| b l IH]; [reflexivity | exact IH].
Qed.

(** C4 (as amended).  Whatever the requests, however many, and in
    whatever order the store runs their statements, the numbers of the
    committed sorties stay pairwise distinct: the unique index on
    [sortie_number] refuses the second of two equal numbers. *)
Theorem concurrent_numbers_distinct (d : Pg.database) (bodies : list Server.body_t)
    (schedule : list nat) (w' : Concurrent.world) :
  NoDup (numbers (Pg.committed d)) ->
  Concurrent.run_schedule schedule (Concurrent.start d bodies) = Some w' ->
  NoDup (numbers (Pg.committed (Concurrent.db w'))).
Proof.
  intros ND H.
  assert (N0 : NoDup (all_numbers (Concurrent.start d bodies))).
  { unfold all_numbers. rewrite start_pendings. cbn. now rewrite app_nil_r. }
  pose proof (schedule_keeps_distinct _ _ H N0) as N1.
  unfold all_numbers in N1. now apply NoDup_app_remove_r in N1.
Qed.

End Schedules.

(** C4 (fails on the code).  Two valid submissions, each of which
    succeeds when it runs alone, and a schedule on which both read the
    maximum before either inserts: both derive S-2024-0008, the first
    commits, the second is refused by the unique index and answers
    failure. *)
Lemma concurrent_submission_refused :
  let d := Sample.busy in
  let racing := Sample.racing in
  fst (fst (Pg.run (store := Iso.store) (Server.create_sortie Sample.payload) d Pg.Idle))
  = Ok (Server.Created (Js.Num 8) (Js.Str "S-2024-0008"))
  /\ option_map Concurrent.answers
       (Concurrent.run_schedule (store := Iso.store) racing
          (Concurrent.start d [Sample.payload; Sample.payload]))
     = Some [Some (Ok (Server.Created (Js.Num 8) (Js.Str "S-2024-0008")));
             Some (Ok (Server.Failed UniqueViolation))]
  /\ ~ (forall schedule w',
          Concurrent.run_schedule (store := Iso.store) schedule
            (Concurrent.start d [Sample.payload; Sample.payload]) = Some w' ->
          Forall (fun a => a <> None) (Concurrent.answers w') ->
          all_succeeded w').
Proof.
  intros d racing.
  assert (R : option_map Concurrent.answers
                (Concurrent.run_schedule (store := Iso.store) racing
                   (Concurrent.start d [Sample.payload; Sample.payload]))
              = Some [Some (Ok (Server.Created (Js.Num 8) (Js.Str "S-2024-0008")));
                      Some (Ok (Server.Failed UniqueViolation))])
    by (vm_compute; reflexivity).
  split; [vm_compute; reflexivity |]. split; [exact R |].
  intros All.
  destruct (Concurrent.run_schedule (store := Iso.store) racing
              (Concurrent.start d [Sample.payload; Sample.payload])) as [w' |] eqn:E;
    [| discriminate].
  cbn [option_map] in R. injection R as R.
  specialize (All racing w' E). rewrite R in All.
  assert (F : Forall (fun a : option (result Server.response) => a <> None)
                [Some (Ok (Server.Created (Js.Num 8) (Js.Str "S-2024-0008")));
                 Some (Ok (Server.Failed UniqueViolation))])
    by (repeat constructor; discriminate).
  specialize (All F). unfold all_succeeded in All. rewrite R in All.
  inversion All as [| a l H1 H2]; subst. inversion H2 as [| a' l' H3 H4]; subst.
  destruct H3 as (id & number & H3). discriminate.
Qed.

(* ------------------------------------------------------------------ *)
(** ** The claims on the sample data *)

(** C8 at work: the sample payload is recorded as sortie 8, number
    S-2024-0008. *)
Lemma creation_answer_witness :
  Pg.run (store := Iso.store) (Server.create_sortie Sample.payload) Sample.busy Pg.Idle
  = (Ok (Server.Created (Js.Num 8) (Js.Str "S-2024-0008")), Sample.recorded, Pg.Idle).
Proof.
  destruct (@creation_answer Iso.store Sample.payload Sample.busy) as [_ S].
  exact (S Sample.flight Sample.two_pilots Sample.some_passengers Sample.empty_cargo
           "S-2024-0008" (Js.Num 8)
           (snd (fst Cases.sortie_sent)) (snd Cases.sortie_sent)
           (snd (fst Cases.all_sent)) Cases.rows_sent
           eq_refl eq_refl eq_refl eq_refl eq_refl eq_refl eq_refl).
Defined.

(** C1 at work: the same person twice in the crew; the call fails at
    the second crew row, after the sortie and the first crew row were
    written.  Keys 8, 1 and 2 were drawn; nothing else remains. *)
Lemma failed_creation_persists_nothing_witness :
  Pg.run (store := Iso.store) (Server.create_sortie Sample.twice_in_crew)
         Sample.busy Pg.Idle
  = (Ok (Server.Failed UniqueViolation), Sample.busy_after 8 2 0 0, Pg.Idle)
  /\ Server.success (Server.Failed UniqueViolation) = false
  /\ (Pg.Idle = Pg.Idle
      /\ Pg.committed (Sample.busy_after 8 2 0 0) = Pg.committed Sample.busy
      /\ Schema.generate_sortie_number (Pg.current_year (Sample.busy_after 8 2 0 0))
                                       (Pg.committed (Sample.busy_after 8 2 0 0))
         = Schema.generate_sortie_number (Pg.current_year Sample.busy)
                                         (Pg.committed Sample.busy)).
Proof.
  assert (H : Pg.run (store := Iso.store) (Server.create_sortie Sample.twice_in_crew)
                     Sample.busy Pg.Idle
              = (Ok (Server.Failed UniqueViolation), Sample.busy_after 8 2 0 0, Pg.Idle))
    by (vm_compute; reflexivity).
  split; [exact H |]. split; [reflexivity |].
  exact (@failed_creation_persists_nothing Iso.store _ _ _ _ _ H eq_refl).
Defined.

(** C3 at work: completing the planned 90-minute sortie of aircraft 3. *)
Lemma completion_credits_flight_hours_witness :
  let t := Sample.scheduled 90 in
  let t' := Sample.after_completion 90 in
  let old := hd (Sample.numbered 0 "") (sorties t) in
  let new := Schema.assign Sample.complete old in
  filter (keyed 1) (sorties t) = [old]
  /\ Schema.update_sorties 1 Sample.complete t = Ok t'
  /\ (filter (keyed 1) (sorties t') = [new]
      /\ (enters_completed old new ->
          aircraft t'
          = map (credit (Sorties.aircraft_id new) (Sorties.flight_duration_minutes new))
                (aircraft t))
      /\ (Sorties.sortie_status old = Some "Completed" -> aircraft t' = aircraft t)
      /\ (Sorties.sortie_status new <> Some "Completed" -> aircraft t' = aircraft t)
      /\ Schema.div_round (100 * 90) 60 = 150).
Proof.
  intros t t' old new.
  assert (F : filter (keyed 1) (sorties t) = [old]) by reflexivity.
  assert (U : Schema.update_sorties 1 Sample.complete t = Ok t')
    by (vm_compute; reflexivity).
  split; [exact F |]. split; [exact U |].
  exact (@completion_credits_flight_hours t 1 Sample.complete t' old F U).
Defined.

(** C3 (fails on the code as stated).  Completing a 100-minute sortie
    moves the accumulator from 0.00 to 1.67, not by 100/60: in
    hundredths, [167 * 60] is not [100 * 100]. *)
Lemma hundred_minutes_rounded :
  Schema.update_sorties 1 Sample.complete (Sample.scheduled 100)
  = Ok (Sample.after_completion 100)
  /\ Sample.flight_hours 3 (Sample.scheduled 100) = Some 0
  /\ Sample.flight_hours 3 (Sample.after_completion 100) = Some 167
  /\ (167 - 0) * 60 <> 100 * 100.
Proof.
  split; [vm_compute; reflexivity |]. split; [reflexivity |].
  split; [vm_compute; reflexivity | lia].
Qed.

(** Saving the completed sortie again, with a comment: the accumulator
    stays at 1.50. *)
Example resaved_without_flight_hours :
  Sample.flight_hours 3 (Sample.after_completion 90) = Some 150
  /\ exists t'',
       Schema.update_sorties 1 Sample.resave (Sample.after_completion 90) = Ok t''
       /\ Sample.flight_hours 3 t'' = Some 150.
Proof.
  split; [vm_compute; reflexivity |].
  eexists. split; vm_compute; reflexivity.
Qed.

(** The creation path on the sample: a 90-minute sortie of aircraft 3 is
    recorded as Completed and the accumulator of aircraft 3 is still
    0.00. *)
Example recorded_without_flight_hours :
  fst (fst (Pg.run (store := Iso.store) (Server.create_sortie Sample.payload)
                   Sample.busy Pg.Idle))
  = Ok (Server.Created (Js.Num 8) (Js.Str "S-2024-0008"))
  /\ Sample.flight_hours 3 (Pg.committed Sample.busy) = Some 0
  /\ Sample.flight_hours 3 (Pg.committed Sample.recorded) = Some 0.
Proof. vm_compute. repeat split; reflexivity. Qed.

(** C4 at work: the racing schedule on the store with seven sorties. *)
Lemma concurrent_numbers_distinct_witness :
  NoDup (numbers (Pg.committed Sample.busy))
  /\ Concurrent.run_schedule (store := Iso.store) Sample.racing
       (Concurrent.start Sample.busy [Sample.payload; Sample.payload])
     = Some Sample.raced
  /\ NoDup (numbers (Pg.committed (Concurrent.db Sample.raced))).
Proof.
  assert (N : NoDup (numbers (Pg.committed Sample.busy))).
  { cbv [numbers Sample.busy Pg.committed Sample.seven Sample.with_numbers
         Schema.with_sorties sorties map Sample.numbered Sorties.sortie_number fst snd].
    repeat (constructor; [cbn; intuition discriminate |]). constructor. }
  assert (R : Concurrent.run_schedule (store := Iso.store) Sample.racing
                (Concurrent.start Sample.busy [Sample.payload; Sample.payload])
              = Some Sample.raced) by (vm_compute; reflexivity).
  split; [exact N |]. split; [exact R |].
  exact (@concurrent_numbers_distinct Iso.store _ _ _ _ N R).
Defined.

(** C5 at work: landing an hour before takeoff. *)
Lemma landing_after_takeoff_witness :
  Pg.run (store := Iso.store) (Server.create_sortie Sample.backwards) Sample.busy Pg.Idle
  = (Ok (Server.Failed CheckViolation), Sample.busy_after 8 0 0 0, Pg.Idle)
  /\ forallb Schema.valid_flight_times (sorties (Pg.committed Sample.busy)) = true
  /\ forallb Schema.valid_flight_times
             (sorties (Pg.committed (Sample.busy_after 8 0 0 0))) = true
  /\ Server.success (Server.Failed CheckViolation) = false
  /\ Pg.committed (Sample.busy_after 8 0 0 0) = Pg.committed Sample.busy.
Proof.
  assert (H : Pg.run (store := Iso.store) (Server.create_sortie Sample.backwards)
                     Sample.busy Pg.Idle
              = (Ok (Server.Failed CheckViolation), Sample.busy_after 8 0 0 0, Pg.Idle))
    by (vm_compute; reflexivity).
  assert (V : forallb Schema.valid_flight_times (sorties (Pg.committed Sample.busy)) = true)
    by (vm_compute; reflexivity).
  destruct (@landing_after_takeoff Iso.store _ _ _ _ _ H V) as [V' R].
  split; [exact H |]. split; [exact V |]. split; [exact V' |].
  refine (R _ 757418400000000 757414800000000 eq_refl _ _ _);
    [vm_compute; reflexivity | vm_compute; reflexivity | lia].
Defined.

(** C6 at work: person 1 as PIC and as an additional crew member. *)
Lemma same_person_twice_rejected_witness :
  let c := {| Server.pic := Some (Sample.slot 1); Server.sic := None; Server.oi := None;
              Server.additional := Some [Sample.extra 1 "Observer"] |} in
  let e1 := (Sample.slot 1, "PIC", @None Js.value) in
  let e2 := (Sample.extra 1 "Observer", "Other", Some (Js.Str "Observer")) in
  Server.crew Sample.twice_in_crew = Some c
  /\ slots c = ([] ++ e1 :: [] ++ e2 :: [])%list
  /\ names e1 1
  /\ names e2 1
  /\ exists e db',
       Pg.run (store := Iso.store) (Server.create_sortie Sample.twice_in_crew)
              Sample.busy Pg.Idle
       = (Ok (Server.Failed e), db', Pg.Idle)
       /\ Pg.committed db' = Pg.committed Sample.busy.
Proof.
  intros c e1 e2.
  assert (N1 : names e1 1) by (split; vm_compute; reflexivity).
  assert (N2 : names e2 1) by (split; vm_compute; reflexivity).
  split; [reflexivity |]. split; [reflexivity |]. split; [exact N1 |]. split; [exact N2 |].
  exact (@same_person_twice_rejected Iso.store Sample.twice_in_crew Sample.busy
           c 1 [] e1 [] e2 [] eq_refl eq_refl N1 N2).
Defined.

(** C7 at work: the sample payload, whose cargo section is [{}]. *)
Lemma created_cargo_row_witness :
  Pg.run (store := Iso.store) (Server.create_sortie Sample.payload) Sample.busy Pg.Idle
  = (Ok (Server.Created (Js.Num 8) (Js.Str "S-2024-0008")), Sample.recorded, Pg.Idle)
  /\ exists g crow,
       Server.cargo Sample.payload = Some g
       /\ sortie_cargo (Pg.committed Sample.recorded)
          = (sortie_cargo (Pg.committed Sample.busy) ++ [crow])%list
       /\ Js.Num 8 = Js.Num (SortieCargo.sortie_id crow)
       /\ (Js.truthy (Server.onloadWeight g) = false -> SortieCargo.onload_weight crow = 0)
       /\ (Js.truthy (Server.offloadWeight g) = false -> SortieCargo.offload_weight crow = 0)
       /\ (Js.truthy (Server.hazmat g) = false ->
           SortieCargo.hazmat_onboard crow = Some false).
Proof.
  assert (H : Pg.run (store := Iso.store) (Server.create_sortie Sample.payload)
                     Sample.busy Pg.Idle
              = (Ok (Server.Created (Js.Num 8) (Js.Str "S-2024-0008")),
                 Sample.recorded, Pg.Idle))
    by (vm_compute; reflexivity).
  split; [exact H |].
  exact (@created_cargo_row Iso.store _ _ _ _ _ _ H).
Defined.

(** C7 (fails on the code as stated).  The sample payload succeeds with
    its cargo section [{}]; without the section the call fails with a
    TypeError, after the sortie, crew and passenger rows were written,
    and nothing is kept. *)
Lemma absent_cargo_section_fails :
  fst (fst (Pg.run (store := Iso.store) (Server.create_sortie Sample.payload)
                   Sample.busy Pg.Idle))
  = Ok (Server.Created (Js.Num 8) (Js.Str "S-2024-0008"))
  /\ Server.cargo Sample.without_cargo = None
  /\ Pg.run (store := Iso.store) (Server.create_sortie Sample.without_cargo)
            Sample.busy Pg.Idle
     = (Ok (Server.Failed TypeError), Sample.busy_after 8 3 2 0, Pg.Idle)
  /\ sortie_cargo (Pg.committed (Sample.busy_after 8 3 2 0)) = [].
Proof.
  split; [vm_compute; reflexivity |]. split; [reflexivity |].
  split; [vm_compute; reflexivity | reflexivity].
Qed.

(** C10 at work: the payload without its cargo section. *)
Lemma missing_section_fails_witness :
  (Server.crew Sample.without_cargo = None
   \/ Server.passengers Sample.without_cargo = None
   \/ Server.cargo Sample.without_cargo = None)
  /\ exists e db',
       Pg.run (store := Iso.store) (Server.create_sortie Sample.without_cargo)
              Sample.busy Pg.Idle
       = (Ok (Server.Failed e), db', Pg.Idle)
       /\ Pg.committed db' = Pg.committed Sample.busy.
Proof.
  assert (M : Server.crew Sample.without_cargo = None
              \/ Server.passengers Sample.without_cargo = None
              \/ Server.cargo Sample.without_cargo = None)
    by (right; right; reflexivity).
  split; [exact M |].
  exact (@missing_section_fails Iso.store Sample.without_cargo Sample.busy M).
Defined.


(* ------------------------------------------------------------------ *)

(** * Further properties *)

(** ** The numbers the generator gives *)

Lemma like_percent (x : string) : Text.like "%" x = true.
Proof.
  induction x as [| c x IH]; [reflexivity |].
  cbn in *. exact IH.
Qed.

Lemma like_plain_prefix (pre : string) :
  forall rest x, plain pre = true ->
    Text.like (pre ++ rest) (pre ++ x) = Text.like rest x.
Proof.
  induction pre as [| c pre IH]; intros rest x H; [reflexivity |].
  cbn [plain] in H. apply andb_true_iff in H. destruct H as [H Hp].
  apply andb_true_iff in H. destruct H as [H1 H2].
  apply negb_true_iff in H1, H2.
  cbn [append Text.like]. rewrite H1, H2, Ascii.eqb_refl. cbn [andb].
  now apply IH.
Qed.

Lemma year_pattern_matches (y x : string) :
  plain y = true ->
  Text.like ("S-" ++ y ++ "-%") ("S-" ++ y ++ "-" ++ x) = true.
Proof.
  intros H.
  change (Text.like ("S-" ++ y ++ "-%") ("S-" ++ y ++ "-" ++ x))
    with (Text.like (y ++ "-%") (y ++ "-" ++ x)).
  rewrite like_plain_prefix by assumption.
  change (Text.like "-%" ("-" ++ x)) with (Text.like "%" x).
  apply like_percent.
Qed.

Lemma plain_app (a b : string) : plain (a ++ b) = plain a && plain b.
Proof.
  induction a as [| c a IH]; cbn [append plain]; [reflexivity |].
  rewrite IH. now rewrite andb_assoc.
Qed.

Lemma plain_zeros (k : nat) : plain (Text.repeat_char "0" k) = true.
Proof. induction k; cbn [Text.repeat_char plain]; [reflexivity | exact IHk]. Qed.

Lemma plain_uint (d : Decimal.uint) : plain (NilEmpty.string_of_uint d) = true.
Proof. induction d; cbn [NilEmpty.string_of_uint plain]; try reflexivity; exact IHd. Qed.

(** The printed text of a number that is not negative. *)
Lemma of_Z_printed (n : Z) :
  0 <= n ->
  Text.of_Z n = "0"
  \/ exists p, n = Zpos p /\ Text.of_Z n = NilEmpty.string_of_uint (Pos.to_uint p).
Proof.
  intros Hn. destruct n as [| p | p]; [left; reflexivity | right | lia].
  exists p. split; [reflexivity |].
  unfold Text.of_Z. cbn [Z.to_int].
  unfold NilZero.string_of_int, NilZero.string_of_uint.
  pose proof (DecimalPos.Unsigned.to_uint_nonnil p).
  destruct (Pos.to_uint p); congruence.
Qed.

Lemma char_length_zeros (k : nat) : Text.char_length (Text.repeat_char "0" k) = k.
Proof.
  induction k; cbn [Text.repeat_char Text.char_length]; [reflexivity |].
  change (Text.is_continuation "0") with false. cbv iota. now rewrite IHk.
Qed.

Lemma char_length_uint (d : Decimal.uint) :
  Text.char_length (NilEmpty.string_of_uint d) = String.length (NilEmpty.string_of_uint d).
Proof.
  induction d; cbn [NilEmpty.string_of_uint Text.char_length String.length];
    try reflexivity;
    match goal with
    | |- context [Text.is_continuation ?c] => change (Text.is_continuation c) with false
    end; cbv iota; now rewrite IHd.
Qed.

Lemma year_str_plain (year : Z) :
  0 <= year <= 9999 ->
  plain (Text.to_char_yyyy year) = true
  /\ String.length (Text.to_char_yyyy year) = 4%nat.
Proof.
  intros Hy. split.
  - unfold Text.to_char_yyyy. cbv zeta. rewrite plain_app, plain_zeros. cbn [andb].
    destruct (@of_Z_printed year (proj1 Hy)) as [-> | (p & _ & ->)];
      [reflexivity | apply plain_uint].
  - pose proof (@varchar_length 4 _ _ (year_str_fits Hy)) as L.
    revert L. unfold Text.to_char_yyyy. cbv zeta.
    rewrite char_length_app, char_length_zeros, length_app, length_repeat_char.
    destruct (@of_Z_printed year (proj1 Hy)) as [-> | (p & _ & ->)];
      [cbn; lia | rewrite char_length_uint; lia].
Qed.

Lemma digits_zeros (k : nat) (s : string) :
  Text.digits 0 true (Text.repeat_char "0" k ++ s) = Text.digits 0 true s.
Proof.
  induction k as [| k IH]; [reflexivity |].
  cbn [Text.repeat_char append Text.digits].
  change (Text.is_digit "0") with true. cbv iota. exact IH.
Qed.

(** A number printed behind zeros is read back. *)
Lemma cast_zeros (k : nat) (n : Z) :
  0 <= n <= 9999 ->
  Text.cast_integer (Text.repeat_char "0" k ++ Text.of_Z n) = Ok n.
Proof.
  intros Hn. unfold Text.cast_integer.
  assert (R : Text.to_Z (Text.repeat_char "0" k ++ Text.of_Z n) = Some n).
  { destruct k as [| k]; [apply to_Z_of_Z |].
    unfold Text.to_Z. cbn [Text.repeat_char append Text.ltrim].
    change (Text.is_space "0") with false. cbv iota.
    change (Ascii.eqb "0" "-") with false. change (Ascii.eqb "0" "+") with false.
    cbv iota. cbn [Text.digits]. change (Text.is_digit "0") with true. cbv iota.
    change (10 * 0 + (Z.of_nat (nat_of_ascii "0") - 48)) with 0.
    rewrite digits_zeros.
    destruct (@of_Z_printed n (proj1 Hn)) as [E | (p & -> & E)]; rewrite E.
    - assert (n = 0) as ->.
      { destruct n as [| p | p]; [reflexivity | | lia].
        exfalso. revert E. unfold Text.of_Z. cbn [Z.to_int].
        unfold NilZero.string_of_int, NilZero.string_of_uint.
        pose proof (DecimalPos.Unsigned.to_uint_nonnil p) as Hnil.
        pose proof (digits_of_positive p) as D.
        destruct (Pos.to_uint p); try congruence; intros E; rewrite E in D;
          discriminate D. }
      reflexivity.
    - rewrite digits_printed by (right; reflexivity).
      rewrite uint_value_of_uint, DecimalPos.Unsigned.of_to. reflexivity. }
  rewrite R.
  replace (Text.in_int4 n) with true; [reflexivity |].
  symmetry. unfold Text.in_int4, Text.int4_min, Text.int4_max.
  apply andb_true_iff. split; apply Z.leb_le; lia.
Qed.

Lemma cast_padded (n : Z) :
  0 <= n <= 9999 -> Text.cast_integer (Text.lpad (Text.of_Z n) 4 "0") = Ok n.
Proof.
  intros Hn. rewrite (lpad_zero_pad Hn). apply cast_zeros. exact Hn.
Qed.

Lemma drop_app (a b : string) : Text.drop (String.length a) (a ++ b) = b.
Proof. induction a; simpl; [destruct b; reflexivity | assumption]. Qed.

Lemma cast_all_in (l : list string) :
  forall nums s n,
    Schema.cast_all l = Ok nums -> In s l -> Text.cast_integer s = Ok n -> In n nums.
Proof.
  induction l as [| a l IH]; intros nums s n H Hin Hc; [contradiction |].
  cbn [Schema.cast_all] in H. unbind H. apply Ok_inj in H. subst nums.
  destruct Hin as [-> | Hin].
  - left. congruence.
  - right. eapply IH; eauto.
Qed.

Lemma cast_all_err (l : list string) :
  forall s e, In s l -> Text.cast_integer s = Err e -> exists e', Schema.cast_all l = Err e'.
Proof.
  induction l as [| a l IH]; intros s e Hin Hc; [contradiction |].
  cbn [Schema.cast_all].
  destruct (Text.cast_integer a) as [n | e0] eqn:Ea; [| cbn; eauto].
  destruct Hin as [-> | Hin]; [congruence |].
  destruct (IH _ _ Hin Hc) as (e' & ->). cbn. eauto.
Qed.

Lemma fold_max_ge (l : list Z) :
  forall a, a <= fold_left Z.max l a /\ forall n, In n l -> n <= fold_left Z.max l a.
Proof.
  induction l as [| b l IH]; intros a; cbn [fold_left].
  - split; [lia | intros n []].
  - destruct (IH (Z.max a b)) as [A B]. split; [lia |].
    intros n [-> | Hin]; [lia | now apply B].
Qed.

Lemma sql_max_ge (l : list Z) (n : Z) :
  In n l -> n <= Schema.coalesce (Schema.sql_max l) 0.
Proof.
  destruct l as [| a l]; [intros [] |].
  cbn [Schema.sql_max Schema.coalesce]. destruct (fold_max_ge l a) as [A B].
  intros [<- | Hin]; [assumption | now apply B].
Qed.

(** X1.  A generated number is new.  While every sortie numbered for the
    year has a sequence number from 0 to 9998, the number
    [generate_sortie_number()] returns is carried by no sortie the
    statement sees: the INSERT that follows does not meet the unique
    index on [sortie_number]. *)
Theorem generated_number_is_fresh (year : Z) (t : tables) (nums : list Z) (num : string) :
  0 <= year <= 9999 ->
  Schema.year_sequence (Text.to_char_yyyy year) t = Ok nums ->
  Forall (fun n => 0 <= n < 9999) nums ->
  Schema.generate_sortie_number year t = Ok num ->
  ~ In num (numbers t).
Proof.
  intros Hy Hseq Hb Hgen Hin.
  assert (Hn : 0 <= Schema.coalesce (Schema.sql_max nums) 0 + 1 <= 9999).
  { destruct nums as [| a l]; [cbn; lia |].
    cbn [Schema.sql_max Schema.coalesce].
    assert (F : forall l a, Forall (fun n => 0 <= n < 9999) (a :: l) ->
                            0 <= fold_left Z.max l a < 9999).
    { clear. induction l as [| b l IH]; intros a H; cbn [fold_left].
      - now inversion H.
      - apply IH. inversion H as [| ? ? Ha Hl]; subst.
        inversion Hl as [| ? ? Hb' Hl']; subst. constructor; [lia | assumption]. }
    specialize (F l a Hb). lia. }
  rewrite (generate_sortie_number_spec t Hy Hseq Hn) in Hgen.
  apply Ok_inj in Hgen. subst num.
  unfold numbers in Hin. apply in_map_iff in Hin. destruct Hin as (s & Es & Hs).
  destruct (year_str_plain Hy) as [Pl Len].
  unfold Schema.year_sequence in Hseq.
  set (next := Schema.coalesce (Schema.sql_max nums) 0 + 1) in *.
  unfold Spec.sortie_number in Es. rewrite <- (lpad_zero_pad Hn) in Es.
  assert (In next nums).
  { eapply cast_all_in; [exact Hseq | | apply (cast_padded (n := next)); exact Hn].
    apply in_map_iff. exists s. split.
    - rewrite Es. unfold Text.substring_from.
      destruct (Text.to_char_yyyy year) as [| a [| b [| c [| d [| e y]]]]];
        simpl in Len; try discriminate. reflexivity.
    - apply filter_In. split; [assumption |]. rewrite Es.
      now apply year_pattern_matches. }
  pose proof (sql_max_ge _ _ H). unfold next in *. lia.
Qed.

Lemma like_plain_differs (a : string) :
  forall b rest x,
    plain a = true -> String.length a = String.length b -> a <> b ->
    Text.like (a ++ rest) (b ++ x) = false.
Proof.
  induction a as [| c a IH]; intros b rest x Hp Hl Hn.
  - destruct b; [congruence | discriminate].
  - destruct b as [| d b]; [discriminate |].
    cbn [plain] in Hp. apply andb_true_iff in Hp. destruct Hp as [Hp Hp'].
    apply andb_true_iff in Hp. destruct Hp as [H1 H2].
    apply negb_true_iff in H1, H2.
    cbn [append Text.like]. rewrite H1, H2.
    destruct (Ascii.eqb_spec c d) as [-> | Hcd]; [| reflexivity].
    cbn [andb]. apply IH; [assumption | now inversion Hl | congruence].
Qed.

Lemma year_str_inj (y y' : Z) :
  0 <= y <= 9999 -> 0 <= y' <= 9999 ->
  Text.to_char_yyyy y = Text.to_char_yyyy y' -> y = y'.
Proof.
  intros Hy Hy' E.
  pose proof (cast_zeros (4 - String.length (Text.of_Z y)) Hy) as A.
  pose proof (cast_zeros (4 - String.length (Text.of_Z y')) Hy') as B.
  unfold Text.to_char_yyyy in E. cbv zeta in E. rewrite E in A. congruence.
Qed.

(** X2.  The numbering starts again each year.  When every stored sortie
    carries a number of another year, however many there are, the
    generator returns number 0001 of the current year. *)
Theorem numbering_restarts_each_year (year : Z) (t : tables) :
  0 <= year <= 9999 ->
  Forall (of_other_year year) (sorties t) ->
  Schema.generate_sortie_number year t = Ok ("S-" ++ Text.to_char_yyyy year ++ "-0001").
Proof.
  intros Hy F. apply generate_sortie_number_first; [assumption |].
  unfold Schema.year_sequence.
  replace (filter _ (sorties t)) with (@nil Sorties.row); [reflexivity |].
  symmetry. induction F as [| s l Hs _ IH]; [reflexivity |].
  cbn [filter]. rewrite IH.
  destruct Hs as (y' & tail & Hy' & Hne & ->).
  destruct (year_str_plain Hy) as [Pl Len]. destruct (year_str_plain Hy') as [Pl' Len'].
  change (Text.like ("S-" ++ Text.to_char_yyyy year ++ "-%")
                    ("S-" ++ Text.to_char_yyyy y' ++ "-" ++ tail))
    with (Text.like (Text.to_char_yyyy year ++ "-%")
                    (Text.to_char_yyyy y' ++ "-" ++ tail)).
  rewrite like_plain_differs; [reflexivity | assumption | congruence |].
  intros E. apply Hne. symmetry. now apply year_str_inj.
Qed.

Section Blocked.
Context {store : StoreInput}.

(** X3.  One unreadable number stops the numbering.  If a stored
    sortie number matches the pattern of the current year and its tail,
    from the eighth character on, is no integer, the [CAST] in
    [generate_sortie_number()] fails; every creation call then answers
    failure with that error and leaves the store, its sequences
    included, as it was. *)
Theorem unreadable_number_blocks_creation (db : Pg.database) (s : Sorties.row) (e : exn) :
  0 <= Pg.current_year db <= 9999 ->
  In s (sorties (Pg.committed db)) ->
  Text.like ("S-" ++ Text.to_char_yyyy (Pg.current_year db) ++ "-%")
            (Sorties.sortie_number s) = true ->
  Text.cast_integer (Text.substring_from (Sorties.sortie_number s) 8) = Err e ->
  exists e',
    Schema.generate_sortie_number (Pg.current_year db) (Pg.committed db) = Err e'
    /\ forall body,
         Pg.run (Server.create_sortie body) db Pg.Idle
         = (Ok (Server.Failed e'), db, Pg.Idle).
Proof.
  intros Hy Hin Hl Hc.
  assert (G : exists e', Schema.generate_sortie_number (Pg.current_year db) (Pg.committed db)
                         = Err e').
  { unfold Schema.generate_sortie_number. rewrite (year_str_fits Hy).
    cbn [rbind Schema.coalesce]. unfold Schema.year_sequence.
    destruct (@cast_all_err
                (map (fun s0 => Text.substring_from (Sorties.sortie_number s0) 8)
                     (filter (fun s0 => Text.like
                                ("S-" ++ Text.to_char_yyyy (Pg.current_year db) ++ "-%")
                                (Sorties.sortie_number s0))
                             (sorties (Pg.committed db))))
                (Text.substring_from (Sorties.sortie_number s) 8) e) as (e' & E).
    - apply in_map_iff. exists s. split; [reflexivity |].
      apply filter_In. split; assumption.
    - assumption.
    - exists e'. rewrite E. reflexivity. }
  destruct G as (e' & G). exists e'. split; [assumption |].
  intros body. unfold Server.create_sortie, Server.create_sortie_try,
    Server.create_sortie_steps.
  rewrite run_try_catch, run_bind, run_query. cbn [Pg.exec].
  rewrite run_bind, run_query.
  cbn [Pg.exec Pg.visible Schema.apply_rows fold_left]. rewrite G.
  reflexivity.
Qed.

End Blocked.

(** ** What every run keeps *)

Section Invariants.
Context {store : StoreInput}.

Lemma run_invariant (I : Pg.database -> Pg.connection -> Prop) :
  (forall q db c r db' c', Pg.exec q db c = (r, db', c') -> I db c -> I db' c') ->
  forall A (p : Pg.prog A) db c r db' c',
    Pg.run p db c = (r, db', c') -> I db c -> I db' c'.
Proof.
  intros Step A p. induction p as [a | e | q k IH]; intros db c r db' c' H Hi;
    cbn [Pg.run] in H.
  - inversion H; subst. assumption.
  - inversion H; subst. assumption.
  - destruct (Pg.exec q db c) as [[r1 db1] c1] eqn:E.
    eapply IH; [exact H |]. eapply Step; eauto.
Qed.

Lemma seqs_le_refl s : seqs_le s s.
Proof. unfold seqs_le. lia. Qed.

Lemma seqs_le_trans a b c : seqs_le a b -> seqs_le b c -> seqs_le a c.
Proof. unfold seqs_le. lia. Qed.

Lemma build_seqs (q : Pg.stmt) s s' rb :
  Pg.build q s = Some (s', rb) -> seqs_le s s'.
Proof.
  destruct q; cbn [Pg.build]; try discriminate.
  - unfold Schema.sorties_row.
    match goal with |- context [match ?X with Ok _ => _ | Err _ => _ end] =>
      destruct X as [[[[[[[[[[? ?] ?] ?] ?] ?] ?] ?] ?] ?] |] end;
      intros H; inversion H; subst; unfold seqs_le; cbn; lia.
  - unfold Schema.sortie_crew_row.
    match goal with |- context [match ?X with Ok _ => _ | Err _ => _ end] =>
      destruct X as [[[[[? ?] ?] ?] ?] |] end;
      intros H; inversion H; subst; unfold seqs_le; cbn; lia.
  - unfold Schema.sortie_passengers_row.
    match goal with |- context [match ?X with Ok _ => _ | Err _ => _ end] =>
      destruct X as [[[[[? ?] ?] ?] ?] |] end;
      intros H; inversion H; subst; unfold seqs_le; cbn; lia.
  - unfold Schema.sortie_cargo_row.
    match goal with |- context [match ?X with Ok _ => _ | Err _ => _ end] =>
      destruct X as [[[[[[? ?] ?] ?] ?] ?] |] end;
      intros H; inversion H; subst; unfold seqs_le; cbn; lia.
Qed.

Lemma exec_seqs (q : Pg.stmt) db c r db' c' :
  Pg.exec q db c = (r, db', c') -> seqs_le (Pg.seqs db) (Pg.seqs db').
Proof.
  intros E.
  destruct (Pg.build q (Pg.seqs db)) as [[s' rb] |] eqn:Hb.
  - pose proof (build_seqs _ _ Hb) as L.
    rewrite (exec_insert_any q db c Hb) in E.
    destruct c; destruct rb as [n | e];
      try destruct (Pg.accept_row n _);
      inversion E; subst; cbn; first [exact L | apply seqs_le_refl].
  - destruct (build_none _ _ Hb) as [-> | [-> | [-> | ->]]]; cbn [Pg.exec] in E;
      destruct c; try destruct (Schema.generate_sortie_number _ _);
      inversion E; subst; apply seqs_le_refl.
Qed.

Lemma run_seqs {A} (p : Pg.prog A) db c r db' c' :
  Pg.run p db c = (r, db', c') -> seqs_le (Pg.seqs db) (Pg.seqs db').
Proof.
  intros H.
  apply (@run_invariant (fun d _ => seqs_le (Pg.seqs db) (Pg.seqs d))) in H;
    [assumption | | apply seqs_le_refl].
  intros q d c0 r0 d' c0' E L. eapply seqs_le_trans; [exact L |].
  eapply exec_seqs; eauto.
Qed.

End Invariants.

(** ** The rows a successful creation stores *)

Section Fields.
Context {store : StoreInput}.

Lemma sortie_crew_row_fields seqs p1 p2 position other p3 s1 r :
  Schema.sortie_crew_row seqs p1 p2 position other p3 = (s1, Ok r) ->
  Input.integer p1 = Ok (Some (SortieCrew.sortie_id r))
  /\ Input.integer p2 = Ok (Some (SortieCrew.personnel_id r))
  /\ Input.varchar 50 (Js.Str position) = Ok (Some (SortieCrew.crew_position r))
  /\ match other with
     | Some v => Input.varchar 100 v = Ok (SortieCrew.crew_position_other r)
     | None => SortieCrew.crew_position_other r = None
     end
  /\ (SortieCrew.crew_position r = "Other" -> SortieCrew.crew_position_other r <> None)
  /\ Input.text p3 = Ok (SortieCrew.remarks r)
  /\ SortieCrew.is_primary r = Some true
  /\ Text.mem (SortieCrew.crew_position r) Schema.crew_positions = true.
Proof.
  unfold Schema.sortie_crew_row. intros H.
  match type of H with
  | match ?X with _ => _ end = _ => destruct X as [tuple | e] eqn:Conv
  end; [| discriminate].
  destruct tuple as [[[[sid pid] pos] oth] rem].
  unbind Conv. inversion Conv; subst; clear Conv.
  inversion H as [[Hs Hr]]; clear H. unbind Hr. unseal.
  inversion Hr; subst; clear Hr. cbn.
  repeat split; try assumption.
  - match goal with
    | E : match other with Some _ => _ | None => _ end = Ok _ |- _ =>
        destruct other; [exact E | now inversion E]
    end.
  - intros ->.
    match goal with
    | E : negb _ || _ = true |- _ =>
        rewrite String.eqb_refl in E; cbn in E; destruct oth; [discriminate | discriminate]
    end.
Qed.

Lemma sortie_passengers_row_fields seqs p1 p2 p3 p4 p5 s1 r :
  Schema.sortie_passengers_row seqs p1 p2 p3 p4 p5 = (s1, Ok r) ->
  Input.integer p1 = Ok (Some (SortiePassengers.sortie_id r))
  /\ Input.varchar 50 p2 = Ok (Some (SortiePassengers.passenger_type r))
  /\ Input.integer p3 = Ok (Some (SortiePassengers.onload_count r))
  /\ Input.integer p4 = Ok (Some (SortiePassengers.offload_count r))
  /\ Input.text p5 = Ok (SortiePassengers.notes r)
  /\ 0 <= SortiePassengers.onload_count r
  /\ 0 <= SortiePassengers.offload_count r
  /\ Text.mem (SortiePassengers.passenger_type r) Schema.passenger_types = true.
Proof.
  unfold Schema.sortie_passengers_row. intros H.
  match type of H with
  | match ?X with _ => _ end = _ => destruct X as [tuple | e] eqn:Conv
  end; [| discriminate].
  destruct tuple as [[[[sid ty] onl] offl] nt].
  unbind Conv. inversion Conv; subst; clear Conv.
  inversion H as [[Hs Hr]]; clear H. unbind Hr. unseal.
  inversion Hr; subst; clear Hr. cbn.
  repeat split; assumption.
Qed.

Lemma sorties_row_fields seqs p1 p2 p3 p4 p5 p6 p7 p8 p9 status s1 r :
  Schema.sorties_row seqs p1 p2 p3 p4 p5 p6 p7 p8 p9 status = (s1, Ok r) ->
  Input.varchar 50 p2 = Ok (Some (Sorties.mission_type r))
  /\ Input.integer p4 = Ok (Some (Sorties.departure_location_id r))
  /\ Input.integer p5 = Ok (Some (Sorties.arrival_location_id r))
  /\ Input.text p8 = Ok (Sorties.comments r)
  /\ Input.integer p9 = Ok (Sorties.created_by r)
  /\ sorties_sortie_id_seq s1 = Sorties.sortie_id r.
Proof.
  unfold Schema.sorties_row. intros H.
  match type of H with
  | match ?X with _ => _ end = _ => destruct X as [tuple | e] eqn:Conv
  end; [| discriminate].
  destruct tuple as [[[[[[[[[number mission] ac] dep] arr] tk] ld] cm] cr] st].
  unbind Conv. inversion Conv; subst; clear Conv.
  inversion H as [[Hs Hr]]; clear H. unbind Hr. unseal.
  inversion Hr; subst; clear Hr. cbn.
  repeat split; assumption.
Qed.

End Fields.

Section Traces.
Context {store : StoreInput}.

(** The crew step that ended well wrote one row for each slot with a
    name, in the order of the slots. *)
Lemma insert_entries_trace sortieId l :
  Forall (fun e => (String.length (snd (fst e)) <= 50)%nat) l ->
  forall db pend db' c',
    Pg.run (insert_entries sortieId l) db (Pg.InTransaction pend) = (Ok tt, db', c') ->
    exists rows,
      c' = Pg.InTransaction (pend ++ map NewCrew rows)
      /\ Forall2 (crew_row_of sortieId) (filter named l) rows.
Proof.
  induction 1 as [| e rest He _ IH]; intros db pend db' c' H.
  - cbn in H. inversion H; subst. exists []. cbn. rewrite app_nil_r.
    split; [reflexivity | constructor].
  - cbn [insert_entries] in H. rewrite run_bind in H.
    destruct e as [[m label] other]. cbn [insert_entry] in H.
    cbn [filter]. unfold named at 1. cbn [fst snd] in *.
    destruct (Js.truthy (Server.name m)) eqn:T.
    + rewrite run_bind, run_query in H.
      destruct (Schema.sortie_crew_row (Pg.seqs db) sortieId (Server.name m) label other
                  (Js.or (Server.remarks m) Js.Null)) as [s' rr] eqn:Row.
      rewrite (exec_insert _ db pend
                 (s' := s') (rb := let? row := rr in Ok (NewCrew row))) in H
        by (cbn [Pg.build]; rewrite Row; reflexivity).
      destruct rr as [row | err]; cbn [rbind] in H; [| discriminate].
      destruct (Pg.accept_row (NewCrew row) _) as [[] | err] eqn:Acc; [| discriminate].
      cbn [Pg.run] in H.
      destruct (IH _ _ _ _ H) as (rows & -> & F).
      exists (row :: rows). split.
      * cbn [map]. rewrite <- app_assoc. reflexivity.
      * constructor; [| exact F].
        destruct (sortie_crew_row_fields _ _ _ _ _ _ Row)
          as (A1 & A2 & A3 & A4 & A5 & A6 & A7 & _).
        rewrite varchar_short in A3 by exact He. apply Ok_inj in A3.
        unfold crew_row_of. cbn [fst snd].
        repeat split; try assumption. now inversion A3.
    + cbn [Pg.run] in H. exact (IH _ _ _ _ H).
Qed.

Lemma slots_labels (c : Server.crew_t) :
  Forall (fun e => (String.length (snd (fst e)) <= 50)%nat) (slots c).
Proof.
  unfold slots, slot_of.
  repeat (apply Forall_app; split);
    try (match goal with |- context [match ?o with Some _ => _ | None => _ end] =>
           destruct o end; repeat constructor; cbn; lia).
  apply Forall_forall. intros e Hin. apply in_map_iff in Hin.
  destruct Hin as (m & <- & _). cbn. lia.
Qed.

Lemma passenger_type_stored (type ty : string) :
  Input.varchar 50 (Server.passengerTypeMap type) = Ok (Some ty) ->
  Server.passengerTypeMap type = Js.Str ty.
Proof.
  unfold Server.passengerTypeMap.
  repeat match goal with
         | |- context [if ?b then _ else _] => destruct b
         end;
    cbn; intros H; inversion H; reflexivity.
Qed.

(** The passenger step that ended well wrote one row for each category
    the payload holds, in the order of the loop. *)
Lemma insert_passengers_trace sortieId o types :
  forall db pend db' c',
    Pg.run (Server.insert_passengers sortieId (Some o) types) db (Pg.InTransaction pend)
    = (Ok tt, db', c') ->
    exists rows,
      c' = Pg.InTransaction (pend ++ map NewPassengers rows)
      /\ Forall2 (passengers_row_of sortieId)
                 (flat_map (fun type => match Server.passengers_get o type with
                                        | Some c => [(type, c)]
                                        | None => []
                                        end) types)
                 rows.
Proof.
  induction types as [| type rest IH]; intros db pend db' c' H.
  - cbn in H. inversion H; subst. exists []. cbn. rewrite app_nil_r.
    split; [reflexivity | constructor].
  - cbn [Server.insert_passengers Server.deref Pg.bind] in H.
    rewrite run_bind in H. cbn [flat_map].
    destruct (Server.passengers_get o type) as [c |].
    + rewrite run_bind, run_query in H.
      destruct (Schema.sortie_passengers_row (Pg.seqs db) sortieId
                  (Server.passengerTypeMap type)
                  (Js.or (Server.onload c) (Js.Num 0))
                  (Js.or (Server.offload c) (Js.Num 0))
                  (Js.or (Server.notes c) Js.Null)) as [s' rr] eqn:Row.
      rewrite (exec_insert _ db pend
                 (s' := s') (rb := let? row := rr in Ok (NewPassengers row))) in H
        by (cbn [Pg.build]; rewrite Row; reflexivity).
      destruct rr as [row | err]; cbn [rbind] in H; [| discriminate].
      destruct (Pg.accept_row (NewPassengers row) _) as [[] | err] eqn:Acc;
        [| discriminate].
      cbn [Pg.run] in H.
      destruct (IH _ _ _ _ H) as (rows & -> & F).
      exists (row :: rows). split.
      * cbn [map]. rewrite <- app_assoc. reflexivity.
      * cbn [app]. constructor; [| exact F].
        destruct (sortie_passengers_row_fields _ _ _ _ _ _ Row)
          as (A1 & A2 & A3 & A4 & A5 & A6 & A7 & _).
        unfold passengers_row_of. cbn [fst snd].
        apply passenger_type_stored in A2.
        repeat split; assumption.
    + cbn [Pg.run app] in H. exact (IH _ _ _ _ H).
Qed.

Lemma passengers_rows_app (a b : list new_row) :
  passengers_rows (a ++ b) = (passengers_rows a ++ passengers_rows b)%list.
Proof. apply flat_map_app. Qed.

(** The rows of a creation, table by table. *)
Lemma rows_by_table srow (crew : list SortieCrew.row) (pax : list SortiePassengers.row)
    crow :
  let rows := NewSortie srow :: map NewCrew crew ++ map NewPassengers pax
              ++ [NewCargo crow] in
  sortie_rows rows = [srow] /\ crew_rows rows = crew
  /\ passengers_rows rows = pax /\ cargo_rows rows = [crow].
Proof.
  intros rows. unfold rows.
  change (NewSortie srow :: map NewCrew crew ++ map NewPassengers pax ++ [NewCargo crow])
    with ([NewSortie srow] ++ map NewCrew crew ++ map NewPassengers pax
          ++ [NewCargo crow])%list.
  rewrite !sortie_rows_app, !crew_rows_app, !passengers_rows_app, !cargo_rows_app.
  assert (C : sortie_rows (map NewCrew crew) = [] /\ crew_rows (map NewCrew crew) = crew
              /\ passengers_rows (map NewCrew crew) = []
              /\ cargo_rows (map NewCrew crew) = []).
  { induction crew as [| r l (A1 & A2 & A3 & A4)]; cbn; [auto |].
    repeat split; try assumption. cbn in A2. now f_equal. }
  assert (P : sortie_rows (map NewPassengers pax) = []
              /\ crew_rows (map NewPassengers pax) = []
              /\ passengers_rows (map NewPassengers pax) = pax
              /\ cargo_rows (map NewPassengers pax) = []).
  { induction pax as [| r l (A1 & A2 & A3 & A4)]; cbn; [auto |].
    repeat split; try assumption. cbn in A3. now f_equal. }
  destruct C as (C1 & C2 & C3 & C4). destruct P as (P1 & P2 & P3 & P4).
  rewrite C1, C2, C3, C4, P1, P2, P3, P4. cbn. rewrite ?app_nil_r. auto.
Qed.

(** What a creation that answered 201 has stored, row by row. *)
Lemma created_stored body db sortieId sortieNumber db' c' :
  Pg.run (Server.create_sortie body) db Pg.Idle
  = (Ok (Server.Created sortieId sortieNumber), db', c') ->
  exists s c p g srow crew pax crow s1,
    Server.sortie body = Some s
    /\ Server.crew body = Some c
    /\ Server.passengers body = Some p
    /\ Server.cargo body = Some g
    /\ sortieId = Js.Num (Sorties.sortie_id srow)
    /\ sortieNumber = Js.Str (Sorties.sortie_number srow)
    /\ Schema.generate_sortie_number (Pg.current_year db) (Pg.committed db)
       = Ok (Sorties.sortie_number srow)
    /\ Text.in_int4 (Sorties.sortie_id srow) = true
    /\ Schema.sorties_row (Pg.seqs db) sortieNumber (Server.missionType s)
         (Server.tailNumber s) (Server.depLocation s) (Server.arrLocation s)
         (Server.takeoffTime s) (Server.landingTime s)
         (Js.or (Server.comments s) Js.Null) (Js.Num 1) "Completed"
       = (s1, Ok srow)
    /\ Pg.accept_row (NewSortie srow) (Pg.committed db) = Ok tt
    /\ Forall2 (crew_row_of sortieId) (filter named (slots c)) crew
    /\ Forall2 (passengers_row_of sortieId) (categories p) pax
    /\ SortieCargo.sortie_id crow = Sorties.sortie_id srow
    /\ sorties (Pg.committed db') = (sorties (Pg.committed db) ++ [srow])%list
    /\ sortie_crew (Pg.committed db') = (sortie_crew (Pg.committed db) ++ crew)%list
    /\ sortie_passengers (Pg.committed db')
       = (sortie_passengers (Pg.committed db) ++ pax)%list
    /\ sortie_cargo (Pg.committed db') = (sortie_cargo (Pg.committed db) ++ [crow])%list
    /\ users (Pg.committed db') = users (Pg.committed db)
    /\ locations (Pg.committed db') = locations (Pg.committed db)
    /\ personnel (Pg.committed db') = personnel (Pg.committed db)
    /\ aircraft (Pg.committed db') = aircraft (Pg.committed db).
Proof.
  intros E.
  destruct (created_trace _ _ E)
    as (s & g & num & s1 & srow & db2 & crews & db3 & paxs & s4 & crow
        & Hs & Hg & Gen & -> & Row & Acc & -> & C & FC & Px & FP & RowC & AccC & Com & _).
  destruct (Server.crew body) as [c |] eqn:Hc; [| cbn in C; discriminate].
  destruct (Server.passengers body) as [p |] eqn:Hp; [| cbn in Px; discriminate].
  rewrite run_insert_crew in C.
  destruct (@insert_entries_trace _ _ (slots_labels c) _ _ _ _ C) as (crew & Ec & F2c).
  inversion Ec as [Ec']; clear Ec. subst crews.
  destruct (@insert_passengers_trace _ _ _ _ _ _ _ Px) as (pax & Ep & F2p).
  inversion Ep as [Ep']; clear Ep. apply app_inv_head in Ep'. subst paxs.
  destruct (sorties_row_ok _ _ _ _ _ _ _ _ _ _ _ Row) as (Hn & _).
  rewrite varchar_chars in Hn
    by (pose proof (generate_sortie_number_short _ _ Gen); lia).
  apply Ok_inj in Hn. inversion Hn as [Hn']. clear Hn. subst num.
  destruct (sortie_cargo_row_ok _ _ _ _ _ _ _ RowC) as (Hid & _).
  rewrite integer_of_num in Hid.
  destruct (Text.in_int4 (Sorties.sortie_id srow)) eqn:In4; inversion Hid as [Hid'].
  exists s, c, p, g, srow, crew, pax, crow, s1.
  destruct (apply_rows_tables
              (NewSortie srow :: map NewCrew crew ++ map NewPassengers pax ++ [NewCargo crow])
              (Pg.committed db))
    as (U & L & P & A & S & Cr & Pa & Ca).
  rewrite <- Com in U, L, P, A, S, Cr, Pa, Ca.
  pose proof (rows_by_table srow crew pax crow) as R. cbv zeta in R.
  destruct R as (R1 & R2 & R3 & R4). rewrite R1 in S. rewrite R2 in Cr.
  rewrite R3 in Pa. rewrite R4 in Ca.
  repeat (split; [first [assumption | reflexivity | congruence] |]). assumption.
Qed.

End Traces.

(** ** Creation, row by row *)

Lemma Forall2_in_left {A B} (R : A -> B -> Prop) (l : list A) (l' : list B) (a : A) :
  Forall2 R l l' -> In a l -> exists b, In b l' /\ R a b.
Proof.
  induction 1 as [| x y l l' Hxy _ IH]; intros Hin; [contradiction |].
  destruct Hin as [-> | Hin].
  - exists y. split; [now left | assumption].
  - destruct (IH Hin) as (b & Hb & Hr). exists b. split; [now right | assumption].
Qed.

Lemma Forall2_right {A B} (R : A -> B -> Prop) (P : B -> Prop) (l : list A) (l' : list B) :
  Forall2 R l l' -> (forall a b, R a b -> P b) -> Forall P l'.
Proof. induction 1; intros H'; constructor; eauto. Qed.

Section Extras.
Context {store : StoreInput}.

(** X5.  The crew rows of a successful call: one row for each slot
    whose [name] is truthy, in the order PIC, SIC, O/I, additional
    entries, each with its position label, the person and the sortie as
    the store reads them; a slot without a name is passed over, so a
    crew section without any name stores no row at all. *)
Theorem stored_crew_rows body db sortieId sortieNumber db' c' :
  Pg.run (Server.create_sortie body) db Pg.Idle
  = (Ok (Server.Created sortieId sortieNumber), db', c') ->
  exists c rows,
    Server.crew body = Some c
    /\ sortie_crew (Pg.committed db') = (sortie_crew (Pg.committed db) ++ rows)%list
    /\ Forall2 (crew_row_of sortieId) (filter named (slots c)) rows.
Proof.
  intros E.
  destruct (created_stored _ _ E)
    as (s & c & p & g & srow & crew & pax & crow & s1
        & Hs & Hc & Hp & Hg & Hid & Hnum & Gen & In4 & Row & Acc & F2c & F2p & Hcid
        & S & Cr & Pa & Ca & _).
  exists c, crew. auto.
Qed.

(** X6.  An additional crew member with a name and no [position] (the
    field missing or [null]) makes the whole call fail: the row would
    be 'Other' with [crew_position_other] NULL, which the table's CHECK
    refuses.  Nothing of the call is kept. *)
Theorem additional_without_position_rejected body db c l m :
  Server.crew body = Some c ->
  Server.additional c = Some l ->
  In m l ->
  Js.truthy (Server.name m) = true ->
  Js.prepareValue (Server.position m) = None ->
  exists e db',
    Pg.run (Server.create_sortie body) db Pg.Idle = (Ok (Server.Failed e), db', Pg.Idle)
    /\ Pg.committed db' = Pg.committed db.
Proof.
  intros Hc Ha Hin Ht Hpos.
  destruct (create_sortie_outcome body db) as (resp & db' & E & Y & P).
  destruct resp as [sortieId sortieNumber | e].
  - exfalso.
    destruct (created_stored _ _ E)
      as (s & c0 & p & g & srow & crew & pax & crow & s1
          & Hs & Hc0 & Hp & Hg & Hid & Hnum & Gen & In4 & Row & Acc & F2c & _).
    rewrite Hc in Hc0. inversion Hc0; subst c0; clear Hc0.
    assert (Hin' : In (m, "Other", Some (Server.position m)) (filter named (slots c))).
    { apply filter_In. split; [| exact Ht].
      unfold slots. rewrite Ha. cbn [Schema.coalesce].
      apply in_or_app. right. apply in_or_app. right. apply in_or_app. right.
      apply in_map_iff. exists m. auto. }
    destruct (Forall2_in_left _ F2c Hin') as (r & _ & R).
    destruct R as (_ & _ & Rpos & Roth & Rchk & _). cbn [fst snd] in *.
    unfold Input.varchar in Roth. rewrite Hpos in Roth. apply Ok_inj in Roth.
    apply (Rchk Rpos). congruence.
  - exists e, db'. split; [assumption | apply P; reflexivity].
Qed.

(** X7.  The passenger rows of a successful call: one row for each
    category the [passengers] section holds, in the order military,
    civilian, contractor, partner, other, under the name of
    [passengerTypeMap], with the counts as the store reads them (0 for
    a missing or zero count) and counts not below zero.  A category the
    section does not hold gets no row. *)
Theorem stored_passenger_rows body db sortieId sortieNumber db' c' :
  Pg.run (Server.create_sortie body) db Pg.Idle
  = (Ok (Server.Created sortieId sortieNumber), db', c') ->
  exists p rows,
    Server.passengers body = Some p
    /\ sortie_passengers (Pg.committed db')
       = (sortie_passengers (Pg.committed db) ++ rows)%list
    /\ Forall2 (passengers_row_of sortieId) (categories p) rows.
Proof.
  intros E.
  destruct (created_stored _ _ E)
    as (s & c & p & g & srow & crew & pax & crow & s1
        & Hs & Hc & Hp & Hg & Hid & Hnum & Gen & In4 & Row & Acc & F2c & F2p & Hcid
        & S & Cr & Pa & Ca & _).
  exists p, pax. auto.
Qed.

(** X8.  A passenger count below zero, on or off, in any category
    makes the whole call fail, by the CHECK on the count; nothing of the
    call is kept. *)
Theorem negative_count_rejected body db p type c n :
  Server.passengers body = Some p ->
  In (type, c) (categories p) ->
  Input.integer (Js.or (Server.onload c) (Js.Num 0)) = Ok (Some n)
  \/ Input.integer (Js.or (Server.offload c) (Js.Num 0)) = Ok (Some n) ->
  n < 0 ->
  exists e db',
    Pg.run (Server.create_sortie body) db Pg.Idle = (Ok (Server.Failed e), db', Pg.Idle)
    /\ Pg.committed db' = Pg.committed db.
Proof.
  intros Hp Hin Hn Hneg.
  destruct (create_sortie_outcome body db) as (resp & db' & E & Y & P).
  destruct resp as [sortieId sortieNumber | e].
  - exfalso.
    destruct (created_stored _ _ E)
      as (s & c0 & p0 & g & srow & crew & pax & crow & s1
          & Hs & Hc0 & Hp0 & Hg & Hid & Hnum & Gen & In4 & Row & Acc & F2c & F2p & _).
    rewrite Hp in Hp0. inversion Hp0; subst p0; clear Hp0.
    destruct (Forall2_in_left _ F2p Hin) as (r & _ & R).
    destruct R as (_ & _ & Ron & Roff & _ & Pon & Poff). cbn [fst snd] in *.
    destruct Hn as [Hn | Hn]; [rewrite Hn in Ron | rewrite Hn in Roff];
      match goal with
      | H : Ok (Some n) = Ok (Some _) |- _ => apply Ok_inj in H; inversion H
      end; lia.
  - exists e, db'. split; [assumption | apply P; reflexivity].
Qed.

(** X9.  The handler writes user 1 as the creator of every sortie.  In a
    store without a user of key 1 every creation call fails, whatever
    the payload, and nothing is kept. *)
Theorem missing_creator_rejected body db :
  Schema.has_key 1 (users (Pg.committed db)) = false ->
  exists e db',
    Pg.run (Server.create_sortie body) db Pg.Idle = (Ok (Server.Failed e), db', Pg.Idle)
    /\ Pg.committed db' = Pg.committed db.
Proof.
  intros Hu.
  destruct (create_sortie_outcome body db) as (resp & db' & E & Y & P).
  destruct resp as [sortieId sortieNumber | e].
  - exfalso.
    destruct (created_stored _ _ E)
      as (s & c0 & p0 & g & srow & crew & pax & crow & s1
          & Hs & Hc0 & Hp0 & Hg & Hid & Hnum & Gen & In4 & Row & Acc & _).
    destruct (sorties_row_fields _ _ _ _ _ _ _ _ _ _ _ Row) as (_ & _ & _ & _ & Hcr & _).
    rewrite integer_of_num in Hcr. cbn in Hcr. apply Ok_inj in Hcr.
    apply accept_row_ok in Acc. destruct Acc as [_ Ref].
    cbn [Schema.references] in Ref. unfold Schema.sortie_references in Ref.
    rewrite <- Hcr in Ref. rewrite Hu in Ref.
    rewrite andb_false_r in Ref. discriminate.
  - exists e, db'. split; [assumption | apply P; reflexivity].
Qed.

(** X4.  The sortie row of a successful call.  Its columns are the
    fields of the [sortie] section as the store reads them; the minutes
    are computed from the two times; a missing or empty comment is
    stored as NULL; the creator is user 1, whoever called; and the
    aircraft, both locations and user 1 existed before the call. *)
Theorem stored_sortie_row body db sortieId sortieNumber db' c' :
  Pg.run (Server.create_sortie body) db Pg.Idle
  = (Ok (Server.Created sortieId sortieNumber), db', c') ->
  exists s srow,
    Server.sortie body = Some s
    /\ sorties (Pg.committed db') = (sorties (Pg.committed db) ++ [srow])%list
    /\ Input.varchar 50 (Server.missionType s) = Ok (Some (Sorties.mission_type srow))
    /\ Input.integer (Server.tailNumber s) = Ok (Some (Sorties.aircraft_id srow))
    /\ Input.integer (Server.depLocation s)
       = Ok (Some (Sorties.departure_location_id srow))
    /\ Input.integer (Server.arrLocation s) = Ok (Some (Sorties.arrival_location_id srow))
    /\ Input.timestamp (Server.takeoffTime s) = Ok (Some (Sorties.takeoff_time srow))
    /\ Input.timestamp (Server.landingTime s) = Ok (Some (Sorties.landing_time srow))
    /\ Sorties.flight_duration_minutes srow
       = Schema.generated_flight_duration (Sorties.takeoff_time srow)
                                          (Sorties.landing_time srow)
    /\ Sorties.comments srow
       = (if Js.truthy (Server.comments s) then Js.prepareValue (Server.comments s)
          else None)
    /\ Sorties.created_by srow = Some 1
    /\ Schema.sortie_references srow (Pg.committed db) = true.
Proof.
  intros E.
  destruct (created_stored _ _ E)
    as (s & c & p & g & srow & crew & pax & crow & s1
        & Hs & Hc & Hp & Hg & Hid & Hnum & Gen & In4 & Row & Acc & F2c & F2p & Hcid
        & S & _).
  exists s, srow.
  destruct (sorties_row_ok _ _ _ _ _ _ _ _ _ _ _ Row)
    as (_ & Hac & Htk & Hld & _ & _ & _ & Hdur & _).
  destruct (sorties_row_fields _ _ _ _ _ _ _ _ _ _ _ Row)
    as (Hmi & Hdep & Harr & Hcm & Hcr & _).
  rewrite integer_of_num in Hcr. cbn in Hcr. apply Ok_inj in Hcr.
  apply accept_row_ok in Acc. destruct Acc as [_ Ref]. cbn [Schema.references] in Ref.
  unfold Input.text, Js.or in Hcm. apply Ok_inj in Hcm.
  repeat (split; [first [assumption | congruence] |]).
  split; [| split; [congruence | assumption]].
  rewrite <- Hcm. destruct (Js.truthy (Server.comments s)); reflexivity.
Qed.

(** No stored sortie carries the key of a sortie the store accepts. *)
Lemma accepted_key_is_new (r : Sorties.row) (t : tables) :
  Pg.accept_row (NewSortie r) t = Ok tt ->
  Schema.has_sortie (Sorties.sortie_id r) t = false.
Proof.
  intros Acc. apply accept_row_ok in Acc. destruct Acc as [Acc _].
  cbn [Schema.conflicts] in Acc. unfold Schema.sortie_conflict in Acc.
  unfold Schema.has_sortie.
  destruct (existsb (fun s => Sorties.sortie_id s =? Sorties.sortie_id r) (sorties t))
    eqn:X; [| reflexivity].
  apply existsb_exists in X. destruct X as (s & Hin & Hs).
  assert (T : existsb
                (fun s0 => (Sorties.sortie_id s0 =? Sorties.sortie_id r)
                           || (Sorties.sortie_number s0 =? Sorties.sortie_number r)%string)
                (sorties t) = true).
  { apply existsb_exists. exists s. split; [assumption |]. now rewrite Hs. }
  congruence.
Qed.

Lemma filter_none {A} (f : A -> bool) (l : list A) :
  Forall (fun a => f a = false) l -> filter f l = [].
Proof. induction 1 as [| a l Ha _ IH]; cbn; [reflexivity | now rewrite Ha]. Qed.

Lemma filter_all {A} (f : A -> bool) (l : list A) :
  Forall (fun a => f a = true) l -> filter f l = l.
Proof. induction 1 as [| a l Ha _ IH]; cbn; [reflexivity | rewrite Ha; now f_equal]. Qed.

(** The rows of a fresh key: no child row points at it yet. *)
Lemma no_children_yet (k : Z) (t : tables) :
  integrity t -> Schema.has_sortie k t = false ->
  Forall (fun c => (SortieCrew.sortie_id c =? k) = false) (sortie_crew t)
  /\ Forall (fun c => (SortiePassengers.sortie_id c =? k) = false) (sortie_passengers t)
  /\ Forall (fun c => (SortieCargo.sortie_id c =? k) = false) (sortie_cargo t).
Proof.
  intros (_ & Ic & Ip & Ig) Hk.
  split; [| split].
  - eapply Forall_impl; [| exact Ic]. cbv beta. intros r Hr.
    cbn [Schema.references] in Hr.
    destruct (Z.eqb_spec (SortieCrew.sortie_id r) k) as [Ek | _]; [| reflexivity].
    rewrite Ek, Hk in Hr. discriminate.
  - eapply Forall_impl; [| exact Ip]. cbv beta. intros r Hr.
    cbn [Schema.references] in Hr.
    destruct (Z.eqb_spec (SortiePassengers.sortie_id r) k) as [Ek | _]; [| reflexivity].
    rewrite Ek, Hk in Hr. discriminate.
  - eapply Forall_impl; [| exact Ig]. cbv beta. intros r Hr.
    cbn [Schema.references] in Hr.
    destruct (Z.eqb_spec (SortieCargo.sortie_id r) k) as [Ek | _]; [| reflexivity].
    rewrite Ek, Hk in Hr. discriminate.
Qed.

(** X10.  What POST /api/sorties created, GET /api/sorties/:id returns.
    In a store whose foreign keys hold, the identifier a successful call
    answers, written in decimal as the [:id] of the path, fetches the
    sortie row with the answered number, exactly the crew and passenger
    rows the call added, and its cargo row: the [cargo] of the answer
    is not [null]. *)
Theorem created_sortie_is_fetched body db sortieId sortieNumber db' c' :
  integrity (Pg.committed db) ->
  Pg.run (Server.create_sortie body) db Pg.Idle
  = (Ok (Server.Created sortieId sortieNumber), db', c') ->
  exists k srow crew pax crow,
    sortieId = Js.Num k
    /\ sortieNumber = Js.Str (Sorties.sortie_number srow)
    /\ Routes.get_sortie_by_id (Text.of_Z k) (Pg.committed db')
       = Routes.Found srow crew pax (Some crow)
    /\ sorties (Pg.committed db') = (sorties (Pg.committed db) ++ [srow])%list
    /\ sortie_crew (Pg.committed db') = (sortie_crew (Pg.committed db) ++ crew)%list
    /\ sortie_passengers (Pg.committed db')
       = (sortie_passengers (Pg.committed db) ++ pax)%list
    /\ sortie_cargo (Pg.committed db') = (sortie_cargo (Pg.committed db) ++ [crow])%list.
Proof.
  intros Int E.
  destruct (created_stored _ _ E)
    as (s & c & p & g & srow & crew & pax & crow & s1
        & Hs & Hc & Hp & Hg & Hid & Hnum & Gen & In4 & Row & Acc & F2c & F2p & Hcid
        & S & Cr & Pa & Ca & _).
  exists (Sorties.sortie_id srow), srow, crew, pax, crow.
  repeat (split; [assumption |]). split; [| auto].
  set (k := Sorties.sortie_id srow) in *.
  pose proof (@accepted_key_is_new _ _ Acc) as New. fold k in New.
  destruct (@no_children_yet _ _ Int New) as (Nc & Np & Ng).
  unfold Routes.get_sortie_by_id, Input.integer, Text.cast_integer.
  cbn [Js.prepareValue]. rewrite to_Z_of_Z, In4. cbn [rbind].
  rewrite S, Cr, Pa, Ca, !filter_app.
  rewrite (@filter_none _ _ _ Nc), (@filter_none _ _ _ Np), (@filter_none _ _ _ Ng).
  replace (filter (fun s0 => Sorties.sortie_id s0 =? k) (sorties (Pg.committed db)))
    with (@nil Sorties.row).
  2:{ symmetry. apply filter_none. unfold Schema.has_sortie in New.
      apply Forall_forall. intros s0 Hin.
      destruct (Sorties.sortie_id s0 =? k) eqn:X; [| reflexivity].
      assert (existsb (fun s1 => Sorties.sortie_id s1 =? k) (sorties (Pg.committed db))
              = true) by (apply existsb_exists; eauto).
      congruence. }
  cbn [app filter]. unfold k at 1. rewrite Z.eqb_refl.
  rewrite Hcid. fold k. rewrite Z.eqb_refl. cbn [hd_error].
  rewrite Hid in F2c, F2p. fold k in F2c, F2p.
  f_equal.
  - apply filter_all. eapply Forall2_right; [exact F2c |].
    intros e r (R & _). rewrite integer_of_num, In4 in R.
    apply Ok_inj in R. inversion R as [R']. apply Z.eqb_refl.
  - apply filter_all. eapply Forall2_right; [exact F2p |].
    intros e r (R & _). rewrite integer_of_num, In4 in R.
    apply Ok_inj in R. inversion R as [R']. apply Z.eqb_refl.
Qed.

(** *** Foreign keys *)

Lemma has_sortie_add_row (k : Z) (n : new_row) (t : tables) :
  Schema.has_sortie k t = true -> Schema.has_sortie k (Schema.add_row n t) = true.
Proof.
  unfold Schema.has_sortie. destruct n; cbn [Schema.add_row sorties]; try tauto.
  intros H. rewrite existsb_app, H. reflexivity.
Qed.

Lemma references_add_row (m n : new_row) (t : tables) :
  Schema.references m t = true -> Schema.references m (Schema.add_row n t) = true.
Proof.
  destruct m as [r | r | r | r]; cbn [Schema.references].
  - unfold Schema.sortie_references, Schema.has_aircraft.
    destruct n; cbn [Schema.add_row aircraft locations users]; tauto.
  - intros H. apply andb_true_iff in H. destruct H as [A B].
    rewrite (has_sortie_add_row _ n _ A).
    destruct n; cbn [Schema.add_row personnel]; assumption.
  - apply has_sortie_add_row.
  - apply has_sortie_add_row.
Qed.

Lemma integrity_add_row (n : new_row) (t : tables) :
  integrity t -> Schema.references n t = true -> integrity (Schema.add_row n t).
Proof.
  intros (Is & Ic & Ip & Ig) Hn.
  assert (W : forall A (f : A -> new_row) (l : list A),
             Forall (fun r => Schema.references (f r) t = true) l ->
             Forall (fun r => Schema.references (f r) (Schema.add_row n t) = true) l).
  { intros A f l F. eapply Forall_impl; [| exact F]. cbv beta. intros r.
    apply references_add_row. }
  pose proof (references_add_row _ n _ Hn) as Hn'.
  apply (W _ NewSortie) in Is. apply (W _ NewCrew) in Ic.
  apply (W _ NewPassengers) in Ip. apply (W _ NewCargo) in Ig.
  unfold integrity.
  destruct n as [r | r | r | r]; cbn [Schema.add_row sorties sortie_crew sortie_passengers
                                      sortie_cargo];
    repeat split; try assumption;
    apply Forall_app; (split; [assumption | constructor; [exact Hn' | constructor]]).
Qed.

Lemma visible_insert db pend n :
  Pg.visible db (Pg.InTransaction (pend ++ [n]))
  = Schema.add_row n (Pg.visible db (Pg.InTransaction pend)).
Proof. cbn [Pg.visible]. unfold Schema.apply_rows. now rewrite fold_left_app. Qed.

(** One statement keeps the foreign keys, of the committed rows and of
    the rows the connection sees. *)
Lemma exec_integrity (q : Pg.stmt) db c r db' c' :
  Pg.exec q db c = (r, db', c') ->
  integrity (Pg.committed db) /\ integrity (Pg.visible db c) ->
  integrity (Pg.committed db') /\ integrity (Pg.visible db' c').
Proof.
  intros E [Ic Iv].
  destruct (Pg.build q (Pg.seqs db)) as [[s' rb] |] eqn:Hb.
  - rewrite (exec_insert_any q db c Hb) in E.
    destruct c as [| pend |]; [| | inversion E; subst; auto].
    + destruct rb as [n | e]; [| inversion E; subst; auto].
      destruct (Pg.accept_row n _) as [[] | e] eqn:Acc; [| inversion E; subst; auto].
      inversion E; subst; clear E. apply accept_row_ok in Acc. destruct Acc as [_ Ref].
      cbn [Pg.visible Pg.committed Pg.with_committed Pg.with_seqs] in *.
      split; now apply integrity_add_row.
    + destruct rb as [n | e]; [| inversion E; subst; auto].
      destruct (Pg.accept_row n _) as [[] | e] eqn:Acc; [| inversion E; subst; auto].
      inversion E; subst; clear E. apply accept_row_ok in Acc. destruct Acc as [_ Ref].
      split; [exact Ic |].
      change (Pg.visible (Pg.with_seqs db s') (Pg.InTransaction (pend ++ [n])))
        with (Pg.visible db (Pg.InTransaction (pend ++ [n]))).
      rewrite visible_insert. now apply integrity_add_row.
  - destruct (build_none _ _ Hb) as [-> | [-> | [-> | ->]]]; cbn [Pg.exec] in E.
    + destruct c; inversion E; subst; auto.
    + destruct c; inversion E; subst; auto.
    + inversion E; subst. auto.
    + destruct c; try destruct (Schema.generate_sortie_number _ _);
        inversion E; subst; auto.
Qed.

(** X11.  The call keeps the foreign keys.  If before the call every
    sortie points at an aircraft, two locations and a user that exist,
    every crew row at a sortie and a person, every passenger and cargo
    row at a sortie, then it is so after the call, however it ended. *)
Theorem creation_keeps_references body db r db' c' :
  integrity (Pg.committed db) ->
  Pg.run (Server.create_sortie body) db Pg.Idle = (r, db', c') ->
  integrity (Pg.committed db').
Proof.
  intros Int H.
  apply (@run_invariant _
           (fun d c => integrity (Pg.committed d) /\ integrity (Pg.visible d c))) in H.
  - exact (proj1 H).
  - intros q d c0 r0 d' c0' E I0. exact (@exec_integrity _ _ _ _ _ _ E I0).
  - split; assumption.
Qed.

(** *** One cargo row for each sortie *)

(** X12.  One cargo row for each sortie.  The schema lets a sortie have
    any number of cargo rows; the call keeps them at one: if every
    sortie has exactly one cargo row before the call (and the foreign
    keys hold), every sortie has exactly one after it, the new one
    included. *)
Theorem creation_keeps_one_cargo_each body db r db' c' :
  integrity (Pg.committed db) ->
  one_cargo_each (Pg.committed db) ->
  Pg.run (Server.create_sortie body) db Pg.Idle = (r, db', c') ->
  one_cargo_each (Pg.committed db').
Proof.
  intros Int One H.
  destruct (create_sortie_outcome body db) as (resp & db0 & E & Y & P).
  rewrite E in H. inversion H; subst r db0 c'; clear H.
  destruct resp as [sortieId sortieNumber | e]; [| now rewrite (P eq_refl)].
  destruct (created_stored _ _ E)
    as (s & c & p & g & srow & crew & pax & crow & s1
        & Hs & Hc & Hp & Hg & Hid & Hnum & Gen & In4 & Row & Acc & F2c & F2p & Hcid
        & S & Cr & Pa & Ca & _).
  pose proof (@accepted_key_is_new _ _ Acc) as New.
  destruct (@no_children_yet _ _ Int New) as (_ & _ & Ng).
  unfold one_cargo_each, cargo_of in *. rewrite S, Ca.
  apply Forall_app. split.
  - rewrite Forall_forall in One. apply Forall_forall. intros s0 Hin.
    destruct (One _ Hin) as (g0 & Hg0). exists g0.
    rewrite filter_app, Hg0. cbn [filter]. rewrite Hcid.
    destruct (Z.eqb_spec (Sorties.sortie_id srow) (Sorties.sortie_id s0)) as [Ek | _];
      [| reflexivity].
    exfalso. unfold Schema.has_sortie in New.
    assert (existsb (fun s2 => Sorties.sortie_id s2 =? Sorties.sortie_id srow)
                    (sorties (Pg.committed db)) = true)
      by (apply existsb_exists; exists s0; split; [assumption | apply Z.eqb_eq; congruence]).
    congruence.
  - constructor; [| constructor]. exists crow.
    rewrite filter_app, (@filter_none _ _ _ Ng). cbn [app filter].
    now rewrite Hcid, Z.eqb_refl.
Qed.

(** *** Rows are only added *)

(** X13.  The call only adds rows.  However it ends, every row that was
    in [sorties], [sortie_crew], [sortie_passengers] and [sortie_cargo]
    is still there, unchanged and in place, with the new rows after
    them; [users], [locations], [personnel] and [aircraft] are as they
    were. *)
Theorem creation_only_appends body db r db' c' :
  Pg.run (Server.create_sortie body) db Pg.Idle = (r, db', c') ->
  extends (sorties (Pg.committed db)) (sorties (Pg.committed db'))
  /\ extends (sortie_crew (Pg.committed db)) (sortie_crew (Pg.committed db'))
  /\ extends (sortie_passengers (Pg.committed db)) (sortie_passengers (Pg.committed db'))
  /\ extends (sortie_cargo (Pg.committed db)) (sortie_cargo (Pg.committed db'))
  /\ users (Pg.committed db') = users (Pg.committed db)
  /\ locations (Pg.committed db') = locations (Pg.committed db)
  /\ personnel (Pg.committed db') = personnel (Pg.committed db)
  /\ aircraft (Pg.committed db') = aircraft (Pg.committed db).
Proof.
  intros H.
  destruct (create_sortie_outcome body db) as (resp & db0 & E & Y & P).
  rewrite E in H. inversion H; subst r db0 c'; clear H.
  destruct resp as [sortieId sortieNumber | e].
  - destruct (created_stored _ _ E)
      as (s & c & p & g & srow & crew & pax & crow & s1
          & Hs & Hc & Hp & Hg & Hid & Hnum & Gen & In4 & Row & Acc & F2c & F2p & Hcid
          & S & Cr & Pa & Ca & U & L & Pe & A).
    unfold extends. rewrite S, Cr, Pa, Ca. repeat split; eauto.
  - rewrite (P eq_refl). unfold extends.
    repeat split; try reflexivity; exists []; now rewrite app_nil_r.
Qed.

(** *** Identifiers *)

Lemma build_sortie_key (q : Pg.stmt) s s' r :
  Pg.build q s = Some (s', Ok (NewSortie r)) ->
  sorties_sortie_id_seq s' = Sorties.sortie_id r.
Proof.
  destruct q; cbn [Pg.build]; try discriminate.
  - destruct (Schema.sorties_row _ _ _ _ _ _ _ _ _ _ _) as [s0 rr] eqn:Row.
    intros H. inversion H; subst. destruct rr as [row |]; [| discriminate].
    cbn [rbind] in *. match goal with X : Ok _ = Ok _ |- _ => inversion X; subst end.
    now destruct (sorties_row_fields _ _ _ _ _ _ _ _ _ _ _ Row) as (_ & _ & _ & _ & _ & K).
  - destruct (Schema.sortie_crew_row _ _ _ _ _ _) as [s0 [row |]];
      intros H; inversion H.
  - destruct (Schema.sortie_passengers_row _ _ _ _ _ _) as [s0 [row |]];
      intros H; inversion H.
  - destruct (Schema.sortie_cargo_row _ _ _ _ _ _ _) as [s0 [row |]];
      intros H; inversion H.
Qed.

Lemma drawn_later t0 d d' t :
  seqs_le (Pg.seqs d) (Pg.seqs d') -> drawn t0 d t -> drawn t0 d' t.
Proof.
  intros (L & _) D. eapply Forall_impl; [| exact D]. cbv beta.
  intros s [H | H]; [now left | right; lia].
Qed.

Lemma drawn_add_row t0 d n t s' :
  drawn t0 d t ->
  (forall r, n = NewSortie r -> sorties_sortie_id_seq s' = Sorties.sortie_id r) ->
  seqs_le (Pg.seqs d) s' ->
  drawn t0 (Pg.with_seqs d s') (Schema.add_row n t).
Proof.
  intros D K L.
  assert (D' : drawn t0 (Pg.with_seqs d s') t) by (eapply drawn_later; [exact L | exact D]).
  unfold drawn in *.
  destruct n as [r | r | r | r]; cbn [Schema.add_row sorties]; try exact D'.
  apply Forall_app. split; [exact D' |]. constructor; [| constructor].
  right. cbn. rewrite (K r eq_refl). lia.
Qed.

Lemma exec_drawn t0 (q : Pg.stmt) db c r db' c' :
  Pg.exec q db c = (r, db', c') ->
  drawn t0 db (Pg.committed db) /\ drawn t0 db (Pg.visible db c) ->
  drawn t0 db' (Pg.committed db') /\ drawn t0 db' (Pg.visible db' c').
Proof.
  intros E [Dc Dv].
  destruct (Pg.build q (Pg.seqs db)) as [[s' rb] |] eqn:Hb.
  - pose proof (build_seqs _ _ Hb) as L.
    assert (Dc' : drawn t0 (Pg.with_seqs db s') (Pg.committed db))
      by (eapply drawn_later; [exact L | exact Dc]).
    assert (Dv' : drawn t0 (Pg.with_seqs db s') (Pg.visible db c))
      by (eapply drawn_later; [exact L | exact Dv]).
    rewrite (exec_insert_any q db c Hb) in E.
    destruct c as [| pend |]; [| | inversion E; subst; auto].
    + destruct rb as [n | e]; [| inversion E; subst; auto].
      assert (K : forall r0, n = NewSortie r0 ->
                             sorties_sortie_id_seq s' = Sorties.sortie_id r0)
        by (intros r0 ->; eapply build_sortie_key; exact Hb).
      destruct (Pg.accept_row n _) as [[] | e] eqn:Acc; [| inversion E; subst; auto].
      inversion E; subst; clear E.
      cbn [Pg.visible Pg.committed Pg.with_committed Pg.with_seqs] in *.
      pose proof (@drawn_add_row _ _ n _ _ Dc K L) as X. split; exact X.
    + destruct rb as [n | e]; [| inversion E; subst; auto].
      assert (K : forall r0, n = NewSortie r0 ->
                             sorties_sortie_id_seq s' = Sorties.sortie_id r0)
        by (intros r0 ->; eapply build_sortie_key; exact Hb).
      destruct (Pg.accept_row n _) as [[] | e] eqn:Acc; [| inversion E; subst; auto].
      inversion E; subst; clear E.
      split; [exact Dc' |].
      change (Pg.visible (Pg.with_seqs db s') (Pg.InTransaction (pend ++ [n])))
        with (Pg.visible db (Pg.InTransaction (pend ++ [n]))).
      rewrite visible_insert. exact (@drawn_add_row _ _ n _ _ Dv K L).
  - destruct (build_none _ _ Hb) as [-> | [-> | [-> | ->]]]; cbn [Pg.exec] in E.
    + destruct c; inversion E; subst; auto.
    + destruct c; inversion E; subst; auto.
    + inversion E; subst. auto.
    + destruct c; try destruct (Schema.generate_sortie_number _ _);
        inversion E; subst; auto.
Qed.

(** One call: no sequence goes back, and the identifier of a created
    sortie lies above the last key drawn before the call, up to the last
    drawn in it. *)
Lemma create_sortie_key body db r db' c' :
  Pg.run (Server.create_sortie body) db Pg.Idle = (r, db', c') ->
  seqs_le (Pg.seqs db) (Pg.seqs db')
  /\ forall sortieId sortieNumber,
       r = Ok (Server.Created sortieId sortieNumber) ->
       exists k, sortieId = Js.Num k
                 /\ sorties_sortie_id_seq (Pg.seqs db) < k
                    <= sorties_sortie_id_seq (Pg.seqs db').
Proof.
  intros H. split; [exact (@run_seqs _ _ _ _ _ _ _ _ H) |].
  intros sortieId sortieNumber ->.
  destruct (created_stored _ _ H)
    as (s & c & p & g & srow & crew & pax & crow & s1
        & Hs & Hc & Hp & Hg & Hid & Hnum & Gen & In4 & Row & Acc & F2c & F2p & Hcid
        & S & _).
  exists (Sorties.sortie_id srow). split; [assumption |].
  destruct (sorties_row_ok _ _ _ _ _ _ _ _ _ _ _ Row) as (_ & _ & _ & _ & _ & _ & K & _).
  split; [lia |].
  apply (@run_invariant _
           (fun d c => drawn (Pg.committed db) d (Pg.committed d)
                       /\ drawn (Pg.committed db) d (Pg.visible d c))) in H.
  - destruct H as [Dc _]. unfold drawn in Dc. rewrite S in Dc.
    apply Forall_app in Dc. destruct Dc as [_ Dc]. inversion Dc as [| ? ? Hd _]; subst.
    destruct Hd as [Hd | Hd]; [| exact Hd].
    exfalso. pose proof (@accepted_key_is_new _ _ Acc) as New.
    unfold Schema.has_sortie in New.
    assert (existsb (fun s2 => Sorties.sortie_id s2 =? Sorties.sortie_id srow)
                    (sorties (Pg.committed db)) = true)
      by (apply existsb_exists; exists srow; split; [assumption | apply Z.eqb_refl]).
    congruence.
  - intros q d c0 r0 d' c0' E0 I0. exact (@exec_drawn _ _ _ _ _ _ _ E0 I0).
  - assert (D0 : drawn (Pg.committed db) db (Pg.committed db))
      by (apply Forall_forall; intros s0 Hin; now left).
    split; exact D0.
Qed.

(** X14.  Identifiers go up and are not used twice.  However many
    creation calls are served one after the other, failed ones among
    them, the identifiers answered are strictly increasing, each above
    the last key drawn before the calls; no sequence ever goes back.  (A
    call that fails after its sortie INSERT has used up a key: the
    identifiers have gaps.) *)
Theorem identifiers_increase bodies :
  forall db answers db',
    serve bodies db = (answers, db') ->
    exists ks,
      created_ids answers = map Js.Num ks
      /\ StronglySorted Z.lt ks
      /\ Forall (fun k => sorties_sortie_id_seq (Pg.seqs db) < k
                          <= sorties_sortie_id_seq (Pg.seqs db')) ks
      /\ seqs_le (Pg.seqs db) (Pg.seqs db').
Proof.
  induction bodies as [| body rest IH]; intros db answers db' H; cbn [serve] in H.
  - inversion H; subst. exists []. repeat split; try constructor; try lia.
  - destruct (Pg.run (Server.create_sortie body) db Pg.Idle) as [[r db1] c1] eqn:R.
    destruct (serve rest db1) as [answers1 db2] eqn:Sv.
    inversion H; subst answers db'; clear H.
    destruct (IH _ _ _ Sv) as (ks & Ek & Sk & Fk & Lk).
    destruct (@create_sortie_key _ _ _ _ _ R) as [L1 K1].
    assert (Fk' : Forall (fun k => sorties_sortie_id_seq (Pg.seqs db) < k
                                   <= sorties_sortie_id_seq (Pg.seqs db2)) ks).
    { eapply Forall_impl; [| exact Fk]. cbv beta. destruct L1 as (L1 & _). intros k. lia. }
    assert (L2 : seqs_le (Pg.seqs db) (Pg.seqs db2))
      by (eapply seqs_le_trans; eauto).
    destruct r as [[sortieId sortieNumber | e] | e];
      try solve [exists ks; cbn [flat_map app]; auto].
    destruct (K1 _ _ eq_refl) as (k & -> & Hk).
    exists (k :: ks). cbn [created_ids flat_map app map]. fold (created_ids answers1).
    rewrite Ek. split; [reflexivity |]. split; [| split; [| exact L2]].
    + constructor; [exact Sk |]. eapply Forall_impl; [| exact Fk]. cbv beta.
      intros k'. lia.
    + constructor; [| exact Fk']. destruct Lk as (Lk & _). lia.
Qed.

End Extras.

(** ** Status changes, durations and routes *)

(** What an UPDATE of the one row with the key does to the aircraft. *)
Lemma update_sorties_aircraft t id u t' old :
  filter (keyed id) (sorties t) = [old] ->
  Schema.update_sorties id u t = Ok t' ->
  let new := Schema.assign u old in
  filter (keyed id) (sorties t') = [new]
  /\ aircraft t'
     = if entering old new
       then map (credit (Sorties.aircraft_id new) (Sorties.flight_duration_minutes new))
                (aircraft t)
       else aircraft t.
Proof.
  intros F H new.
  destruct (@update_sorties_one t id u t' old F H) as (l & Hl & Chk & Trg).
  fold new in Chk, Trg.
  assert (Hm : 0 <= Sorties.flight_duration_minutes new).
  { apply generated_flight_duration_nonneg.
    unfold Schema.sortie_checks in Chk. unbind Chk. unseal. assumption. }
  assert (S : forall t0, sorties t0 = l -> filter (keyed id) (sorties t0) = [new]).
  { intros t0 ->. rewrite Hl, filter_updated, F. reflexivity. }
  unfold Schema.trg_update_aircraft_hours, Schema.update_aircraft_flight_hours in Trg.
  unfold entering.
  destruct (Schema.taken (Schema.sql_eq (Sorties.sortie_status new) "Completed")) eqn:W.
  - destruct (Schema.taken
                (Schema.sql_and (Schema.sql_eq (Sorties.sortie_status new) "Completed")
                                (Schema.sql_neq (Sorties.sortie_status old) "Completed"))).
    + unbind Trg. apply Ok_inj in Trg. subst t'.
      apply add_flight_hours_ok in E; [| assumption].
      split; [now apply S | exact E].
    + apply Ok_inj in Trg. subst t'. split; [now apply S | reflexivity].
  - apply Ok_inj in Trg. subst t'. split; [now apply S |].
    destruct (Sorties.sortie_status new) as [sn |]; cbn in W |- *;
      [destruct (sn =? "Completed")%string; [discriminate |] |];
      destruct (Sorties.sortie_status old) as [so |]; cbn; try reflexivity;
      destruct (so =? "Completed")%string; reflexivity.
Qed.

(** X15.  The flight hours count transitions, not sorties.  Completing
    a sortie credits its aircraft; setting it back to another status
    takes nothing off; completing it again credits the same minutes
    once more. *)
Theorem recompletion_credits_again t id old s0 s1 t1 t2 t3 :
  filter (keyed id) (sorties t) = [old] ->
  Sorties.sortie_status old = Some s0 ->
  s0 <> "Completed" ->
  s1 <> "Completed" ->
  Schema.update_sorties id (only_status "Completed") t = Ok t1 ->
  Schema.update_sorties id (only_status s1) t1 = Ok t2 ->
  Schema.update_sorties id (only_status "Completed") t2 = Ok t3 ->
  let minutes :=
    Schema.generated_flight_duration (Sorties.takeoff_time old) (Sorties.landing_time old) in
  aircraft t1 = map (credit (Sorties.aircraft_id old) minutes) (aircraft t)
  /\ aircraft t2 = aircraft t1
  /\ aircraft t3 = map (credit (Sorties.aircraft_id old) minutes) (aircraft t1).
Proof.
  intros F S0 N0 N1 U1 U2 U3 minutes.
  destruct (@update_sorties_aircraft _ _ _ _ _ F U1) as [F1 A1]. cbv zeta in F1, A1.
  destruct (@update_sorties_aircraft _ _ _ _ _ F1 U2) as [F2 A2]. cbv zeta in F2, A2.
  destruct (@update_sorties_aircraft _ _ _ _ _ F2 U3) as [F3 A3]. cbv zeta in F3, A3.
  apply String.eqb_neq in N0, N1.
  unfold entering in A1, A2, A3.
  cbn [Schema.assign only_status Schema.set_sortie_status Schema.coalesce
       Sorties.sortie_status Schema.set_aircraft_id Schema.set_takeoff_time
       Schema.set_landing_time Sorties.aircraft_id Sorties.takeoff_time
       Sorties.landing_time Sorties.flight_duration_minutes] in A1, A2, A3.
  rewrite S0 in A1.
  cbn [Schema.sql_eq Schema.sql_neq Schema.sql_and Schema.taken option_map] in A1, A2, A3.
  rewrite N0 in A1. rewrite N1 in A2.
  cbn [String.eqb Ascii.eqb Bool.eqb negb Schema.sql_and Schema.taken] in A1, A2, A3.
  rewrite N1 in A3. cbn [negb Schema.sql_and Schema.taken] in A3.
  fold minutes in A1, A3. rewrite A2 in A3. auto.
Qed.

(** X16.  [flight_duration_minutes] is the time from takeoff to landing
    rounded to the nearest minute, half a minute going up: it differs
    from the time flown by 30 seconds at most, and a flight of less than
    30 seconds counts 0 minutes. *)
Theorem flight_duration_is_rounded (takeoff landing : Z) :
  takeoff < landing ->
  let minutes := Schema.generated_flight_duration takeoff landing in
  0 <= minutes
  /\ 60000000 * minutes - 30000000 <= landing - takeoff < 60000000 * minutes + 30000000.
Proof.
  intros H minutes. unfold minutes, Schema.generated_flight_duration, Schema.div_round.
  replace (0 <=? landing - takeoff) with true by (symmetry; apply Z.leb_le; lia).
  pose proof (Z.div_mod (2 * (landing - takeoff) + 60000000) (2 * 60000000) ltac:(lia)) as D.
  pose proof (Z.mod_pos_bound (2 * (landing - takeoff) + 60000000) (2 * 60000000)
                ltac:(lia)) as B.
  split; [apply Z.div_pos; lia | lia].
Qed.

(** X17.  The creation route is the only one that is not a GET.  A
    request that reaches a handler is a POST on the path /api/sorties,
    which reaches the creation handler, or a GET or HEAD, which reaches
    another handler; a PUT, a DELETE, and a POST to any other path
    reach none. *)
Theorem only_post_writes (m : Routes.method) (path : string) (h : Routes.handler)
    (params : list (string * string)) :
  Routes.dispatch m path = Some (h, params) ->
  (m = Routes.POST /\ h = Routes.CreateSortie
   /\ Routes.match_path [Routes.Lit "api"; Routes.Lit "sorties"] path = Some params)
  \/ ((m = Routes.GET \/ m = Routes.HEAD) /\ h <> Routes.CreateSortie).
Proof.
  unfold Routes.dispatch, Routes.routes.
  cbn [Routes.first_match Routes.verb Routes.pattern Routes.target].
  destruct m; cbn [Routes.answers Routes.method_eqb orb andb];
    try discriminate;
    repeat match goal with
           | |- context [match Routes.match_path ?p path with _ => _ end] =>
               destruct (Routes.match_path p path) eqn:?
           end;
    intros H; inversion H; subst;
    try (right; split; [auto | discriminate]).
  left. repeat split.
Qed.

(** ** Search and listing *)

Lemma filter_by_shape v v' clause p p' st st' s1 s1' :
  Query.truthy v = Query.truthy v' ->
  shape st = shape st' ->
  Search.filter_by v clause p st = Ok s1 ->
  Search.filter_by v' clause p' st' = Ok s1' ->
  shape s1 = shape s1'.
Proof.
  intros Hv Hs. unfold Search.filter_by. rewrite Hv.
  destruct (Query.truthy v'); [| congruence].
  destruct p as [x |]; [| discriminate]. destruct p' as [x' |]; [| discriminate].
  cbn [rbind]. intros E E'. apply Ok_inj in E, E'. subst s1 s1'.
  unfold shape in *. cbn [Search.query Search.params Search.paramCount].
  inversion Hs as [[Hq Hc Hl]]. rewrite Hq, Hc, !List.length_app, Hl. reflexivity.
Qed.

Ltac steps H :=
  unfold Search.build in H; cbv zeta in H;
  repeat match type of H with
         | rbind ?r _ = Ok _ =>
             let a := fresh "st" in
             let E := fresh "E" in
             destruct r as [a |] eqn:E; cbn [rbind] in H; [| discriminate H]
         end;
  apply Ok_inj in H.

Lemma build_shape (q q' : Search.query_t) (st st' : Search.state) :
  Query.truthy (Search.aircraft q) = Query.truthy (Search.aircraft q') ->
  Query.truthy (Search.location q) = Query.truthy (Search.location q') ->
  Query.truthy (Search.missionType q) = Query.truthy (Search.missionType q') ->
  Query.truthy (Search.startDate q) = Query.truthy (Search.startDate q') ->
  Query.truthy (Search.endDate q) = Query.truthy (Search.endDate q') ->
  Query.truthy (Search.sortieNumber q) = Query.truthy (Search.sortieNumber q') ->
  Search.build q = Ok st ->
  Search.build q' = Ok st' ->
  shape st = shape st'.
Proof.
  intros H1 H2 H3 H4 H5 H6 B B'. steps B. steps B'.
  pose proof (@filter_by_shape _ _ _ _ _ _ _ _ _ H1 eq_refl E E5) as S1.
  pose proof (@filter_by_shape _ _ _ _ _ _ _ _ _ H2 S1 E0 E6) as S2.
  pose proof (@filter_by_shape _ _ _ _ _ _ _ _ _ H3 S2 E1 E7) as S3.
  pose proof (@filter_by_shape _ _ _ _ _ _ _ _ _ H4 S3 E2 E8) as S4.
  pose proof (@filter_by_shape _ _ _ _ _ _ _ _ _ H5 S4 E3 E9) as S5.
  pose proof (@filter_by_shape _ _ _ _ _ _ _ _ _ H6 S5 E4 E10) as S6.
  subst st st'. unfold shape in *. cbn [Search.query Search.params Search.paramCount].
  inversion S6 as [[Hq Hc Hl]]. congruence.
Qed.

(** X18.  The text of the statement the search handler builds depends
    on which filters are given, not on what they hold: for two query
    strings with the same filters present (truthy) it builds the same
    text.  What the client sent is in the parameters only. *)
Theorem search_text_ignores_values (q q' : Search.query_t) (st st' : Search.state) :
  Query.truthy (Search.aircraft q) = Query.truthy (Search.aircraft q') ->
  Query.truthy (Search.location q) = Query.truthy (Search.location q') ->
  Query.truthy (Search.missionType q) = Query.truthy (Search.missionType q') ->
  Query.truthy (Search.startDate q) = Query.truthy (Search.startDate q') ->
  Query.truthy (Search.endDate q) = Query.truthy (Search.endDate q') ->
  Query.truthy (Search.sortieNumber q) = Query.truthy (Search.sortieNumber q') ->
  Search.build q = Ok st ->
  Search.build q' = Ok st' ->
  Search.query st = Search.query st'.
Proof.
  intros H1 H2 H3 H4 H5 H6 B B'.
  pose proof (@build_shape q q' st st' H1 H2 H3 H4 H5 H6 B B') as E.
  unfold shape in E. now inversion E.
Qed.

Lemma given_filters_bound (b1 b2 b3 b4 b5 b6 : bool) :
  exists st, Search.build (given_filters b1 b2 b3 b4 b5 b6) = Ok st
             /\ bound (shape st) = true.
Proof.
  destruct b1, b2, b3, b4, b5, b6; eexists; split;
    try (vm_compute; reflexivity).
Qed.

(** X19.  The placeholders of the statement the search handler builds
    and its parameters agree: whatever filters are given, the text
    refers to the parameters 1 to n, in this order and with no gap, n
    being the number of values in [params]; [paramCount] ends at
    n + 1. *)
Theorem search_placeholders_are_bound (q : Search.query_t) (st : Search.state) :
  Search.build q = Ok st ->
  nodup Z.eq_dec (Search.placeholders (Search.query st))
  = map Z.of_nat (seq 1 (List.length (Search.params st)))
  /\ Search.paramCount st = Z.of_nat (List.length (Search.params st)) + 1.
Proof.
  intros Bq.
  destruct (given_filters_bound (Query.truthy (Search.aircraft q))
                                (Query.truthy (Search.location q))
                                (Query.truthy (Search.missionType q))
                                (Query.truthy (Search.startDate q))
                                (Query.truthy (Search.endDate q))
                                (Query.truthy (Search.sortieNumber q)))
    as (st' & Bg & B).
  assert (G : forall b, b = Query.truthy (given b)) by (intros []; reflexivity).
  pose proof (@build_shape q
                (given_filters (Query.truthy (Search.aircraft q))
                               (Query.truthy (Search.location q))
                               (Query.truthy (Search.missionType q))
                               (Query.truthy (Search.startDate q))
                               (Query.truthy (Search.endDate q))
                               (Query.truthy (Search.sortieNumber q)))
                st st' (G _) (G _) (G _) (G _) (G _) (G _) Bq Bg) as E.
  rewrite <- E in B.
  unfold bound, shape in B. apply andb_true_iff in B. destruct B as [B1 B2].
  destruct (list_eq_dec Z.eq_dec _ _) as [Eq |]; [| discriminate].
  apply Z.eqb_eq in B2. auto.
Qed.

(** The search is refused before any statement only for a number
    filter that has no text. *)
Lemma build_fails (q : Search.query_t) (e : exn) :
  Search.build q = Err e ->
  Query.truthy (Search.sortieNumber q) = true
  /\ Query.to_string (Search.sortieNumber q) = Err e.
Proof.
  unfold Search.build. cbv zeta.
  repeat match goal with
         | |- rbind (Search.filter_by ?v ?c (Ok ?p) ?s) _ = Err _ -> _ =>
             let E := fresh "E" in
             let a := fresh "st" in
             destruct (Search.filter_by v c (Ok p) s) as [a |] eqn:E;
             [cbn [rbind]
             | unfold Search.filter_by in E; destruct (Query.truthy v); discriminate E]
         end.
  unfold Search.filter_by at 1.
  destruct (Query.truthy (Search.sortieNumber q)); [| discriminate].
  destruct (Query.to_string (Search.sortieNumber q)); cbn [rbind]; [discriminate |].
  intros H. inversion H. auto.
Qed.

(** ** Numbers read back by parseInt *)


Lemma leading_printed (d : Decimal.uint) :
  forall acc,
    d <> Decimal.Nil \/ acc <> None ->
    Listing.leading Listing.dec_digit 10 acc (NilEmpty.string_of_uint d)
    = Some (uint_value (Schema.coalesce acc 0) d).
Proof.
  induction d; intros acc H;
    try (cbn [NilEmpty.string_of_uint Listing.leading uint_value];
         unfold Listing.dec_digit at 1; change (Text.is_digit _) with true; cbv iota;
         rewrite IHd by (right; discriminate); reflexivity).
  destruct H as [H | H]; [congruence |].
  destruct acc; [reflexivity | congruence].
Qed.

Lemma printed_is_decimal (d : Decimal.uint) :
  match NilEmpty.string_of_uint d with
  | String c (String x r) =>
      if Ascii.eqb c "0" && (Ascii.eqb x "x" || Ascii.eqb x "X")
      then Listing.leading Listing.hex_digit 16 None r
      else Listing.leading Listing.dec_digit 10 None (NilEmpty.string_of_uint d)
  | _ => Listing.leading Listing.dec_digit 10 None (NilEmpty.string_of_uint d)
  end
  = Listing.leading Listing.dec_digit 10 None (NilEmpty.string_of_uint d).
Proof.
  destruct d as [| d | d | d | d | d | d | d | d | d | d]; try reflexivity;
    destruct d; reflexivity.
Qed.

Lemma printed_head_plain (p : positive) :
  exists c r, NilEmpty.string_of_uint (Pos.to_uint p) = String c r
              /\ Listing.skip_blanks (String c r) = String c r
              /\ c <> "-"%char /\ c <> "+"%char.
Proof.
  pose proof (DecimalPos.Unsigned.to_uint_nonnil p) as Hnil.
  destruct (Pos.to_uint p) as [| d | d | d | d | d | d | d | d | d | d];
    try congruence;
    cbn [NilEmpty.string_of_uint]; eexists; eexists;
    (split; [reflexivity | split; [| split; discriminate]]);
    destruct (NilEmpty.string_of_uint d) as [| x [| y r]]; reflexivity.
Qed.

Lemma parseInt_positive (p : positive) :
  Listing.parseInt (NilEmpty.string_of_uint (Pos.to_uint p))
  = if Zpos p <=? Listing.max_safe then Listing.Int (Zpos p) else Listing.Big.
Proof.
  unfold Listing.parseInt.
  destruct (printed_head_plain p) as (c & r & E & Hs & Hm & Hp).
  pose proof (printed_is_decimal (Pos.to_uint p)) as D.
  pose proof (@leading_printed (Pos.to_uint p) None
                (or_introl (DecimalPos.Unsigned.to_uint_nonnil p))) as L.
  rewrite uint_value_of_uint, DecimalPos.Unsigned.of_to in L. cbn [Z.of_N] in L.
  rewrite E in *. rewrite Hs.
  apply Ascii.eqb_neq in Hm, Hp. rewrite Hm, Hp. cbn [orb].
  cbv zeta. rewrite D, L. reflexivity.
Qed.

Lemma skip_blanks_minus (s : string) : Listing.skip_blanks (String "-" s) = String "-" s.
Proof. destruct s as [| x [| y r]]; reflexivity. Qed.

(** Reading the printed text of an integer gives the integer back, up
    to [2^53]. *)
Lemma parseInt_of_Z (n : Z) :
  Z.abs n <= Listing.max_safe -> Listing.parseInt (Text.of_Z n) = Listing.Int n.
Proof.
  intros Hn. unfold Text.of_Z.
  destruct n as [| p | p]; cbn [Z.to_int]; [reflexivity | |];
    unfold NilZero.string_of_int, NilZero.string_of_uint;
    replace (match Pos.to_uint p with
             | Decimal.Nil => "0"
             | _ => NilEmpty.string_of_uint (Pos.to_uint p)
             end) with (NilEmpty.string_of_uint (Pos.to_uint p))
      by (pose proof (DecimalPos.Unsigned.to_uint_nonnil p);
          destruct (Pos.to_uint p); congruence).
  - rewrite parseInt_positive.
    replace (Zpos p <=? Listing.max_safe) with true by (symmetry; apply Z.leb_le; lia).
    reflexivity.
  - pose proof (parseInt_positive p) as P.
    replace (Zpos p <=? Listing.max_safe) with true in P
      by (symmetry; apply Z.leb_le; lia).
    unfold Listing.parseInt in *.
    destruct (printed_head_plain p) as (c & r & E & Hs & Hm & Hp).
    rewrite E in *. rewrite Hs in P. rewrite skip_blanks_minus.
    change (Ascii.eqb "-" "-") with true. cbn [orb].
    apply Ascii.eqb_neq in Hm, Hp. rewrite Hm, Hp in P. cbn [orb] in P.
    cbv zeta in P |- *.
    destruct (match r with
              | String x r0 =>
                  if Ascii.eqb c "0" && (Ascii.eqb x "x" || Ascii.eqb x "X")
                  then Listing.leading Listing.hex_digit 16 None r0
                  else Listing.leading Listing.dec_digit 10 None (String c r)
              | EmptyString => Listing.leading Listing.dec_digit 10 None (String c r)
              end) as [m |]; [| discriminate].
    destruct (m <=? Listing.max_safe); [| discriminate].
    inversion P; subst. reflexivity.
Qed.

(** X20.  The page of GET /api/sorties.  The limit sent to the store is
    never zero and never unreadable: a limit that is missing, zero or
    does not start with a number becomes 50, an offset 0.  Any other
    integer goes through as it is: there is no largest page, and a
    negative limit is sent as such.  The text is read as [parseInt]
    reads it: up to the first character that is no digit, in base 16
    after [0x]; of a key given twice, the first value. *)
Theorem page_parameters :
  (forall v n, Listing.limit v = Ok n -> n <> Listing.NaN /\ n <> Listing.Int 0)
  /\ (forall v n, Listing.offset v = Ok n -> n <> Listing.NaN)
  /\ (forall v s, Query.to_string v = Ok s ->
                  Listing.parseInt s = Listing.NaN \/ Listing.parseInt s = Listing.Int 0 ->
                  Listing.limit v = Ok (Listing.Int 50)
                  /\ Listing.offset v = Ok (Listing.Int 0))
  /\ (forall n, n <> 0 -> Z.abs n <= Listing.max_safe ->
                Listing.limit (Query.Text (Text.of_Z n)) = Ok (Listing.Int n)
                /\ Listing.offset (Query.Text (Text.of_Z n)) = Ok (Listing.Int n))
  /\ Listing.limit Query.Absent = Ok (Listing.Int 50)
  /\ Listing.limit (Query.Text "") = Ok (Listing.Int 50)
  /\ Listing.limit (Query.Text "0") = Ok (Listing.Int 50)
  /\ Listing.limit (Query.Text "ten") = Ok (Listing.Int 50)
  /\ Listing.limit (Query.Text " 10 per page") = Ok (Listing.Int 10)
  /\ Listing.limit (Query.Text "0x10") = Ok (Listing.Int 16)
  /\ Listing.limit (Query.Text "-5") = Ok (Listing.Int (- 5))
  /\ Listing.limit (Query.Many [Query.Text "7"; Query.Text "9"]) = Ok (Listing.Int 7).
Proof.
  split; [| split; [| split; [| split]]].
  - intros v n. unfold Listing.limit, Listing.or.
    destruct (Query.to_string v) as [s |]; cbn [rbind]; [| discriminate].
    intros H. apply Ok_inj in H. subst n.
    destruct (Listing.parseInt s) as [| [| p | p] |]; split; discriminate.
  - intros v n. unfold Listing.offset, Listing.or.
    destruct (Query.to_string v) as [s |]; cbn [rbind]; [| discriminate].
    intros H. apply Ok_inj in H. subst n.
    destruct (Listing.parseInt s) as [| [| p | p] |]; discriminate.
  - intros v s E [H | H]; unfold Listing.limit, Listing.offset; rewrite E; cbn [rbind];
      rewrite H; split; reflexivity.
  - intros n N0 Hn. unfold Listing.limit, Listing.offset. cbn [Query.to_string rbind].
    rewrite (parseInt_of_Z _ Hn). destruct n; [congruence | |]; split; reflexivity.
  - repeat split; vm_compute; reflexivity.
Qed.

(** ** The further properties on the sample data *)

(** X1 at work: the number after the seven sorties of 2024. *)
Lemma generated_number_is_fresh_witness :
  0 <= 2024 <= 9999
  /\ Schema.year_sequence (Text.to_char_yyyy 2024) Sample.seven = Ok [1; 2; 3; 4; 5; 6; 7]
  /\ Forall (fun n => 0 <= n < 9999) [1; 2; 3; 4; 5; 6; 7]
  /\ Schema.generate_sortie_number 2024 Sample.seven = Ok "S-2024-0008"
  /\ ~ In "S-2024-0008" (numbers Sample.seven).
Proof.
  assert (Y : 0 <= 2024 <= 9999) by lia.
  assert (S : Schema.year_sequence (Text.to_char_yyyy 2024) Sample.seven
              = Ok [1; 2; 3; 4; 5; 6; 7]) by (vm_compute; reflexivity).
  assert (B : Forall (fun n => 0 <= n < 9999) [1; 2; 3; 4; 5; 6; 7])
    by (repeat constructor; lia).
  assert (G : Schema.generate_sortie_number 2024 Sample.seven = Ok "S-2024-0008")
    by (vm_compute; reflexivity).
  split; [exact Y |]. split; [exact S |]. split; [exact B |]. split; [exact G |].
  exact (@generated_number_is_fresh 2024 Sample.seven _ _ Y S B G).
Defined.

(** X2 at work: the first sortie of 2025 after the seven of 2024. *)
Lemma numbering_restarts_each_year_witness :
  0 <= 2025 <= 9999
  /\ Forall (of_other_year 2025) (sorties Sample.seven)
  /\ Schema.generate_sortie_number 2025 Sample.seven
     = Ok ("S-" ++ Text.to_char_yyyy 2025 ++ "-0001").
Proof.
  assert (Y : 0 <= 2025 <= 9999) by lia.
  assert (F : Forall (of_other_year 2025) (sorties Sample.seven)).
  { repeat constructor;
      (exists 2024; eexists; split; [lia | split; [lia | reflexivity]]). }
  split; [exact Y |]. split; [exact F |].
  exact (@numbering_restarts_each_year 2025 Sample.seven Y F).
Defined.

(** X3 at work: a sortie numbered S-2024-TEST by hand. *)
Lemma unreadable_number_blocks_creation_witness :
  let s := Sample.numbered 2 "S-2024-TEST" in
  0 <= Pg.current_year Cases.mislabelled <= 9999
  /\ In s (sorties (Pg.committed Cases.mislabelled))
  /\ Text.like ("S-" ++ Text.to_char_yyyy (Pg.current_year Cases.mislabelled) ++ "-%")
               (Sorties.sortie_number s) = true
  /\ Text.cast_integer (Text.substring_from (Sorties.sortie_number s) 8)
     = Err InvalidTextRepresentation
  /\ exists e',
       Schema.generate_sortie_number (Pg.current_year Cases.mislabelled)
                                     (Pg.committed Cases.mislabelled) = Err e'
       /\ forall body,
            Pg.run (store := Iso.store) (Server.create_sortie body) Cases.mislabelled Pg.Idle
            = (Ok (Server.Failed e'), Cases.mislabelled, Pg.Idle).
Proof.
  intros s.
  assert (Y : 0 <= Pg.current_year Cases.mislabelled <= 9999) by (cbn; lia).
  assert (I : In s (sorties (Pg.committed Cases.mislabelled)))
    by (right; left; reflexivity).
  assert (L : Text.like ("S-" ++ Text.to_char_yyyy (Pg.current_year Cases.mislabelled)
                         ++ "-%") (Sorties.sortie_number s) = true)
    by (vm_compute; reflexivity).
  assert (C : Text.cast_integer (Text.substring_from (Sorties.sortie_number s) 8)
              = Err InvalidTextRepresentation) by (vm_compute; reflexivity).
  split; [exact Y |]. split; [exact I |]. split; [exact L |]. split; [exact C |].
  exact (@unreadable_number_blocks_creation Iso.store Cases.mislabelled s _ Y I L C).
Defined.

(** X5 at work: a pilot and a crew member whose position has sixty
    letters of two bytes each; the position is stored as it is. *)
Lemma stored_crew_rows_witness :
  Pg.run (store := Iso.store) (Server.create_sortie Cases.with_long_position)
         Sample.busy Pg.Idle
  = (Ok (Server.Created (Js.Num 8) (Js.Str "S-2024-0008")),
     Cases.recorded_long_position, Pg.Idle)
  /\ Text.char_length (Cases.letters 60) = 60%nat
  /\ String.length (Cases.letters 60) = 120%nat
  /\ map SortieCrew.crew_position_other
         (sortie_crew (Pg.committed Cases.recorded_long_position))
     = [None; Some (Cases.letters 60)]
  /\ exists c rows,
       Server.crew Cases.with_long_position = Some c
       /\ sortie_crew (Pg.committed Cases.recorded_long_position)
          = (sortie_crew (Pg.committed Sample.busy) ++ rows)%list
       /\ Forall2 (crew_row_of (Js.Num 8)) (filter named (slots c)) rows.
Proof.
  assert (H : Pg.run (store := Iso.store) (Server.create_sortie Cases.with_long_position)
                     Sample.busy Pg.Idle
              = (Ok (Server.Created (Js.Num 8) (Js.Str "S-2024-0008")),
                 Cases.recorded_long_position, Pg.Idle))
    by (vm_compute; reflexivity).
  split; [exact H |].
  split; [vm_compute; reflexivity |]. split; [vm_compute; reflexivity |].
  split; [vm_compute; reflexivity |].
  exact (@stored_crew_rows Iso.store _ _ _ _ _ _ H).
Defined.

(** X6 at work: a crew chief without the text of a position. *)
Lemma additional_without_position_rejected_witness :
  Server.crew Cases.with_unlabelled = Some Cases.crew_with_unlabelled
  /\ Server.additional Cases.crew_with_unlabelled = Some [Cases.unlabelled]
  /\ In Cases.unlabelled [Cases.unlabelled]
  /\ Js.truthy (Server.name Cases.unlabelled) = true
  /\ Js.prepareValue (Server.position Cases.unlabelled) = None
  /\ exists e db',
       Pg.run (store := Iso.store) (Server.create_sortie Cases.with_unlabelled)
              Sample.busy Pg.Idle
       = (Ok (Server.Failed e), db', Pg.Idle)
       /\ Pg.committed db' = Pg.committed Sample.busy.
Proof.
  assert (I : In Cases.unlabelled [Cases.unlabelled]) by (left; reflexivity).
  split; [reflexivity |]. split; [reflexivity |]. split; [exact I |].
  split; [reflexivity |]. split; [reflexivity |].
  exact (@additional_without_position_rejected Iso.store Cases.with_unlabelled Sample.busy
           Cases.crew_with_unlabelled [Cases.unlabelled] Cases.unlabelled
           eq_refl eq_refl I eq_refl eq_refl).
Defined.

(** X7 at work: the passengers of the sample payload, military and
    partner forces. *)
Lemma stored_passenger_rows_witness :
  Pg.run (store := Iso.store) (Server.create_sortie Sample.payload) Sample.busy Pg.Idle
  = (Ok (Server.Created (Js.Num 8) (Js.Str "S-2024-0008")), Sample.recorded, Pg.Idle)
  /\ exists p rows,
       Server.passengers Sample.payload = Some p
       /\ sortie_passengers (Pg.committed Sample.recorded)
          = (sortie_passengers (Pg.committed Sample.busy) ++ rows)%list
       /\ Forall2 (passengers_row_of (Js.Num 8)) (categories p) rows.
Proof.
  assert (H : Pg.run (store := Iso.store) (Server.create_sortie Sample.payload)
                     Sample.busy Pg.Idle
              = (Ok (Server.Created (Js.Num 8) (Js.Str "S-2024-0008")),
                 Sample.recorded, Pg.Idle))
    by (vm_compute; reflexivity).
  split; [exact H |].
  exact (@stored_passenger_rows Iso.store _ _ _ _ _ _ H).
Defined.

(** X8 at work: minus one military passenger on board. *)
Lemma negative_count_rejected_witness :
  Server.passengers Cases.below_zero = Some Cases.passengers_below_zero
  /\ In ("military", Cases.minus_one) (categories Cases.passengers_below_zero)
  /\ (Input.integer (Js.or (Server.onload Cases.minus_one) (Js.Num 0)) = Ok (Some (- 1))
      \/ Input.integer (Js.or (Server.offload Cases.minus_one) (Js.Num 0)) = Ok (Some (- 1)))
  /\ - 1 < 0
  /\ exists e db',
       Pg.run (store := Iso.store) (Server.create_sortie Cases.below_zero)
              Sample.busy Pg.Idle
       = (Ok (Server.Failed e), db', Pg.Idle)
       /\ Pg.committed db' = Pg.committed Sample.busy.
Proof.
  assert (I : In ("military", Cases.minus_one) (categories Cases.passengers_below_zero))
    by (left; reflexivity).
  assert (R : Input.integer (Js.or (Server.onload Cases.minus_one) (Js.Num 0))
              = Ok (Some (- 1))
              \/ Input.integer (Js.or (Server.offload Cases.minus_one) (Js.Num 0))
                 = Ok (Some (- 1)))
    by (left; vm_compute; reflexivity).
  assert (N : - 1 < 0) by lia.
  split; [reflexivity |]. split; [exact I |]. split; [exact R |]. split; [exact N |].
  exact (@negative_count_rejected Iso.store Cases.below_zero Sample.busy
           Cases.passengers_below_zero "military" Cases.minus_one (- 1)
           eq_refl I R N).
Defined.

(** X9 at work: a store whose only user has the key 2. *)
Lemma missing_creator_rejected_witness :
  Schema.has_key 1 (users (Pg.committed Cases.without_user_1)) = false
  /\ exists e db',
       Pg.run (store := Iso.store) (Server.create_sortie Sample.payload)
              Cases.without_user_1 Pg.Idle
       = (Ok (Server.Failed e), db', Pg.Idle)
       /\ Pg.committed db' = Pg.committed Cases.without_user_1.
Proof.
  split; [reflexivity |].
  exact (@missing_creator_rejected Iso.store Sample.payload Cases.without_user_1 eq_refl).
Defined.

Lemma busy_integrity : integrity (Pg.committed Sample.busy).
Proof. repeat split; repeat constructor. Defined.

(** X10 at work: the sample payload is recorded as sortie 8 and fetched
    by GET /api/sorties/8. *)
Lemma created_sortie_is_fetched_witness :
  integrity (Pg.committed Sample.busy)
  /\ Pg.run (store := Iso.store) (Server.create_sortie Sample.payload) Sample.busy Pg.Idle
     = (Ok (Server.Created (Js.Num 8) (Js.Str "S-2024-0008")), Sample.recorded, Pg.Idle)
  /\ exists k srow crew pax crow,
       Js.Num 8 = Js.Num k
       /\ Js.Str "S-2024-0008" = Js.Str (Sorties.sortie_number srow)
       /\ Routes.get_sortie_by_id (Text.of_Z k) (Pg.committed Sample.recorded)
          = Routes.Found srow crew pax (Some crow)
       /\ sorties (Pg.committed Sample.recorded)
          = (sorties (Pg.committed Sample.busy) ++ [srow])%list
       /\ sortie_crew (Pg.committed Sample.recorded)
          = (sortie_crew (Pg.committed Sample.busy) ++ crew)%list
       /\ sortie_passengers (Pg.committed Sample.recorded)
          = (sortie_passengers (Pg.committed Sample.busy) ++ pax)%list
       /\ sortie_cargo (Pg.committed Sample.recorded)
          = (sortie_cargo (Pg.committed Sample.busy) ++ [crow])%list.
Proof.
  assert (H : Pg.run (store := Iso.store) (Server.create_sortie Sample.payload)
                     Sample.busy Pg.Idle
              = (Ok (Server.Created (Js.Num 8) (Js.Str "S-2024-0008")),
                 Sample.recorded, Pg.Idle))
    by (vm_compute; reflexivity).
  split; [exact busy_integrity |]. split; [exact H |].
  exact (@created_sortie_is_fetched Iso.store _ _ _ _ _ _ busy_integrity H).
Defined.

(** X11 at work: the foreign keys of the store after the sample
    payload. *)
Lemma creation_keeps_references_witness :
  integrity (Pg.committed Sample.busy)
  /\ Pg.run (store := Iso.store) (Server.create_sortie Sample.payload) Sample.busy Pg.Idle
     = (Ok (Server.Created (Js.Num 8) (Js.Str "S-2024-0008")), Sample.recorded, Pg.Idle)
  /\ integrity (Pg.committed Sample.recorded).
Proof.
  assert (H : Pg.run (store := Iso.store) (Server.create_sortie Sample.payload)
                     Sample.busy Pg.Idle
              = (Ok (Server.Created (Js.Num 8) (Js.Str "S-2024-0008")),
                 Sample.recorded, Pg.Idle))
    by (vm_compute; reflexivity).
  split; [exact busy_integrity |]. split; [exact H |].
  exact (@creation_keeps_references Iso.store _ _ _ _ _ busy_integrity H).
Defined.

Lemma first_integrity : integrity (Pg.committed Cases.first).
Proof. repeat split; repeat constructor. Defined.

(** X12 at work: a second payload recorded in the store that holds the
    first with its cargo row. *)
Lemma creation_keeps_one_cargo_each_witness :
  integrity (Pg.committed Cases.first)
  /\ one_cargo_each (Pg.committed Cases.first)
  /\ Pg.run (store := Iso.store) (Server.create_sortie Sample.payload) Cases.first Pg.Idle
     = (Ok (Server.Created (Js.Num 2) (Js.Str "S-2024-0002")), Cases.second, Pg.Idle)
  /\ one_cargo_each (Pg.committed Cases.second).
Proof.
  assert (O : one_cargo_each (Pg.committed Cases.first)).
  { constructor; [| constructor]. eexists. reflexivity. }
  assert (H : Pg.run (store := Iso.store) (Server.create_sortie Sample.payload)
                     Cases.first Pg.Idle
              = (Ok (Server.Created (Js.Num 2) (Js.Str "S-2024-0002")),
                 Cases.second, Pg.Idle))
    by (vm_compute; reflexivity).
  split; [exact first_integrity |]. split; [exact O |]. split; [exact H |].
  exact (@creation_keeps_one_cargo_each Iso.store _ _ _ _ _ first_integrity O H).
Defined.

(** X13 at work: the tables after the sample payload. *)
Lemma creation_only_appends_witness :
  Pg.run (store := Iso.store) (Server.create_sortie Sample.payload) Sample.busy Pg.Idle
  = (Ok (Server.Created (Js.Num 8) (Js.Str "S-2024-0008")), Sample.recorded, Pg.Idle)
  /\ extends (sorties (Pg.committed Sample.busy)) (sorties (Pg.committed Sample.recorded))
  /\ extends (sortie_crew (Pg.committed Sample.busy))
             (sortie_crew (Pg.committed Sample.recorded))
  /\ extends (sortie_passengers (Pg.committed Sample.busy))
             (sortie_passengers (Pg.committed Sample.recorded))
  /\ extends (sortie_cargo (Pg.committed Sample.busy))
             (sortie_cargo (Pg.committed Sample.recorded))
  /\ users (Pg.committed Sample.recorded) = users (Pg.committed Sample.busy)
  /\ locations (Pg.committed Sample.recorded) = locations (Pg.committed Sample.busy)
  /\ personnel (Pg.committed Sample.recorded) = personnel (Pg.committed Sample.busy)
  /\ aircraft (Pg.committed Sample.recorded) = aircraft (Pg.committed Sample.busy).
Proof.
  assert (H : Pg.run (store := Iso.store) (Server.create_sortie Sample.payload)
                     Sample.busy Pg.Idle
              = (Ok (Server.Created (Js.Num 8) (Js.Str "S-2024-0008")),
                 Sample.recorded, Pg.Idle))
    by (vm_compute; reflexivity).
  split; [exact H |].
  exact (@creation_only_appends Iso.store _ _ _ _ _ H).
Defined.

(** X14 at work: three requests, the second of which fails after it
    drew the key 9: the third sortie is number 0009 with the key 10. *)
Lemma identifiers_increase_witness :
  serve (store := Iso.store) Cases.three Sample.busy = Cases.served
  /\ fst Cases.served
     = [Ok (Server.Created (Js.Num 8) (Js.Str "S-2024-0008"));
        Ok (Server.Failed UniqueViolation);
        Ok (Server.Created (Js.Num 10) (Js.Str "S-2024-0009"))]
  /\ exists ks,
       created_ids (fst Cases.served) = map Js.Num ks
       /\ StronglySorted Z.lt ks
       /\ Forall (fun k => sorties_sortie_id_seq (Pg.seqs Sample.busy) < k
                           <= sorties_sortie_id_seq (Pg.seqs (snd Cases.served))) ks
       /\ seqs_le (Pg.seqs Sample.busy) (Pg.seqs (snd Cases.served)).
Proof.
  assert (H : serve (store := Iso.store) Cases.three Sample.busy
              = (fst Cases.served, snd Cases.served)) by (vm_compute; reflexivity).
  split; [vm_compute; reflexivity |]. split; [reflexivity |].
  exact (@identifiers_increase Iso.store Cases.three _ _ _ H).
Defined.

(** X15 at work: the 90-minute sortie of aircraft 3 completed, set back
    to Planned and completed again: 3.00 hours. *)
Lemma recompletion_credits_again_witness :
  let t := Sample.scheduled 90 in
  let old := hd (Sample.numbered 0 "") (sorties t) in
  filter (keyed 1) (sorties t) = [old]
  /\ Sorties.sortie_status old = Some "Planned"
  /\ "Planned" <> "Completed"
  /\ Schema.update_sorties 1 (only_status "Completed") t = Ok (Sample.after_completion 90)
  /\ Schema.update_sorties 1 (only_status "Planned") (Sample.after_completion 90)
     = Ok Cases.reopened
  /\ Schema.update_sorties 1 (only_status "Completed") Cases.reopened
     = Ok Cases.completed_again
  /\ Sample.flight_hours 3 Cases.completed_again = Some 300
  /\ (let minutes :=
        Schema.generated_flight_duration (Sorties.takeoff_time old)
                                         (Sorties.landing_time old) in
      aircraft (Sample.after_completion 90)
      = map (credit (Sorties.aircraft_id old) minutes) (aircraft t)
      /\ aircraft Cases.reopened = aircraft (Sample.after_completion 90)
      /\ aircraft Cases.completed_again
         = map (credit (Sorties.aircraft_id old) minutes)
               (aircraft (Sample.after_completion 90))).
Proof.
  intros t old.
  assert (F : filter (keyed 1) (sorties t) = [old]) by reflexivity.
  assert (S0 : Sorties.sortie_status old = Some "Planned") by reflexivity.
  assert (N : "Planned" <> "Completed") by discriminate.
  assert (U1 : Schema.update_sorties 1 (only_status "Completed") t
               = Ok (Sample.after_completion 90)) by (vm_compute; reflexivity).
  assert (U2 : Schema.update_sorties 1 (only_status "Planned") (Sample.after_completion 90)
               = Ok Cases.reopened) by (vm_compute; reflexivity).
  assert (U3 : Schema.update_sorties 1 (only_status "Completed") Cases.reopened
               = Ok Cases.completed_again) by (vm_compute; reflexivity).
  split; [exact F |]. split; [exact S0 |]. split; [exact N |]. split; [exact U1 |].
  split; [exact U2 |]. split; [exact U3 |]. split; [vm_compute; reflexivity |].
  exact (@recompletion_credits_again t 1 old "Planned" "Planned" _ _ _ F S0 N N U1 U2 U3).
Defined.

(** X16 at work: a flight of 89 minutes and 30 seconds counts 90
    minutes. *)
Lemma flight_duration_is_rounded_witness :
  0 < 5370000000
  /\ Schema.generated_flight_duration 0 5370000000 = 90
  /\ (let minutes := Schema.generated_flight_duration 0 5370000000 in
      0 <= minutes
      /\ 60000000 * minutes - 30000000 <= 5370000000 - 0 < 60000000 * minutes + 30000000).
Proof.
  assert (H : 0 < 5370000000) by lia.
  split; [exact H |]. split; [reflexivity |].
  exact (@flight_duration_is_rounded 0 5370000000 H).
Defined.

(** X17 at work: POST /api/sorties. *)
Lemma only_post_writes_witness :
  Routes.dispatch Routes.POST "/api/sorties" = Some (Routes.CreateSortie, [])
  /\ ((Routes.POST = Routes.POST /\ Routes.CreateSortie = Routes.CreateSortie
       /\ Routes.match_path [Routes.Lit "api"; Routes.Lit "sorties"] "/api/sorties"
          = Some [])
      \/ ((Routes.POST = Routes.GET \/ Routes.POST = Routes.HEAD)
          /\ Routes.CreateSortie <> Routes.CreateSortie)).
Proof.
  assert (H : Routes.dispatch Routes.POST "/api/sorties" = Some (Routes.CreateSortie, []))
    by (vm_compute; reflexivity).
  split; [exact H |].
  exact (@only_post_writes Routes.POST "/api/sorties" Routes.CreateSortie [] H).
Defined.

(** X18 at work: a search for a tail number and a search with quotes in
    its values give the same text. *)
Lemma search_text_ignores_values_witness :
  Search.build Cases.by_tail
  = Ok {| Search.query :=
            "SELECT * FROM vw_sorties_complete WHERE 1=1 AND tail_number = $1"
            ++ " AND sortie_number ILIKE $2 ORDER BY takeoff_time DESC LIMIT 100";
          Search.params := [Query.Text "N761HG"; Query.Text "%0008%"];
          Search.paramCount := 3 |}
  /\ Search.build Cases.with_quotes
     = Ok {| Search.query :=
               "SELECT * FROM vw_sorties_complete WHERE 1=1 AND tail_number = $1"
               ++ " AND sortie_number ILIKE $2 ORDER BY takeoff_time DESC LIMIT 100";
             Search.params := [Query.Text "x' OR 1=1 --";
                               Query.Text "%'; DROP TABLE sorties; --%"];
             Search.paramCount := 3 |}
  /\ Search.query Cases.by_tail_statement = Search.query Cases.with_quotes_statement.
Proof.
  assert (B : Search.build Cases.by_tail = Ok Cases.by_tail_statement)
    by (vm_compute; reflexivity).
  assert (B' : Search.build Cases.with_quotes = Ok Cases.with_quotes_statement)
    by (vm_compute; reflexivity).
  split; [exact B |]. split; [exact B' |].
  exact (@search_text_ignores_values Cases.by_tail Cases.with_quotes _ _
           eq_refl eq_refl eq_refl eq_refl eq_refl eq_refl B B').
Defined.

(** X19 at work: the two parameters of the search for a tail number. *)
Lemma search_placeholders_are_bound_witness :
  Search.build Cases.by_tail = Ok Cases.by_tail_statement
  /\ nodup Z.eq_dec (Search.placeholders (Search.query Cases.by_tail_statement))
     = map Z.of_nat (seq 1 (List.length (Search.params Cases.by_tail_statement)))
  /\ Search.paramCount Cases.by_tail_statement
     = Z.of_nat (List.length (Search.params Cases.by_tail_statement)) + 1.
Proof.
  assert (B : Search.build Cases.by_tail = Ok Cases.by_tail_statement)
    by (vm_compute; reflexivity).
  split; [exact B |].
  exact (@search_placeholders_are_bound Cases.by_tail Cases.by_tail_statement B).
Defined.

(** X4 at work: the sortie row of the sample payload. *)
Lemma stored_sortie_row_witness :
  Pg.run (store := Iso.store) (Server.create_sortie Sample.payload) Sample.busy Pg.Idle
  = (Ok (Server.Created (Js.Num 8) (Js.Str "S-2024-0008")), Sample.recorded, Pg.Idle)
  /\ exists s srow,
       Server.sortie Sample.payload = Some s
       /\ sorties (Pg.committed Sample.recorded)
          = (sorties (Pg.committed Sample.busy) ++ [srow])%list
       /\ Input.varchar 50 (Server.missionType s) = Ok (Some (Sorties.mission_type srow))
       /\ Input.integer (Server.tailNumber s) = Ok (Some (Sorties.aircraft_id srow))
       /\ Input.integer (Server.depLocation s)
          = Ok (Some (Sorties.departure_location_id srow))
       /\ Input.integer (Server.arrLocation s)
          = Ok (Some (Sorties.arrival_location_id srow))
       /\ Input.timestamp (store := Iso.store) (Server.takeoffTime s)
          = Ok (Some (Sorties.takeoff_time srow))
       /\ Input.timestamp (store := Iso.store) (Server.landingTime s)
          = Ok (Some (Sorties.landing_time srow))
       /\ Sorties.flight_duration_minutes srow
          = Schema.generated_flight_duration (Sorties.takeoff_time srow)
                                             (Sorties.landing_time srow)
       /\ Sorties.comments srow
          = (if Js.truthy (Server.comments s) then Js.prepareValue (Server.comments s)
             else None)
       /\ Sorties.created_by srow = Some 1
       /\ Schema.sortie_references srow (Pg.committed Sample.busy) = true.
Proof.
  assert (H : Pg.run (store := Iso.store) (Server.create_sortie Sample.payload)
                     Sample.busy Pg.Idle
              = (Ok (Server.Created (Js.Num 8) (Js.Str "S-2024-0008")),
                 Sample.recorded, Pg.Idle))
    by (vm_compute; reflexivity).
  split; [exact H |].
  exact (@stored_sortie_row Iso.store _ _ _ _ _ _ H).
Defined.
